(** * DataBase_bot: the data-access layer, the aggregation queries and the
      transaction-entry dialogue of the finance bot

    A shallow embedding of [src/database.py] ([DatabaseManager]) and of
    [src/bot.py] ([FinanceBotHandlers]), together with the parts of the
    Python library the two files call ([datetime], [calendar], [float],
    [str.split]) and a relational reading of the SQL statements they send;
    then of [src/config.py] and of the spreadsheet mirror [src/excel.py]. *)

From Stdlib Require Import ZArith Lia Bool List String Ascii DecimalString.
From stdpp Require Import base option list gmap strings.
Import ListNotations.

Local Open Scope string_scope.
Local Open Scope list_scope.
Local Open Scope Z_scope.

(** ** Python's [datetime] and [calendar]

    The proleptic Gregorian calendar as [Lib/_pydatetime.py] computes it. *)

Definition MINYEAR : Z := 1.
Definition MAXYEAR : Z := 9999.
Definition MAXORDINAL : Z := 3652059.

Definition is_leap (year : Z) : bool :=
  (year mod 4 =? 0) && (negb (year mod 100 =? 0) || (year mod 400 =? 0)).

(** [_DAYS_IN_MONTH[month]], for [1 <= month <= 12]. *)
Definition DAYS_IN_MONTH (month : Z) : Z :=
  match month with
  | 1 => 31 | 2 => 28 | 3 => 31 | 4 => 30 | 5 => 31 | 6 => 30
  | 7 => 31 | 8 => 31 | 9 => 30 | 10 => 31 | 11 => 30 | 12 => 31
  | _ => -1
  end.

(** [_DAYS_BEFORE_MONTH[month]]. *)
Definition DAYS_BEFORE_MONTH (month : Z) : Z :=
  match month with
  | 1 => 0 | 2 => 31 | 3 => 59 | 4 => 90 | 5 => 120 | 6 => 151
  | 7 => 181 | 8 => 212 | 9 => 243 | 10 => 273 | 11 => 304 | 12 => 334
  | _ => -1
  end.

Definition days_before_year (year : Z) : Z :=
  let y := year - 1 in
  y * 365 + y / 4 - y / 100 + y / 400.

Definition days_in_month (year month : Z) : Z :=
  if (month =? 2) && is_leap year then 29 else DAYS_IN_MONTH month.

Definition days_before_month (year month : Z) : Z :=
  DAYS_BEFORE_MONTH month + (if (2 <? month) && is_leap year then 1 else 0).

Definition ymd2ord (year month day : Z) : Z :=
  days_before_year year + days_before_month year month + day.

Definition DI400Y : Z := 146097.
Definition DI100Y : Z := 36524.
Definition DI4Y : Z := 1461.

(** The month and the day of the [n]-th day (from 0) of a year. *)
Definition month_day (leapyear : bool) (n : Z) : Z * Z :=
  let month := Z.shiftr (n + 50) 5 in
  let preceding :=
    DAYS_BEFORE_MONTH month + (if (2 <? month) && leapyear then 1 else 0) in
  if n <? preceding then
    let month' := month - 1 in
    let preceding' :=
      preceding
      - (DAYS_IN_MONTH month' + (if (month' =? 2) && leapyear then 1 else 0)) in
    (month', n - preceding' + 1)
  else (month, n - preceding + 1).

Definition ord2ymd (ordinal : Z) : Z * Z * Z :=
  let n := ordinal - 1 in
  let n400 := n / DI400Y in
  let n := n mod DI400Y in
  let n100 := n / DI100Y in
  let n := n mod DI100Y in
  let n4 := n / DI4Y in
  let n := n mod DI4Y in
  let n1 := n / 365 in
  let n := n mod 365 in
  let year := n400 * 400 + 1 + (n100 * 100 + n4 * 4 + n1) in
  if (n1 =? 4) || (n100 =? 4) then (year - 1, 12, 31)
  else
    let leapyear := (n1 =? 3) && (negb (n4 =? 24) || (n100 =? 3)) in
    let '(month, day) := month_day leapyear n in
    (year, month, day).

Record datetime : Type := mk_datetime {
  year : Z; month : Z; day : Z;
  hour : Z; minute : Z; second : Z; microsecond : Z
}.

(** The range checks of the [datetime] constructor. *)
Definition check_date_fields (y m d : Z) : bool :=
  (MINYEAR <=? y) && (y <=? MAXYEAR) && (1 <=? m) && (m <=? 12)
  && (1 <=? d) && (d <=? days_in_month y m).

Definition check_time_fields (h mi s us : Z) : bool :=
  (0 <=? h) && (h <=? 23) && (0 <=? mi) && (mi <=? 59)
  && (0 <=? s) && (s <=? 59) && (0 <=? us) && (us <=? 999999).

Definition valid_datetime (t : datetime) : bool :=
  check_date_fields (year t) (month t) (day t)
  && check_time_fields (hour t) (minute t) (second t) (microsecond t).

(** [datetime(y, m, d, h, mi, s)]: [None] stands for [ValueError]. *)
Definition datetime_new (y m d h mi s : Z) : option datetime :=
  if check_date_fields y m d && check_time_fields h mi s 0
  then Some (mk_datetime y m d h mi s 0) else None.

Definition toordinal (t : datetime) : Z := ymd2ord (year t) (month t) (day t).

(** [datetime.weekday()]: Monday is 0. *)
Definition weekday (t : datetime) : Z := (toordinal t + 6) mod 7.

(** [t.replace(day=1, hour=0, minute=0, second=0, microsecond=0)]: day 1
    exists in every month, so the constructor's check cannot fail. *)
Definition replace_day1_midnight (t : datetime) : datetime :=
  mk_datetime (year t) (month t) 1 0 0 0 0.

(** [t.replace(hour=0, minute=0, second=0, microsecond=0)]. *)
Definition replace_midnight (t : datetime) : datetime :=
  mk_datetime (year t) (month t) (day t) 0 0 0 0.

(** A normalised [timedelta]: [0 <= seconds < 86400],
    [0 <= microseconds < 1000000]. *)
Record timedelta : Type := mk_timedelta {
  td_days : Z; td_seconds : Z; td_microseconds : Z
}.

(** [timedelta(days=d, hours=h, minutes=m, seconds=s)]. *)
Definition timedelta_new (d h m s : Z) : timedelta :=
  let secs := h * 3600 + m * 60 + s in
  mk_timedelta (d + secs / 86400) (secs mod 86400) 0.

Definition timedelta_neg (td : timedelta) : timedelta :=
  let us := - td_microseconds td in
  let secs := - td_seconds td + us / 1000000 in
  mk_timedelta (- td_days td + secs / 86400) (secs mod 86400) (us mod 1000000).

(** [datetime.__add__]: [None] stands for [OverflowError]. *)
Definition datetime_add (t : datetime) (td : timedelta) : option datetime :=
  let us := microsecond t + td_microseconds td in
  let secs :=
    hour t * 3600 + minute t * 60 + second t + td_seconds td + us / 1000000 in
  let days := toordinal t + td_days td + secs / 86400 in
  let rem := secs mod 86400 in
  if (0 <? days) && (days <=? MAXORDINAL) then
    let '(y, m, d) := ord2ymd days in
    Some (mk_datetime y m d (rem / 3600) (rem mod 3600 / 60) (rem mod 60)
            (us mod 1000000))
  else None.

(** [datetime.__sub__] with a [timedelta]: [self + -other]. *)
Definition datetime_sub (t : datetime) (td : timedelta) : option datetime :=
  datetime_add t (timedelta_neg td).

(** [calendar.monthrange(year, month)]: the weekday of the first day and the
    number of days; [None] stands for [IllegalMonthError]. *)
Definition monthrange (y m : Z) : option (Z * Z) :=
  if (1 <=? m) && (m <=? 12) then
    let y' :=
      if (MINYEAR <=? y) && (y <=? MAXYEAR) then y else 2000 + y mod 400 in
    Some ((ymd2ord y' m 1 + 6) mod 7,
          DAYS_IN_MONTH m + (if (m =? 2) && is_leap y then 1 else 0))
  else None.

(** The order of timestamps, as PostgreSQL compares them: by the number of
    microseconds since the start of the calendar. *)
Definition dt_key (t : datetime) : Z :=
  ((toordinal t * 86400 + hour t * 3600 + minute t * 60 + second t) * 1000000)
  + microsecond t.

Definition dt_leb (a b : datetime) : bool := dt_key a <=? dt_key b.

(** ** Numbers

    A NUMERIC value of the store is an exact decimal [coef * 10 ^ expo].
    A Python [float] is held the same way, by the decimal it was read from
    (binary rounding is not modelled), next to the two infinities and NaN. *)

Record decimal : Type := mk_decimal { coef : Z; expo : Z }.

Definition dec_zero : decimal := mk_decimal 0 0.
Definition dec_of_Z (z : Z) : decimal := mk_decimal z 0.

(** The coefficient of [d] at the (smaller or equal) exponent [e]. *)
Definition dec_scale (d : decimal) (e : Z) : Z := coef d * 10 ^ (expo d - e).

Definition dec_add (a b : decimal) : decimal :=
  let e := Z.min (expo a) (expo b) in
  mk_decimal (dec_scale a e + dec_scale b e) e.

Definition dec_opp (a : decimal) : decimal := mk_decimal (- coef a) (expo a).

Definition dec_sub (a b : decimal) : decimal := dec_add a (dec_opp b).

Definition dec_ltb (a b : decimal) : bool :=
  let e := Z.min (expo a) (expo b) in
  dec_scale a e <? dec_scale b e.

Definition dec_sum (l : list decimal) : decimal := fold_left dec_add l dec_zero.

Inductive pyfloat : Type :=
  | FFin (d : decimal)
  | FInf (negative : bool)
  | FNan.

Definition float_sub (a b : pyfloat) : pyfloat :=
  match a, b with
  | FNan, _ | _, FNan => FNan
  | FInf s, FInf s' => if Bool.eqb s s' then FNan else FInf s
  | FInf s, FFin _ => FInf s
  | FFin _, FInf s => FInf (negb s)
  | FFin x, FFin y => FFin (dec_sub x y)
  end.

(** [x > 0] on floats. *)
Definition float_is_positive (a : pyfloat) : bool :=
  match a with
  | FFin d => 0 <? coef d
  | FInf s => negb s
  | FNan => false
  end.

(** The values a summary holds: the [int] it starts from or a [float]. *)
Inductive pynum : Type :=
  | PyInt (z : Z)
  | PyFloat (f : pyfloat).

(** Python's [-] on [int] and [float] operands. *)
Definition py_sub (a b : pynum) : pynum :=
  match a, b with
  | PyInt x, PyInt y => PyInt (x - y)
  | PyInt x, PyFloat g => PyFloat (float_sub (FFin (dec_of_Z x)) g)
  | PyFloat f, PyInt y => PyFloat (float_sub f (FFin (dec_of_Z y)))
  | PyFloat f, PyFloat g => PyFloat (float_sub f g)
  end.

(** ** Python strings: [float(str)], [str.startswith], [str.split]

    Strings are byte strings; of [float]'s grammar the ASCII part is modelled
    (no Unicode digits or spaces). *)

Definition is_space (c : ascii) : bool :=
  let n := nat_of_ascii c in
  ((9 <=? n) && (n <=? 13))%nat || ((28 <=? n) && (n <=? 32))%nat.

Definition is_digit (c : ascii) : bool :=
  let n := nat_of_ascii c in ((48 <=? n) && (n <=? 57))%nat.

Definition digit_val (c : ascii) : Z := Z.of_nat (nat_of_ascii c) - 48.

Definition lower (c : ascii) : ascii :=
  let n := nat_of_ascii c in
  if ((65 <=? n) && (n <=? 90))%nat then ascii_of_nat (n + 32) else c.

Fixpoint lstrip (l : list ascii) : list ascii :=
  match l with
  | c :: l' => if is_space c then lstrip l' else l
  | [] => []
  end.

Definition strip (l : list ascii) : list ascii := rev (lstrip (rev (lstrip l))).

(** The rest of a [digitpart] after its first digit: digits, each possibly
    preceded by one underscore.  Returns the value, the number of digits read
    and the unread input. *)
Fixpoint digits_rest (acc cnt : Z) (l : list ascii) : Z * Z * list ascii :=
  match l with
  | [] => (acc, cnt, [])
  | c :: l' =>
      if is_digit c then digits_rest (acc * 10 + digit_val c) (cnt + 1) l'
      else if Ascii.eqb c "_" then
        match l' with
        | c2 :: l'' =>
            if is_digit c2
            then digits_rest (acc * 10 + digit_val c2) (cnt + 1) l''
            else (acc, cnt, l)
        | [] => (acc, cnt, l)
        end
      else (acc, cnt, l)
  end.

(** [digitpart ::= digit (["_"] digit)*], continuing the value [acc]. *)
Definition digitpart (acc : Z) (l : list ascii) : option (Z * Z * list ascii) :=
  match l with
  | c :: l' =>
      if is_digit c then Some (digits_rest (acc * 10 + digit_val c) 1 l')
      else None
  | [] => None
  end.

(** [[sign]]: whether the sign is a minus, and the unread input. *)
Definition opt_sign (l : list ascii) : bool * list ascii :=
  match l with
  | c :: l' => if Ascii.eqb c "-" then (true, l')
               else if Ascii.eqb c "+" then (false, l') else (false, l)
  | [] => (false, [])
  end.

(** [number ::= [digitpart] "." digitpart | digitpart ["."]]: the digits as an
    integer, the number of digits after the point, and the unread input. *)
Definition number (l : list ascii) : option (Z * Z * list ascii) :=
  match l with
  | c :: l' =>
      if Ascii.eqb c "." then
        match digitpart 0 l' with
        | Some (v, n, r) => Some (v, n, r)
        | None => None
        end
      else
        match digitpart 0 l with
        | Some (v, _, r) =>
            match r with
            | c' :: r' =>
                if Ascii.eqb c' "." then
                  match digitpart v r' with
                  | Some (v', n, r'') => Some (v', n, r'')
                  | None => Some (v, 0, r')
                  end
                else Some (v, 0, r)
            | [] => Some (v, 0, [])
            end
        | None => None
        end
  | [] => None
  end.

(** [[exponent]], with [exponent ::= ("e" | "E") [sign] digitpart]: [None]
    when an exponent mark is not followed by a well-formed exponent. *)
Definition opt_exponent (l : list ascii) : option (Z * list ascii) :=
  match l with
  | c :: l' =>
      if Ascii.eqb (lower c) "e" then
        let '(neg, r) := opt_sign l' in
        match digitpart 0 r with
        | Some (v, _, r') => Some (if neg then - v else v, r')
        | None => None
        end
      else Some (0, l)
  | [] => Some (0, [])
  end.

Definition floatnumber (neg : bool) (l : list ascii) : option pyfloat :=
  match number l with
  | Some (v, frac, r) =>
      match opt_exponent r with
      | Some (e, []) =>
          Some (FFin (mk_decimal (if neg then - v else v) (e - frac)))
      | _ => None
      end
  | None => None
  end.

(** [float(text)] for a [str]: [None] stands for [ValueError]. *)
Definition py_float (text : string) : option pyfloat :=
  let '(neg, body) := opt_sign (strip (list_ascii_of_string text)) in
  let word := string_of_list_ascii (map lower body) in
  if String.eqb word "inf" || String.eqb word "infinity" then Some (FInf neg)
  else if String.eqb word "nan" then Some FNan
  else floatnumber neg body.

(** [s.startswith(p)]. *)
Definition startswith (p s : string) : bool := String.prefix p s.

(** [s.split(sep)] for a one-character separator. *)
Fixpoint split (sep : ascii) (s : string) : list string :=
  match s with
  | EmptyString => [EmptyString]
  | String c s' =>
      if Ascii.eqb c sep then EmptyString :: split sep s'
      else match split sep s' with
           | f :: fs => String c f :: fs
           | [] => [String c EmptyString]
           end
  end.

(** ** The store: tables, rows and the SQL statements of [database.py] *)

Record user_row : Type := mk_user {
  u_user_id : Z; u_name : string; u_currency : string
}.

Record transaction_row : Type := mk_transaction {
  t_id : Z; t_user_id : Z; t_type : string; t_amount : decimal;
  t_category : string; t_description : string; t_date : datetime
}.

Record category_row : Type := mk_category {
  c_id : Z; c_name : string; c_type : string; c_user_id : option Z
}.

Record budget_row : Type := mk_budget {
  b_id : Z; b_user_id : Z; b_category : string;
  b_limit_amount : decimal; b_period : string
}.

(** The four tables of [create_tables] and the sequence behind
    [transactions.id SERIAL]. *)
Record database : Type := mk_database {
  users : list user_row;
  transactions : list transaction_row;
  categories : list category_row;
  budgets : list budget_row;
  transactions_id_seq : Z
}.

(** What a cursor hands back for a column. *)
Inductive value : Type :=
  | VNull
  | VInt (z : Z)
  | VNum (d : decimal)
  | VStr (s : string)
  | VTime (t : datetime).

(** [dict(zip(columns, row))]: column name to value, in column order. *)
Definition row : Type := list (string * value).

Fixpoint row_get (k : string) (r : row) : option value :=
  match r with
  | [] => None
  | (k', v) :: r' => if String.eqb k k' then Some v else row_get k r'
  end.

(** The SELECT statements, with their parameters. *)
Inductive select : Type :=
  | SelBudgetLimit (user_id : Z) (category period : string)
      (* SELECT limit_amount FROM budgets
         WHERE user_id = %s AND category = %s AND period = %s *)
  | SelSpent (user_id : Z) (category : string) (start_date : datetime)
      (* SELECT COALESCE(SUM(amount), 0) as total FROM transactions
         WHERE user_id = %s AND category = %s AND type = 'expense'
           AND date >= %s *)
  | SelMonthly (user_id : Z) (start_date end_date : datetime)
      (* SELECT type, SUM(amount) as total, COUNT( * ) as count
         FROM transactions WHERE user_id = %s AND date BETWEEN %s AND %s
         GROUP BY type *)
  | SelCategories (user_id : Z) (category_type : option string).
      (* SELECT * FROM categories WHERE user_id = %s [AND type = %s]
         ORDER BY name *)

(** The INSERT and UPDATE statements, with their parameters. *)
Inductive dml : Type :=
  | UpdUser (name currency : string) (user_id : Z)
      (* UPDATE users SET name = %s, currency = %s WHERE user_id = %s *)
  | InsUser (user_id : Z) (name currency : string)
      (* INSERT INTO users (user_id, name, currency) VALUES (%s, %s, %s) *)
  | InsTransaction (user_id : Z) (type : string) (amount : pyfloat)
      (category description : string).
      (* INSERT INTO transactions
           (user_id, type, amount, category, description, date)
         VALUES (%s, %s, %s, %s, %s, NOW()) *)

Definition spent_filter (uid : Z) (cat : string) (start : datetime)
    (t : transaction_row) : bool :=
  (t_user_id t =? uid) && String.eqb (t_category t) cat
  && String.eqb (t_type t) "expense" && dt_leb start (t_date t).

Definition between_filter (uid : Z) (start end_ : datetime)
    (t : transaction_row) : bool :=
  (t_user_id t =? uid) && dt_leb start (t_date t) && dt_leb (t_date t) end_.

(** The keys of a GROUP BY, each once. *)
Fixpoint distinct (l : list string) : list string :=
  match l with
  | [] => []
  | x :: r => x :: List.filter (fun y => negb (String.eqb x y)) (distinct r)
  end.

Definition type_is (ty : string) (t : transaction_row) : bool :=
  String.eqb (t_type t) ty.

(** The row of a group: its type, SUM(amount) and COUNT( * ). *)
Definition group_row (ts : list transaction_row) (ty : string) : row :=
  let g := List.filter (type_is ty) ts in
  [("type", VStr ty); ("total", VNum (dec_sum (map t_amount g)));
   ("count", VInt (Z.of_nat (length g)))].

(** GROUP BY type: one row per type that occurs. *)
Definition group_by_type (ts : list transaction_row) : list row :=
  map (group_row ts) (distinct (map t_type ts)).

Fixpoint insert_by_name (c : category_row) (l : list category_row)
    : list category_row :=
  match l with
  | [] => [c]
  | d :: l' => if String.leb (c_name c) (c_name d) then c :: l
               else d :: insert_by_name c l'
  end.

Definition order_by_name (l : list category_row) : list category_row :=
  fold_right insert_by_name [] l.

Definition category_dict (c : category_row) : row :=
  [("id", VInt (c_id c)); ("name", VStr (c_name c)); ("type", VStr (c_type c));
   ("user_id", match c_user_id c with Some u => VInt u | None => VNull end)].

Definition category_filter (uid : Z) (ty : option string) (c : category_row)
    : bool :=
  match c_user_id c with
  | Some u =>
      (u =? uid)
      && match ty with
         | Some t => String.eqb (c_type c) t
         | None => true
         end
  | None => false
  end.

(** The rows a SELECT returns on a database. *)
Definition run_select (d : database) (q : select) : list row :=
  match q with
  | SelBudgetLimit uid cat period =>
      map (fun b => [("limit_amount", VNum (b_limit_amount b))])
          (List.filter (fun b => (b_user_id b =? uid)
                                 && String.eqb (b_category b) cat
                                 && String.eqb (b_period b) period)
             (budgets d))
  | SelSpent uid cat start =>
      [[("total",
         VNum (dec_sum (map t_amount
                          (List.filter (spent_filter uid cat start)
                             (transactions d)))))]]
  | SelMonthly uid start end_ =>
      group_by_type
        (List.filter (between_filter uid start end_) (transactions d))
  | SelCategories uid ty =>
      map category_dict
          (order_by_name (List.filter (category_filter uid ty) (categories d)))
  end.

Definition has_user (uid : Z) (d : database) : bool :=
  existsb (fun u => u_user_id u =? uid) (users d).

(** A NUMERIC column takes the finite floats. *)
Definition numeric_of_float (f : pyfloat) : option decimal :=
  match f with
  | FFin d => Some d
  | _ => None
  end.

(** The effect of an INSERT or UPDATE: the new database and the row count, or
    [None] when the store rejects the statement ([users.user_id] is the
    primary key; [transactions.user_id] references it). *)
Definition run_dml (d : database) (now : datetime) (s : dml)
    : option (database * Z) :=
  match s with
  | UpdUser name currency uid =>
      Some (mk_database
              (map (fun u => if u_user_id u =? uid
                             then mk_user uid name currency else u) (users d))
              (transactions d) (categories d) (budgets d)
              (transactions_id_seq d),
            Z.of_nat
              (length (List.filter (fun u => u_user_id u =? uid) (users d))))
  | InsUser uid name currency =>
      if has_user uid d then None
      else Some (mk_database (users d ++ [mk_user uid name currency])
                   (transactions d) (categories d) (budgets d)
                   (transactions_id_seq d), 1)
  | InsTransaction uid ty amount cat desc =>
      match numeric_of_float amount with
      | Some a =>
          if has_user uid d then
            Some (mk_database (users d)
                    (transactions d
                     ++ [mk_transaction (transactions_id_seq d) uid ty a cat
                           desc now])
                    (categories d) (budgets d) (transactions_id_seq d + 1), 1)
          else None
      | None => None
      end
  end.

(** ** [DatabaseManager]: the connection and what it talks to *)

Inductive event : Type :=
  | EvConnect (ok : bool)               (* pg8000.connect(...) *)
  | EvProbe (ok : bool)                 (* SELECT 1 of check_connection *)
  | EvSelect (q : select) (ok : bool)   (* cursor.execute of a read *)
  | EvCommit (s : dml)                  (* execute and commit of a write *)
  | EvRollback (s : dml).               (* a write that failed, rolled back *)

(** [connection] is the attribute of the Python object ([None] until the
    first successful [connect]).  The other fields are its environment: the
    database behind the connection, the clocks read by [datetime.now()] and by
    SQL's [NOW()], the interactions with the server so far, and [net], which
    tells for the [i]-th interaction whether the server answers it: a connect
    or a probe that is not answered fails, a statement that is not answered
    raises [DatabaseError]. *)
Record DatabaseManager : Type := mk_manager {
  connection : option nat;
  store : database;
  net : nat -> bool;
  log : list event;
  clock : datetime;
  server_clock : datetime
}.

Inductive exn : Type :=
  | ValueError | KeyError | TypeError | OverflowError | IndexError
  | AttributeError.

Inductive result (A : Type) : Type :=
  | Ok (a : A)
  | Raise (e : exn).
Arguments Ok {A} a.
Arguments Raise {A} e.

(** Methods of the manager: they return or raise, and leave a manager. *)
Definition M (A : Type) : Type := DatabaseManager -> result A * DatabaseManager.

Definition ret {A : Type} (a : A) : M A := fun m => (Ok a, m).

Definition raise {A : Type} (e : exn) : M A := fun m => (Raise e, m).

Definition bind {A B : Type} (c : M A) (k : A -> M B) : M B :=
  fun m => match c m with
           | (Ok a, m') => k a m'
           | (Raise e, m') => (Raise e, m')
           end.

Notation "x <- c ;; k" := (bind c (fun x => k))
  (at level 100, c at next level, right associativity).

Definition of_option {A : Type} (e : exn) (o : option A) : M A :=
  match o with
  | Some a => ret a
  | None => raise e
  end.

Definition answered (m : DatabaseManager) : bool := net m (length (log m)).

Definition record (e : event) (m : DatabaseManager) : DatabaseManager :=
  mk_manager (connection m) (store m) (net m) (log m ++ [e]) (clock m)
    (server_clock m).

Definition connect : M bool := fun m =>
  let ok := answered m in
  (Ok ok,
   mk_manager (if ok then Some (length (log m)) else connection m) (store m)
     (net m) (log m ++ [EvConnect ok]) (clock m) (server_clock m)).

Definition check_connection : M bool := fun m =>
  match connection m with
  | None => (Ok false, m)
  | Some _ => let ok := answered m in (Ok ok, record (EvProbe ok) m)
  end.

(** [not self.connection or not self.check_connection()]. *)
Definition connection_lost : M bool := fun m =>
  match connection m with
  | None => (Ok true, m)
  | Some _ => (ok <- check_connection ;; ret (negb ok)) m
  end.

(** The opening of [execute_query], [execute_insert] and [execute_update]:
    whether the statement is to be run. *)
Definition reconnect_if_lost : M bool :=
  lost <- connection_lost ;;
  if lost then connect else ret true.

Definition execute_query (q : select) : M (list row) :=
  go <- reconnect_if_lost ;;
  if go then
    fun m =>
      let ok := answered m in
      (Ok (if ok then run_select (store m) q else []), record (EvSelect q ok) m)
  else ret [].

(** The [try] block of a write: the row count when it commits.  A statement
    the server does not answer, or rejects, is rolled back; the rollback is
    taken to succeed. *)
Definition write (s : dml) : M (option Z) := fun m =>
  match (if answered m then run_dml (store m) (server_clock m) s else None) with
  | Some (d', affected) =>
      (Ok (Some affected),
       mk_manager (connection m) d' (net m) (log m ++ [EvCommit s]) (clock m)
         (server_clock m))
  | None => (Ok None, record (EvRollback s) m)
  end.

(** [return True] after the commit, [return False] after the rollback. *)
Definition committed (r : option Z) : bool :=
  match r with
  | Some _ => true
  | None => false
  end.

(** [bool(affected and affected > 0)] after the commit, [False] after the
    rollback. *)
Definition rows_affected (r : option Z) : bool :=
  match r with
  | Some affected => 0 <? affected
  | None => false
  end.

Definition execute_insert (s : dml) : M bool :=
  go <- reconnect_if_lost ;;
  if go then r <- write s ;; ret (committed r) else ret false.

Definition execute_update (s : dml) : M bool :=
  go <- reconnect_if_lost ;;
  if go then r <- write s ;; ret (rows_affected r) else ret false.

Definition add_user (user_id : Z) (name currency : string) : M bool :=
  updated <- execute_update (UpdUser name currency user_id) ;;
  if updated then ret true
  else execute_insert (InsUser user_id name currency).

Definition add_transaction (user_id : Z) (transaction_type : string)
    (amount : pyfloat) (category description : string) : M bool :=
  execute_insert
    (InsTransaction user_id transaction_type amount category description).

(** [if category_type:] is false for [None] and for the empty string. *)
Definition get_categories (user_id : Z) (category_type : option string)
    : M (list row) :=
  match category_type with
  | Some (String _ _ as ty) => execute_query (SelCategories user_id (Some ty))
  | _ => execute_query (SelCategories user_id None)
  end.

Definition getitem (r : row) (k : string) : result value :=
  match row_get k r with
  | Some v => Ok v
  | None => Raise KeyError
  end.

(** Python's [a > b] on what the cursor returns for numeric columns. *)
Definition value_gt (a b : value) : result bool :=
  match a, b with
  | VNum x, VNum y => Ok (dec_ltb y x)
  | VInt x, VNum y => Ok (dec_ltb y (dec_of_Z x))
  | VNum x, VInt y => Ok (dec_ltb (dec_of_Z y) x)
  | VInt x, VInt y => Ok (y <? x)
  | _, _ => Raise TypeError
  end.

Definition lift {A : Type} (r : result A) : M A := fun m => (r, m).

Definition check_budget_exceeded (user_id : Z) (category period : string)
    : M (bool * value * value) :=
  budget_result <- execute_query (SelBudgetLimit user_id category period) ;;
  match budget_result with
  | [] => ret (false, VInt 0, VInt 0)
  | first :: _ =>
      limit_amount <- lift (getitem first "limit_amount") ;;
      now <- (fun m => (Ok (clock m), m)) ;;
      start_date <-
        (if String.eqb period "month" then ret (replace_day1_midnight now)
         else
           d <- of_option OverflowError
                  (datetime_sub now (timedelta_new (weekday now) 0 0 0)) ;;
           ret (replace_midnight d)) ;;
      spent_result <- execute_query (SelSpent user_id category start_date) ;;
      spent_amount <-
        match spent_result with
        | r :: _ => lift (getitem r "total")
        | [] => ret (VInt 0)
        end ;;
      exceeded <- lift (value_gt spent_amount limit_amount) ;;
      ret (exceeded, spent_amount, limit_amount)
  end.

(** The dictionary [get_monthly_summary] returns. *)
Record summary : Type := mk_summary {
  income : pynum;
  expense : pynum;
  income_count : value;
  expense_count : value;
  balance : pynum
}.

(** [float(x)] on a value of the cursor. *)
Definition float_of_value (v : value) : result pyfloat :=
  match v with
  | VNum d => Ok (FFin d)
  | VInt z => Ok (FFin (dec_of_Z z))
  | VStr s =>
      match py_float s with
      | Some f => Ok f
      | None => Raise ValueError
      end
  | _ => Raise TypeError
  end.

Definition rbind {A B : Type} (r : result A) (k : A -> result B) : result B :=
  match r with
  | Ok a => k a
  | Raise e => Raise e
  end.

Notation "x <~ r ;; k" := (rbind r (fun x => k))
  (at level 100, r at next level, right associativity).

(** [v == s] for a string literal [s]. *)
Definition is_str (v : value) (s : string) : bool :=
  match v with
  | VStr x => String.eqb x s
  | _ => false
  end.

(** The body of [for row in results] of [get_monthly_summary]. *)
Definition summary_row (r : row) (s : summary) : result summary :=
  ty <~ getitem r "type" ;;
  if is_str ty "income" then
    total <~ getitem r "total" ;;
    f <~ float_of_value total ;;
    c <~ getitem r "count" ;;
    Ok (mk_summary (PyFloat f) (expense s) c (expense_count s) (balance s))
  else
    ty' <~ getitem r "type" ;;
    if is_str ty' "expense" then
      total <~ getitem r "total" ;;
      f <~ float_of_value total ;;
      c <~ getitem r "count" ;;
      Ok (mk_summary (income s) (PyFloat f) (income_count s) c (balance s))
    else Ok s.

Fixpoint summary_loop (rows : list row) (s : summary) : result summary :=
  match rows with
  | [] => Ok s
  | r :: rows' => s' <~ summary_row r s ;; summary_loop rows' s'
  end.

Definition get_monthly_summary (user_id year month : Z) : M summary :=
  start_date <- of_option ValueError (datetime_new year month 1 0 0 0) ;;
  range <- of_option ValueError (monthrange year month) ;;
  end_date <- of_option ValueError
                (datetime_new year month (snd range) 23 59 59) ;;
  results <- execute_query (SelMonthly user_id start_date end_date) ;;
  s <- lift (summary_loop results
               (mk_summary (PyInt 0) (PyInt 0) (VInt 0) (VInt 0) (PyInt 0))) ;;
  ret (mk_summary (income s) (expense s) (income_count s) (expense_count s)
         (py_sub (income s) (expense s))).

Definition get_weekly_summary (user_id : Z) (start_date : datetime)
    : M summary :=
  end_date <- of_option OverflowError
                (datetime_add start_date (timedelta_new 6 23 59 59)) ;;
  get_monthly_summary user_id (year start_date) (month start_date).

(** ** [FinanceBotHandlers]: the dialogue of [bot.py] *)

(** A value of [user_states]: a dictionary with the keys ['state'], ['type'],
    ['amount'], ['category'] and ['description'], each present or not. *)
Record state_info : Type := mk_state_info {
  si_state : option string;
  si_type : option string;
  si_amount : option pyfloat;
  si_category : option string;
  si_description : option string
}.

(** An inline keyboard: per button its label and its [callback_data]. *)
Definition keyboard : Type := list (value * string).

(** What a handler does to its collaborators. *)
Inductive effect : Type :=
  | SendMessage (chat_id : Z) (text : string) (reply_markup : option keyboard)
  | AnswerCallbackQuery (id : Z)
  | BackupTransaction (user_id : Z) (type : string) (amount : pyfloat)
      (category description : string)
  | LogError (user_id : Z) (info : state_info).

Record message : Type := mk_message {
  msg_from_user : Z; msg_chat : Z; msg_text : string
}.

Record callback_query : Type := mk_call {
  call_id : Z; call_from_user : Z; call_chat : Z; call_data : string
}.

Record FinanceBotHandlers : Type := mk_handlers {
  db_manager : option DatabaseManager;
  user_states : gmap Z state_info;
  effects : list effect
}.

(** A handler returns or raises, and leaves the handlers object. *)
Definition handler : Type :=
  FinanceBotHandlers -> result unit * FinanceBotHandlers.

Definition emit (e : effect) (h : FinanceBotHandlers) : FinanceBotHandlers :=
  mk_handlers (db_manager h) (user_states h) (effects h ++ [e]).

Definition set_states (st : gmap Z state_info) (h : FinanceBotHandlers)
    : FinanceBotHandlers :=
  mk_handlers (db_manager h) st (effects h).

Definition set_manager (m : DatabaseManager) (h : FinanceBotHandlers)
    : FinanceBotHandlers :=
  mk_handlers (Some m) (user_states h) (effects h).

Definition clear_user_state (user_id : Z) (h : FinanceBotHandlers)
    : FinanceBotHandlers :=
  set_states (delete user_id (user_states h)) h.

Definition add_command (msg : message) : handler := fun h =>
  let user_id := msg_from_user msg in
  let info := mk_state_info (Some "waiting_type") None None None None in
  let h := set_states (<[user_id := info]> (user_states h)) h in
  (Ok tt,
   emit (SendMessage (msg_chat msg) "Выберите тип транзакции:"
           (Some [(VStr "Доход", "type_income");
                  (VStr "Расход", "type_expense")]))
     h).

Definition cancel_command (msg : message) : handler := fun h =>
  let user_id := msg_from_user msg in
  let h := clear_user_state user_id h in
  (Ok tt, emit (SendMessage (msg_chat msg) "Операция отменена" None) h).

(** [str(z)] for an [int]. *)
Definition str_of_int (z : Z) : string := NilZero.string_of_int (Z.to_int z).

(** [f"cat_{v}"] for the value of an [id] column, which is an integer. *)
Definition cat_callback_data (v : value) : result string :=
  match v with
  | VInt z => Ok ("cat_" ++ str_of_int z)%string
  | _ => Raise TypeError
  end.

(** The keyboard built by [for cat in categories[:5]]. *)
Fixpoint category_keyboard (cats : list row) : result keyboard :=
  match cats with
  | [] => Ok []
  | cat :: cats' =>
      name <~ getitem cat "name" ;;
      id <~ getitem cat "id" ;;
      data <~ cat_callback_data id ;;
      rest <~ category_keyboard cats' ;;
      Ok ((name, data) :: rest)
  end.

Definition state_is (info : state_info) (s : string) : bool :=
  match si_state info with
  | Some x => String.eqb x s
  | None => false
  end.

(** The [waiting_amount] branch of [handle_message] after [float] returned
    [amount]: what follows the two assignments to [state_info]. *)
Definition prompt_category (msg : message) (info : state_info) : handler :=
  fun h =>
    match db_manager h with
    | None => (Raise AttributeError, h)
    | Some m =>
        let '(r, m') := get_categories (msg_from_user msg) (si_type info) m in
        let h := set_manager m' h in
        match r with
        | Raise e => (Raise e, h)
        | Ok [] =>
            (Ok tt,
             emit (SendMessage (msg_chat msg) "Категории недоступны" None) h)
        | Ok categories =>
            match category_keyboard (firstn 5 categories) with
            | Raise e => (Raise e, h)
            | Ok markup =>
                (Ok tt,
                 emit (SendMessage (msg_chat msg) "Выберите категорию:"
                         (Some markup)) h)
            end
        end
    end.

(** The [waiting_description] branch of [handle_message] after the
    description was stored in [info]. *)
Definition save_transaction (msg : message) (info : state_info) : handler :=
  fun h =>
    let user_id := msg_from_user msg in
    match db_manager h with
    | None =>
        (Ok tt,
         clear_user_state user_id
           (emit (SendMessage (msg_chat msg) "Ошибка подключения к базе данных"
                    None) h))
    | Some m =>
        match si_type info, si_amount info, si_description info with
        | Some ty, Some amount, Some description =>
            let category := default "Other" (si_category info) in
            let '(r, m') :=
              add_transaction user_id ty amount category description m in
            let h := set_manager m' h in
            match r with
            | Raise e => (Raise e, h)
            | Ok true =>
                (Ok tt,
                 clear_user_state user_id
                   (emit (SendMessage (msg_chat msg)
                            "Транзакция успешно сохранена" None)
                      (emit (BackupTransaction user_id ty amount category
                               description) h)))
            | Ok false =>
                (Ok tt,
                 clear_user_state user_id
                   (emit (LogError user_id info)
                      (emit (SendMessage (msg_chat msg)
                               "Ошибка при сохранении транзакции. Администратор получит лог."
                               None) h)))
            end
        | _, _, _ => (Raise KeyError, h)
        end
    end.

Definition handle_message (msg : message) : handler := fun h =>
  let user_id := msg_from_user msg in
  match user_states h !! user_id with
  | None =>
      (Ok tt,
       emit (SendMessage (msg_chat msg)
               "Используйте /help для просмотра доступных команд" None) h)
  | Some info =>
      if state_is info "waiting_amount" then
        match py_float (msg_text msg) with
        | Some amount =>
            let info' :=
              mk_state_info (Some "waiting_category") (si_type info)
                (Some amount) (si_category info) (si_description info) in
            let h := set_states (<[user_id := info']> (user_states h)) h in
            match prompt_category msg info' h with
            | (Raise ValueError, h') =>
                (Ok tt,
                 emit (SendMessage (msg_chat msg)
                         "Неверная сумма. Введите число:" None) h')
            | out => out
            end
        | None =>
            (Ok tt,
             emit (SendMessage (msg_chat msg) "Неверная сумма. Введите число:"
                     None) h)
        end
      else if state_is info "waiting_description" then
        let info' :=
          mk_state_info (si_state info) (si_type info) (si_amount info)
            (si_category info) (Some (msg_text msg)) in
        let h := set_states (<[user_id := info']> (user_states h)) h in
        save_transaction msg info' h
      else (Ok tt, h)
  end.

(** [data.split("_")[1]]. *)
Definition second_field (data : string) : result string :=
  match split "_" data with
  | _ :: x :: _ => Ok x
  | _ => Raise IndexError
  end.

Definition handle_callback (call : callback_query) : handler := fun h =>
  let user_id := call_from_user call in
  let answer h := (Ok tt, emit (AnswerCallbackQuery (call_id call)) h) in
  if startswith "type_" (call_data call) then
    match second_field (call_data call) with
    | Raise e => (Raise e, h)
    | Ok transaction_type =>
        let info :=
          mk_state_info (Some "waiting_amount") (Some transaction_type) None
            None None in
        answer (emit (SendMessage (call_chat call) "Введите сумму:" None)
                  (set_states (<[user_id := info]> (user_states h)) h))
    end
  else if startswith "cat_" (call_data call) then
    match second_field (call_data call) with
    | Raise e => (Raise e, h)
    | Ok category_id =>
        match user_states h !! user_id with
        | Some info =>
            let info' :=
              mk_state_info (Some "waiting_description") (si_type info)
                (si_amount info) (Some category_id) (si_description info) in
            answer (emit (SendMessage (call_chat call)
                            "Введите описание (или /cancel):" None)
                      (set_states (<[user_id := info']> (user_states h)) h))
        | None => answer h
        end
    end
  else answer h.

(** The inputs that drive the dialogue. *)
Inductive input : Type :=
  | Add (msg : message)              (* /add *)
  | Cancel (msg : message)           (* /cancel *)
  | Text (msg : message)             (* any other text *)
  | Callback (call : callback_query).

Definition dispatch (i : input) : handler :=
  match i with
  | Add msg => add_command msg
  | Cancel msg => cancel_command msg
  | Text msg => handle_message msg
  | Callback call => handle_callback call
  end.

(** The tables behind the handlers, when a manager is set. *)
Definition durable (h : FinanceBotHandlers) : option database :=
  store <$> db_manager h.

(** ** More of [bot.py]: the commands around the dialogue *)

(** [message.from_user]: the names Telegram gives, each possibly absent. *)
Record profile : Type := mk_profile {
  p_username : option string; p_first_name : option string
}.

(** [a or b] for a string [a] that may be [None]: [b] when [a] is [None] or
    empty. *)
Definition str_or (a : option string) (b : string) : string :=
  match a with
  | Some (String _ _ as s) => s
  | _ => b
  end.

(** [username or first_name or "пользователь"]. *)
Definition display_name (p : profile) : string :=
  str_or (p_username p) (str_or (p_first_name p) "пользователь").

(** What the handlers ask of the spreadsheet mirror for users. *)
Inductive mirror_call : Type :=
  | BackupUser (user_id : Z) (name currency : string).

Definition welcome_text (username : string) : string :=
  ("Привет, " ++ username ++ "! 👋

💰 Я бот для контроля ваших доходов и расходов.

Используйте команду /add, чтобы добавить новую транзакцию.

📊 /report - для анализа трат
💳 /budget - для управления лимитами
📋 /help - для полного списка команд")%string.

(** [/start]: next to what a handler leaves, the calls to [backup_user]. *)
Definition start_command (msg : message) (p : profile)
    : FinanceBotHandlers -> result unit * FinanceBotHandlers * list mirror_call :=
  fun h =>
    let user_id := msg_from_user msg in
    let username := display_name p in
    let h := clear_user_state user_id h in
    let welcome h :=
      emit (SendMessage (msg_chat msg) (welcome_text username) None) h in
    match db_manager h with
    | None => (Ok tt, welcome h, [])
    | Some m =>
        let '(r, m') := add_user user_id username "RUB" m in
        let h := set_manager m' h in
        match r with
        | Raise e => (Raise e, h, [])
        | Ok true => (Ok tt, welcome h, [BackupUser user_id username "RUB"])
        | Ok false => (Ok tt, welcome h, [])
        end
    end.

Definition help_text : string :=
  "💰 Финансовый бот - Справка

📝 Добавление операций:
/add - начать добавление новой транзакции (дохода или расхода).

📊 Команды:
/balance - Текущий баланс
/report неделя - Отчет за неделю
/status - Статус аккаунта
/categories - Категории транзакций
/budget - Управление лимитами
/cancel - Отменить операцию
".

Definition help_command (msg : message) : handler := fun h =>
  let h := clear_user_state (msg_from_user msg) h in
  (Ok tt, emit (SendMessage (msg_chat msg) help_text None) h).

(** What the bot receives: the inputs of the dialogue, [/start], [/help]. *)
Inductive command : Type :=
  | Dialogue (i : input)
  | Start (msg : message) (p : profile)
  | Help (msg : message).

Definition perform (c : command) : handler :=
  match c with
  | Dialogue i => dispatch i
  | Start msg p => fun h => fst (start_command msg p h)
  | Help msg => help_command msg
  end.

(** The user a command comes from. *)
Definition sender (c : command) : Z :=
  match c with
  | Dialogue (Add msg) | Dialogue (Cancel msg) | Dialogue (Text msg)
  | Start msg _ | Help msg => msg_from_user msg
  | Dialogue (Callback call) => call_from_user call
  end.

(** [_callback_forwarder]: the module-level handler through which callback
    queries reach the handlers object, once [main] has set it. *)
Inductive forwarder_log : Type :=
  | NoHandlers                 (* logger.warning: no instance to handle *)
  | HandlerError (e : exn).    (* logger.exception *)

Definition _callback_forwarder (call : callback_query)
    (finance_handlers : option FinanceBotHandlers)
    : option FinanceBotHandlers * list forwarder_log :=
  match finance_handlers with
  | None => (None, [NoHandlers])
  | Some h =>
      match handle_callback call h with
      | (Ok _, h') => (Some h', [])
      | (Raise e, h') => (Some h', [HandlerError e])
      end
  end.

(** The commands that answer with text built from what the store returns.
    How Python prints a [float], a [Decimal] and a [datetime] is left open. *)
Section Rendering.

Variable str_float : pyfloat -> string.
Variable str_decimal : decimal -> string.
Variable str_datetime : datetime -> string.

(** [str(x)] for a number of a summary. *)
Definition str_pynum (x : pynum) : string :=
  match x with
  | PyInt z => str_of_int z
  | PyFloat f => str_float f
  end.

(** [str(v)] for a value of the cursor, as an f-string prints it. *)
Definition str_value (v : value) : string :=
  match v with
  | VNull => "None"
  | VInt z => str_of_int z
  | VNum d => str_decimal d
  | VStr s => s
  | VTime t => str_datetime t
  end.

Definition report_text (s : summary) : string :=
  ("Месячный отчет:
Доход: " ++ str_pynum (income s) ++ "
Расход: " ++ str_pynum (expense s) ++ "
Баланс: " ++ str_pynum (balance s))%string.

Definition report_command (msg : message) : handler := fun h =>
  let user_id := msg_from_user msg in
  let h := clear_user_state user_id h in
  match db_manager h with
  | None =>
      (Ok tt,
       emit (SendMessage (msg_chat msg) "Ошибка подключения к базе данных"
               None) h)
  | Some m =>
      let now := clock m in
      let '(r, m') := get_monthly_summary user_id (year now) (month now) m in
      let h := set_manager m' h in
      match r with
      | Raise e => (Raise e, h)
      | Ok s => (Ok tt, emit (SendMessage (msg_chat msg) (report_text s) None) h)
      end
  end.

(** The body of [for c in categories] of [categories_command]. *)
Fixpoint categories_text (categories : list row) (text : string)
    : result string :=
  match categories with
  | [] => Ok text
  | c :: categories' =>
      name <~ getitem c "name" ;;
      ty <~ getitem c "type" ;;
      categories_text categories'
        (text ++ "- " ++ str_value name ++ " (" ++ str_value ty ++ ")
")%string
  end.

Definition categories_command (msg : message) : handler := fun h =>
  let user_id := msg_from_user msg in
  let h := clear_user_state user_id h in
  match db_manager h with
  | None =>
      (Ok tt,
       emit (SendMessage (msg_chat msg) "Ошибка подключения к базе данных"
               None) h)
  | Some m =>
      let '(r, m') := get_categories user_id None m in
      let h := set_manager m' h in
      match r with
      | Raise e => (Raise e, h)
      | Ok [] =>
          (Ok tt, emit (SendMessage (msg_chat msg) "Категории не найдены" None) h)
      | Ok categories =>
          match categories_text categories "Ваши категории:
" with
          | Raise e => (Raise e, h)
          | Ok text => (Ok tt, emit (SendMessage (msg_chat msg) text None) h)
          end
      end
  end.

End Rendering.

(** ** [config.py] *)

Record Config : Type := mk_config {
  BOT_TOKEN : string;
  DB_HOST : string;
  DB_PORT : Z;
  DB_NAME : string;
  DB_USER : string;
  DB_PASSWORD : string;
  LOG_LEVEL : string;
  SQL_LOG_LEVEL : string;
  SQL_LOG_ENABLED : bool
}.

(** The truth value of a string: false for the empty one. *)
Definition truthy (s : string) : bool :=
  match s with
  | EmptyString => false
  | String _ _ => true
  end.

Definition validate (cls : Config) : bool :=
  let required_fields :=
    [BOT_TOKEN cls; DB_NAME cls; DB_USER cls; DB_PASSWORD cls] in
  forallb truthy required_fields.

Definition get_missing_fields (cls : Config) : list string :=
  let missing := [] in
  let missing :=
    if negb (truthy (BOT_TOKEN cls)) then missing ++ ["BOT_TOKEN"]
    else missing in
  let missing :=
    if negb (truthy (DB_NAME cls)) then missing ++ ["DB_NAME"] else missing in
  let missing :=
    if negb (truthy (DB_USER cls)) then missing ++ ["DB_USER"] else missing in
  let missing :=
    if negb (truthy (DB_PASSWORD cls)) then missing ++ ["DB_PASSWORD"]
    else missing in
  missing.

(** ** [excel.py]: the spreadsheet mirror

    Of openpyxl this is what is used: a sheet is its rows of cells, row 1
    first; [append] adds a row after the last one; [cell(row, column, value)]
    overwrites one cell; a saved workbook is what [load_workbook] returns.
    Saving and loading can fail, as the environment decides. *)

Inductive cell : Type :=
  | CNone
  | CBool (b : bool)
  | CInt (z : Z)
  | CFloat (f : pyfloat)
  | CStr (s : string)
  | CTime (t : datetime).

(** A workbook: the rows of its active sheet, and the widths set for its
    columns (by column number). *)
Record workbook : Type := mk_workbook {
  sheet : list (list cell);
  column_widths : list (Z * Z)
}.

(** The files, and for the [i]-th save or load whether it succeeds. *)
Record filesystem : Type := mk_fs {
  files : gmap string workbook;
  io : nat -> bool;
  io_count : nat
}.

Definition USERS_BACKUP_FILE : string := "users_backup.xlsx".
Definition TRANSACTIONS_BACKUP_FILE : string := "transactions_backup.xlsx".

Definition USER_COLUMNS : list string :=
  ["user_id"; "name"; "currency"; "timestamp"].
Definition TRANSACTION_COLUMNS : list string :=
  ["user_id"; "type"; "amount"; "category"; "description"; "date"].

(** [os.path.exists(path)]. *)
Definition path_exists (path : string) (fs : filesystem) : bool :=
  match files fs !! path with
  | Some _ => true
  | None => false
  end.

(** [workbook.save(path)]: whether it succeeded ([false] stands for an
    exception). *)
Definition save (path : string) (wb : workbook) (fs : filesystem)
    : bool * filesystem :=
  let ok := io fs (io_count fs) in
  (ok,
   mk_fs (if ok then <[path := wb]> (files fs) else files fs) (io fs)
     (S (io_count fs))).

(** [openpyxl.load_workbook(path)]: [None] stands for an exception. *)
Definition load_workbook (path : string) (fs : filesystem)
    : option workbook * filesystem :=
  let ok := io fs (io_count fs) in
  (if ok then files fs !! path else None,
   mk_fs (files fs) (io fs) (S (io_count fs))).

Definition _setup_workbook (file_path : string) (columns : list string)
    (fs : filesystem) : bool * filesystem :=
  let rows := [map CStr columns] in
  let widths :=
    imap (fun i col_name =>
            (Z.of_nat i + 1, Z.of_nat (String.length col_name) + 5))
      columns in
  save file_path (mk_workbook rows widths) fs.

(** [value == user_id] for the value of a cell and an [int]; [True] equals
    1 and [False] equals 0. *)
Definition cell_is (c : cell) (z : Z) : bool :=
  match c with
  | CBool b => (if b then 1 else 0) =? z
  | CInt x => x =? z
  | CFloat (FFin d) =>
      negb (dec_ltb d (dec_of_Z z)) && negb (dec_ltb (dec_of_Z z) d)
  | _ => false
  end.

(** [sheet.cell(row=row, column=1).value] for a row of the sheet. *)
Definition first_cell (r : list cell) : cell := nth 0 r CNone.

(** The loop of [backup_user] over the rows from [row] on: the number of the
    first row whose first cell is the user's id. *)
Fixpoint find_user_row (user_id : Z) (rows : list (list cell)) (row : nat)
    : option nat :=
  match rows with
  | [] => None
  | r :: rows' =>
      if cell_is (first_cell r) user_id then Some row
      else find_user_row user_id rows' (S row)
  end.

(** [backup_user], at the time [now]: whether it went through ([false]: an
    exception was caught and logged), and the files it leaves. *)
Definition backup_user (user_id : Z) (name currency : string) (now : datetime)
    (fs : filesystem) : bool * filesystem :=
  let file_path := USERS_BACKUP_FILE in
  let '(ok, fs) :=
    if path_exists file_path fs then (true, fs)
    else _setup_workbook file_path USER_COLUMNS fs in
  if ok then
    let '(loaded, fs) := load_workbook file_path fs in
    match loaded with
    | None => (false, fs)
    | Some workbook =>
        let user_row := find_user_row user_id (tl (sheet workbook)) 2 in
        let new_data := [CInt user_id; CStr name; CStr currency; CTime now] in
        let rows :=
          match user_row with
          | Some row =>
              alter (fun r => new_data ++ drop 4 r) (row - 1)%nat
                (sheet workbook)
          | None => sheet workbook ++ [new_data]
          end in
        save file_path (mk_workbook rows (column_widths workbook)) fs
    end
  else (false, fs).

Definition backup_transaction (user_id : Z) (transaction_type : string)
    (amount : pyfloat) (category description : string) (now : datetime)
    (fs : filesystem) : bool * filesystem :=
  let file_path := TRANSACTIONS_BACKUP_FILE in
  let '(ok, fs) :=
    if path_exists file_path fs then (true, fs)
    else _setup_workbook file_path TRANSACTION_COLUMNS fs in
  if ok then
    let '(loaded, fs) := load_workbook file_path fs in
    match loaded with
    | None => (false, fs)
    | Some workbook =>
        let new_data :=
          [CInt user_id; CStr transaction_type; CFloat amount; CStr category;
           CStr description; CTime now] in
        save file_path
          (mk_workbook (sheet workbook ++ [new_data]) (column_widths workbook))
          fs
    end
  else (false, fs).

(** * The vocabulary of the statements *)

(** What [month_day] has to return for the [n]-th day of a year: a month and
    a day of that month, [n] days after the first of January. *)
Definition month_day_ok (leapyear : bool) (n : Z) : bool :=
  let '(m, d) := month_day leapyear n in
  (1 <=? m) && (m <=? 12) && (1 <=? d)
  && (d <=? DAYS_IN_MONTH m + (if (m =? 2) && leapyear then 1 else 0))
  && (DAYS_BEFORE_MONTH m + (if (2 <? m) && leapyear then 1 else 0) + d
      =? n + 1).

(** The operations every read and write goes through. *)
Inductive dal_op : Type :=
  | OpQuery (q : select)
  | OpInsert (s : dml)
  | OpUpdate (s : dml).

Inductive dal_result : Type :=
  | Rows (rows : list row)
  | Flag (b : bool).

Definition run_op (op : dal_op) : M dal_result :=
  match op with
  | OpQuery q => rows <- execute_query q ;; ret (Rows rows)
  | OpInsert s => b <- execute_insert s ;; ret (Flag b)
  | OpUpdate s => b <- execute_update s ;; ret (Flag b)
  end.

(** The empty result of a read, the [False] of a write. *)
Definition failure_of (op : dal_op) : dal_result :=
  match op with
  | OpQuery _ => Rows []
  | _ => Flag false
  end.

Definition is_connect (e : event) : bool :=
  match e with EvConnect _ => true | _ => false end.

Definition is_statement (e : event) : bool :=
  match e with
  | EvSelect _ _ | EvCommit _ | EvRollback _ => true
  | _ => false
  end.

Definition is_write (e : event) : bool :=
  match e with EvCommit _ | EvRollback _ => true | _ => false end.

(** The number of connection attempts among some interactions. *)
Definition connects (evs : list event) : nat :=
  length (List.filter is_connect evs).

(** The connection is absent or does not answer the probe. *)
Definition lost (m : DatabaseManager) : bool :=
  match connection m with
  | None => true
  | Some _ => negb (answered m)
  end.

(** The server answers every interaction from now on. *)
Definition reachable (m : DatabaseManager) : Prop :=
  forall i : nat, (length (log m) <= i)%nat -> net m i = true.

(** The server answers no interaction at all. *)
Definition unreachable (m : DatabaseManager) : Prop :=
  forall i : nat, net m i = false.

(** The rows of [users] with a given key. *)
Definition user_rows (uid : Z) (d : database) : list user_row :=
  List.filter (fun u => u_user_id u =? uid) (users d).

(** [users.user_id] is a primary key: no two rows share it. *)
Definition primary_key (d : database) : Prop :=
  List.NoDup (map u_user_id (users d)).

Fixpoint no_underscore (s : string) : bool :=
  match s with
  | EmptyString => true
  | String c s' => negb (Ascii.eqb c "_") && no_underscore s'
  end.

(** The writes sent to the store so far, in order. *)
Definition write_events (h : FinanceBotHandlers) : list event :=
  match db_manager h with
  | Some m => List.filter is_write (log m)
  | None => []
  end.

Definition is_backup (e : effect) : bool :=
  match e with BackupTransaction _ _ _ _ _ => true | _ => false end.

(** The transactions handed to the spreadsheet mirror so far. *)
Definition backups (h : FinanceBotHandlers) : list effect :=
  List.filter is_backup (effects h).

(** The step that completes the dialogue: a text for a user whose session
    waits for the description. *)
Definition terminal (i : input) (h : FinanceBotHandlers) : bool :=
  match i with
  | Text msg =>
      match user_states h !! msg_from_user msg with
      | Some info => state_is info "waiting_description"
      | None => false
      end
  | _ => false
  end.

(** The INSERT the completing step sends for a session, when the session
    holds a type and an amount. *)
Definition session_insert (uid : Z) (info : state_info) (description : string)
    : option dml :=
  match si_type info, si_amount info with
  | Some ty, Some amount =>
      Some (InsTransaction uid ty amount (default "Other" (si_category info))
              description)
  | _, _ => None
  end.

(** The limits of the budget rows of a user, a category and a period. *)
Definition budget_limits (uid : Z) (cat period : string) (d : database)
    : list decimal :=
  map b_limit_amount
    (List.filter (fun b => (b_user_id b =? uid) && String.eqb (b_category b) cat
                           && String.eqb (b_period b) period) (budgets d)).

(** The expenses of a user in a category dated [start] or later. *)
Definition spent_since (uid : Z) (cat : string) (start : datetime)
    (d : database) : decimal :=
  dec_sum (map t_amount
             (List.filter (fun t => (t_user_id t =? uid)
                                    && String.eqb (t_category t) cat
                                    && String.eqb (t_type t) "expense"
                                    && dt_leb start (t_date t))
                (transactions d))).

(** The expenses of a user in a category dated from [start] to [now]: the
    sum the specification describes. *)
Definition spent_between (uid : Z) (cat : string) (start now : datetime)
    (d : database) : decimal :=
  dec_sum (map t_amount
             (List.filter (fun t => (t_user_id t =? uid)
                                    && String.eqb (t_category t) cat
                                    && String.eqb (t_type t) "expense"
                                    && dt_leb start (t_date t)
                                    && dt_leb (t_date t) now)
                (transactions d))).

(** The first day of the month of [now], at 00:00:00. *)
Definition month_start (now : datetime) : datetime :=
  mk_datetime (year now) (month now) 1 0 0 0 0.

(** [start] is the most recent Monday, at 00:00:00: a Monday, not after the
    day of [now] and less than a week before it. *)
Definition most_recent_monday (now start : datetime) : Prop :=
  weekday start = 0
  /\ toordinal now - 6 <= toordinal start <= toordinal now
  /\ valid_datetime start = true
  /\ hour start = 0 /\ minute start = 0 /\ second start = 0
  /\ microsecond start = 0.

(** The leap years of the Gregorian calendar: every fourth year, except the
    century years that are not multiples of 400. *)
Definition leap_year (y : Z) : bool :=
  if y mod 400 =? 0 then true
  else if y mod 100 =? 0 then false
  else y mod 4 =? 0.

(** The length of a month by the calendar: 30 days for April, June, September
    and November, 28 or 29 for February, 31 for the others. *)
Definition month_length (y m : Z) : Z :=
  if m =? 2 then (if leap_year y then 29 else 28)
  else if existsb (Z.eqb m) [4; 6; 9; 11] then 30
  else 31.

(** The first instant of a month the summary counts, and the last. *)
Definition month_first (y m : Z) : datetime := mk_datetime y m 1 0 0 0 0.
Definition month_last (y m : Z) : datetime :=
  mk_datetime y m (month_length y m) 23 59 59 0.

(** The transactions of a user, of one type, dated within a month. *)
Definition month_transactions (uid y m : Z) (ty : string) (d : database)
    : list transaction_row :=
  List.filter (fun t => (t_user_id t =? uid)
                        && dt_leb (month_first y m) (t_date t)
                        && dt_leb (t_date t) (month_last y m)
                        && String.eqb (t_type t) ty)
    (transactions d).

(** The total the summary shows for a type: 0 without transactions, the sum
    of the amounts as a [float] otherwise. *)
Definition month_total (uid y m : Z) (ty : string) (d : database) : pynum :=
  match month_transactions uid y m ty d with
  | [] => PyInt 0
  | ts => PyFloat (FFin (dec_sum (map t_amount ts)))
  end.

(** The end of the week that starts at [start]: six days and 23:59:59
    later. *)
Definition week_end (start : datetime) : option datetime :=
  datetime_add start (timedelta_new 6 23 59 59).

(** The total of a type within the week that starts at [start]: the total the
    documentation of [get_weekly_summary] describes. *)
Definition week_total (uid : Z) (start : datetime) (ty : string) (d : database)
    : option pynum :=
  match week_end start with
  | Some end_ =>
      Some match List.filter (fun t => (t_user_id t =? uid)
                                       && dt_leb start (t_date t)
                                       && dt_leb (t_date t) end_
                                       && String.eqb (t_type t) ty)
                   (transactions d) with
           | [] => PyInt 0
           | ts => PyFloat (FFin (dec_sum (map t_amount ts)))
           end
  | None => None
  end.

(** What a method call returned, when it did not raise. *)
Definition fst_ok {A : Type} (out : result A * DatabaseManager) : option A :=
  match fst out with
  | Ok a => Some a
  | Raise _ => None
  end.

(** A manager whose server answers, over given tables, at a given time. *)
Definition online (d : database) (now : datetime) : DatabaseManager :=
  mk_manager None d (fun _ => true) [] now now.

Definition noon (y m d : Z) : datetime := mk_datetime y m d 12 0 0 0.

(** User 1 with two incomes in January 2024 (the 3rd and the 20th) and one
    on the 2nd of February. *)
Definition january_tables : database :=
  mk_database [mk_user 1 "ann" "RUB"]
    [mk_transaction 1 1 "income" (dec_of_Z 100) "Salary" "" (noon 2024 1 3);
     mk_transaction 2 1 "income" (dec_of_Z 900) "Salary" "" (noon 2024 1 20);
     mk_transaction 3 1 "income" (dec_of_Z 50) "Gift" "" (noon 2024 2 2)]
    [] [] 4.

(** User 1 with a monthly budget of 500 for Food, and one Food expense of 600
    dated the 5th of March 2024. *)
Definition march_tables : database :=
  mk_database [mk_user 1 "ann" "RUB"]
    [mk_transaction 1 1 "expense" (dec_of_Z 600) "Food" "" (noon 2024 3 5)]
    [] [mk_budget 1 1 "Food" (dec_of_Z 500) "month"] 2.

(** User 7 was asked for the amount of an expense. *)
Definition asked_amount : FinanceBotHandlers :=
  mk_handlers (Some (online (mk_database [mk_user 7 "bob" "RUB"] [] [] [] 1)
                       (noon 2024 2 10)))
    (<[7 := mk_state_info (Some "waiting_amount") (Some "expense") None None
              None]> ∅)
    [].

(** No user has a session. *)
Definition idle : FinanceBotHandlers :=
  mk_handlers (Some (online (mk_database [mk_user 7 "bob" "RUB"] [] [] [] 1)
                       (noon 2024 2 10))) ∅ [].

(** User 7 chose an expense of 250 in the category with id 42 and is asked
    for the description. *)
Definition asked_description : FinanceBotHandlers :=
  mk_handlers (Some (online (mk_database [mk_user 7 "bob" "RUB"] [] [] [] 1)
                       (noon 2024 2 10)))
    (<[7 := mk_state_info (Some "waiting_description") (Some "expense")
              (Some (FFin (dec_of_Z 250))) (Some "42") None]> ∅)
    [].

(** The button the bot offers for a category: the name as its label, the id
    in its data. *)
Definition category_button (c : category_row) : value * string :=
  (VStr (c_name c), ("cat_" ++ str_of_int (c_id c))%string).

(** The type [get_categories] filters by: none for [None] and for the empty
    string. *)
Definition type_filter (ty : option string) : option string :=
  match ty with
  | Some (String _ _ as t) => Some t
  | _ => None
  end.

(** The categories [get_categories] finds: the user's own, of the type if one
    is given, by name. *)
Definition own_categories (uid : Z) (ty : option string) (d : database)
    : list category_row :=
  order_by_name (List.filter (category_filter uid (type_filter ty)) (categories d)).

(** A session with the description stored. *)
Definition with_description (info : state_info) (text : string) : state_info :=
  mk_state_info (si_state info) (si_type info) (si_amount info)
    (si_category info) (Some text).

(** The handlers after some texts of one user, one after the other. *)
Definition after_texts (uid chat : Z) (texts : list string)
    (h : FinanceBotHandlers) : FinanceBotHandlers :=
  fold_left (fun h t => snd (handle_message (mk_message uid chat t) h)) texts h.

(** The handlers after a sequence of commands, whatever each one returned or
    raised. *)
Definition run (cs : list command) (h : FinanceBotHandlers)
    : FinanceBotHandlers :=
  fold_left (fun h c => snd (perform c h)) cs h.

Definition present {A : Type} (o : option A) : bool :=
  match o with
  | Some _ => true
  | None => false
  end.

(** The shape of a session: its state is one of the four the handlers write,
    and it holds what the steps before that state stored.  A session that
    waits for the description holds a category, not always a type or an
    amount. *)
Definition well_formed (info : state_info) : bool :=
  if state_is info "waiting_type" then true
  else if state_is info "waiting_amount" then present (si_type info)
  else if state_is info "waiting_category" then
    present (si_type info) && present (si_amount info)
  else if state_is info "waiting_description" then present (si_category info)
  else false.

(** A message or a callback reply, not a call to the mirror or the log. *)
Definition is_send (e : effect) : bool :=
  match e with
  | SendMessage _ _ _ => true
  | _ => false
  end.

(** From [d] to [d'] nothing changed but the rows of [users] with key [uid]. *)
Definition only_user_changed (uid : Z) (d d' : database) : Prop :=
  transactions d' = transactions d /\ categories d' = categories d
  /\ budgets d' = budgets d
  /\ transactions_id_seq d' = transactions_id_seq d
  /\ forall u, u <> uid -> user_rows u d' = user_rows u d.

(** The manager after a sequence of reads and writes. *)
Definition run_ops (ops : list dal_op) (m : DatabaseManager)
    : DatabaseManager :=
  fold_left (fun m op => snd (run_op op m)) ops m.

(** The summary of a month without transactions. *)
Definition empty_summary : summary :=
  mk_summary (PyInt 0) (PyInt 0) (VInt 0) (VInt 0) (PyInt 0).

(** The start of the period [check_budget_exceeded] counts from. *)
Definition budget_period_start (period : string) (now start : datetime)
    : Prop :=
  if String.eqb period "month" then start = month_start now
  else most_recent_monday now start.

(** The row [add_transaction] appends: the next id of the sequence, the
    server's time as its date. *)
Definition new_transaction (m : DatabaseManager) (uid : Z) (ty : string)
    (amount : decimal) (cat desc : string) : transaction_row :=
  mk_transaction (transactions_id_seq (store m)) uid ty amount cat desc
    (server_clock m).

(** The amounts a monthly summary adds up for a type. *)
Definition month_amounts (uid y m : Z) (ty : string) (d : database)
    : list decimal :=
  map t_amount (month_transactions uid y m ty d).

(** The line [/categories] prints for a category. *)
Definition category_line (c : category_row) : string :=
  ("- " ++ c_name c ++ " (" ++ c_type c ++ ")
")%string.

(** The reply of [/categories] for a list of categories. *)
Definition categories_reply (cs : list category_row) : string :=
  match cs with
  | [] => "Категории не найдены"
  | _ =>
      ("Ваши категории:
" ++ fold_right String.append "" (map category_line cs))%string
  end.

(** The report of a month without transactions. *)
Definition empty_report : string :=
  "Месячный отчет:
Доход: 0
Расход: 0
Баланс: 0".

(** The reply that asks for the category. *)
Definition category_prompt (chat : Z) (cs : list category_row) : effect :=
  match cs with
  | [] => SendMessage chat "Категории недоступны" None
  | _ => SendMessage chat "Выберите категорию:"
           (Some (map category_button (firstn 5 cs)))
  end.

(** The session after the amount was read. *)
Definition with_amount (info : state_info) (amount : pyfloat) : state_info :=
  mk_state_info (Some "waiting_category") (si_type info) (Some amount)
    (si_category info) (si_description info).

(** The replies of the completing step. *)
Definition saved_effects (uid chat : Z) (ty : string) (amount : pyfloat)
    (cat desc : string) : list effect :=
  [BackupTransaction uid ty amount cat desc;
   SendMessage chat "Транзакция успешно сохранена" None].

Definition not_saved_effects (uid chat : Z) (info : state_info)
    : list effect :=
  [SendMessage chat
     "Ошибка при сохранении транзакции. Администратор получит лог." None;
   LogError uid info].

(** The rows of a saved sheet below the header row. *)
Definition data_rows (path : string) (fs : filesystem) : list (list cell) :=
  match files fs !! path with
  | Some wb => tl (sheet wb)
  | None => []
  end.

(** The rows whose first cell is a user's id, and the others. *)
Definition rows_of (user_id : Z) (rows : list (list cell))
    : list (list cell) :=
  List.filter (fun r => cell_is (first_cell r) user_id) rows.

Definition rows_of_others (user_id : Z) (rows : list (list cell))
    : list (list cell) :=
  List.filter (fun r => negb (cell_is (first_cell r) user_id)) rows.

(** A saved sheet has a header row. *)
Definition has_header (path : string) (fs : filesystem) : Prop :=
  forall wb, files fs !! path = Some wb -> sheet wb <> [].

(** The workbook [_setup_workbook] saves. *)
Definition fresh_workbook (columns : list string) : workbook :=
  mk_workbook [map CStr columns]
    (imap (fun i col_name =>
             (Z.of_nat i + 1, Z.of_nat (String.length col_name) + 5))
       columns).

(** The row [backup_user] writes. *)
Definition user_cells (user_id : Z) (name currency : string) (now : datetime)
    : list cell :=
  [CInt user_id; CStr name; CStr currency; CTime now].

(** The row [backup_transaction] writes. *)
Definition transaction_cells (user_id : Z) (ty : string) (amount : pyfloat)
    (category description : string) (now : datetime) : list cell :=
  [CInt user_id; CStr ty; CFloat amount; CStr category; CStr description;
   CTime now].

(** The transactions whose INSERT was committed, in order. *)
Definition committed_insert (e : event) : option dml :=
  match e with
  | EvCommit (InsTransaction u t a c d) => Some (InsTransaction u t a c d)
  | _ => None
  end.

Definition committed_transactions (h : FinanceBotHandlers) : list dml :=
  omap committed_insert (write_events h).

(** The transactions handed to the spreadsheet mirror, in order, each as the
    INSERT with the same fields. *)
Definition mirrored_transaction (e : effect) : option dml :=
  match e with
  | BackupTransaction u t a c d => Some (InsTransaction u t a c d)
  | _ => None
  end.

Definition mirrored_transactions (h : FinanceBotHandlers) : list dml :=
  omap mirrored_transaction (backups h).

(** * Properties *)

(** ** The calendar *)

Lemma days_before_year_cycle (a b c d : Z) :
  0 <= a -> 0 <= b <= 3 -> 0 <= c <= 24 -> 0 <= d <= 3 ->
  days_before_year (400 * a + 100 * b + 4 * c + d + 1)
  = 146097 * a + 36524 * b + 1461 * c + 365 * d.
Proof.
  intros Ha Hb Hc Hd. unfold days_before_year.
  replace (400 * a + 100 * b + 4 * c + d + 1 - 1)
    with (400 * a + 100 * b + 4 * c + d) by lia.
  assert (H4 : (400 * a + 100 * b + 4 * c + d) / 4 = 100 * a + 25 * b + c).
  { symmetry. apply Z.div_unique with (r := d); lia. }
  assert (H100 : (400 * a + 100 * b + 4 * c + d) / 100 = 4 * a + b).
  { symmetry. apply Z.div_unique with (r := 4 * c + d); lia. }
  assert (H400 : (400 * a + 100 * b + 4 * c + d) / 400 = a).
  { symmetry. apply Z.div_unique with (r := 100 * b + 4 * c + d); lia. }
  rewrite H4, H100, H400. lia.
Qed.

Lemma is_leap_cycle (a b c d : Z) :
  0 <= a -> 0 <= b <= 3 -> 0 <= c <= 24 -> 0 <= d <= 3 ->
  is_leap (400 * a + 100 * b + 4 * c + d + 1)
  = (d =? 3) && (negb (c =? 24) || (b =? 3)).
Proof.
  intros Ha Hb Hc Hd. unfold is_leap.
  assert (H4 : (400 * a + 100 * b + 4 * c + d + 1) mod 4 = (d + 1) mod 4).
  { replace (400 * a + 100 * b + 4 * c + d + 1)
      with (d + 1 + (100 * a + 25 * b + c) * 4) by lia.
    apply Z.mod_add. lia. }
  assert (H100 : (400 * a + 100 * b + 4 * c + d + 1) mod 100
                 = (4 * c + d + 1) mod 100).
  { replace (400 * a + 100 * b + 4 * c + d + 1)
      with (4 * c + d + 1 + (4 * a + b) * 100) by lia.
    apply Z.mod_add. lia. }
  assert (H400 : (400 * a + 100 * b + 4 * c + d + 1) mod 400
                 = (100 * b + 4 * c + d + 1) mod 400).
  { replace (400 * a + 100 * b + 4 * c + d + 1)
      with (100 * b + 4 * c + d + 1 + a * 400) by lia.
    apply Z.mod_add. lia. }
  rewrite H4, H100, H400.
  assert (Hd' : d = 0 \/ d = 1 \/ d = 2 \/ d = 3) by lia.
  destruct Hd' as [-> | [-> | [-> | ->]]]; try reflexivity.
  cbn [Z.add Z.modulo]. 
  destruct (Z.eqb_spec c 24) as [-> | Hc24].
  - assert (Hb' : b = 0 \/ b = 1 \/ b = 2 \/ b = 3) by lia.
    destruct Hb' as [-> | [-> | [-> | ->]]]; reflexivity.
  - assert (E : (4 * c + 3 + 1) mod 100 = 4 * c + 4).
    { replace (4 * c + 3 + 1) with (4 * c + 4) by lia. apply Z.mod_small; lia. }
    rewrite E.
    destruct (Z.eqb_spec (4 * c + 4) 0); [lia |]. reflexivity.
Qed.

Lemma month_day_table :
  forallb (fun k => month_day_ok true (Z.of_nat k)) (seq 0 366)
  && forallb (fun k => month_day_ok false (Z.of_nat k)) (seq 0 365) = true.
Proof. vm_compute. reflexivity. Qed.

Lemma month_day_sound (leapyear : bool) (n : Z) :
  0 <= n <= 364 + (if leapyear then 1 else 0) ->
  month_day_ok leapyear n = true.
Proof.
  intros Hn. pose proof month_day_table as T.
  apply andb_prop in T. destruct T as [Tl Tn].
  rewrite forallb_forall in Tl, Tn.
  replace n with (Z.of_nat (Z.to_nat n)) by lia.
  destruct leapyear; [apply Tl | apply Tn]; apply in_seq; lia.
Qed.

(** The ordinal of the date [ord2ymd] returns is the ordinal it was given,
    and the date is a date of the calendar. *)
Lemma ord2ymd_ymd2ord (n : Z) :
  1 <= n ->
  let '(y, m, d) := ord2ymd n in
  ymd2ord y m d = n /\ 1 <= m <= 12 /\ 1 <= d <= days_in_month y m
  /\ 1 <= y /\ (n <= MAXORDINAL -> y <= MAXYEAR).
Proof.
  intros Hn. unfold ord2ymd, DI400Y, DI100Y, DI4Y.
  set (n0 := n - 1).
  set (a := n0 / 146097). set (r := n0 mod 146097).
  set (b := r / 36524). set (r2 := r mod 36524).
  set (c := r2 / 1461). set (r3 := r2 mod 1461).
  set (d := r3 / 365). set (r4 := r3 mod 365).
  assert (Ea : n0 = 146097 * a + r /\ 0 <= r < 146097)
    by (split; [apply Z.div_mod | apply Z.mod_pos_bound]; lia).
  assert (Eb : r = 36524 * b + r2 /\ 0 <= r2 < 36524)
    by (split; [apply Z.div_mod | apply Z.mod_pos_bound]; lia).
  assert (Ec : r2 = 1461 * c + r3 /\ 0 <= r3 < 1461)
    by (split; [apply Z.div_mod | apply Z.mod_pos_bound]; lia).
  assert (Ed : r3 = 365 * d + r4 /\ 0 <= r4 < 365)
    by (split; [apply Z.div_mod | apply Z.mod_pos_bound]; lia).
  assert (Ha : 0 <= a) by (apply Z.div_pos; lia).
  assert (Hb : 0 <= b <= 4).
  { split; [apply Z.div_pos; lia |]. apply Z.lt_succ_r.
    apply Z.div_lt_upper_bound; lia. }
  assert (Hc : 0 <= c <= 24).
  { split; [apply Z.div_pos; lia |]. apply Z.lt_succ_r.
    apply Z.div_lt_upper_bound; lia. }
  assert (Hd : 0 <= d <= 4).
  { split; [apply Z.div_pos; lia |]. apply Z.lt_succ_r.
    apply Z.div_lt_upper_bound; lia. }
  assert (En : n0 = n - 1) by reflexivity.
  clearbody a r b r2 c r3 d r4 n0.
  destruct (Z.eqb_spec d 4) as [Hd4 | Hd4]; cbn [orb].
  - (* the last day of a leap year inside a 4-year cycle *)
    subst d.
    assert (Hc' : c <= 23) by lia.
    assert (Hb' : b <= 3) by lia.
    replace (a * 400 + 1 + (b * 100 + c * 4 + 4) - 1)
      with (400 * a + 100 * b + 4 * c + 3 + 1) by lia.
    unfold ymd2ord, days_before_month, days_in_month.
    rewrite days_before_year_cycle, is_leap_cycle by lia.
    replace (c =? 24) with false by (symmetry; apply Z.eqb_neq; lia).
    cbn. unfold MAXORDINAL, MAXYEAR. lia.
  - destruct (Z.eqb_spec b 4) as [Hb4 | Hb4].
    + (* the last day of a 400-year cycle *)
      subst b.
      assert (r2 = 0 /\ c = 0 /\ d = 0 /\ r3 = 0 /\ r4 = 0) by lia.
      destruct H as (-> & -> & -> & -> & ->).
      replace (a * 400 + 1 + (4 * 100 + 0 * 4 + 0) - 1)
        with (400 * a + 100 * 3 + 4 * 24 + 3 + 1) by lia.
      unfold ymd2ord, days_before_month, days_in_month.
      rewrite days_before_year_cycle, is_leap_cycle by lia.
      cbn. unfold MAXORDINAL, MAXYEAR. lia.
    + set (leapyear := (d =? 3) && (negb (c =? 24) || (b =? 3))).
      assert (Hr4 : 0 <= r4 <= 364 + (if leapyear then 1 else 0))
        by (destruct leapyear; lia).
      pose proof (month_day_sound leapyear r4 Hr4) as Hmd.
      unfold month_day_ok in Hmd.
      destruct (month_day leapyear r4) as [m dd].
      replace (a * 400 + 1 + (b * 100 + c * 4 + d))
        with (400 * a + 100 * b + 4 * c + d + 1) by lia.
      unfold ymd2ord, days_before_month, days_in_month.
      rewrite days_before_year_cycle, is_leap_cycle by lia.
      fold leapyear.
      repeat (apply andb_prop in Hmd; destruct Hmd as [Hmd ?]).
      assert (Hdim : (if (m =? 2) && leapyear then 29 else DAYS_IN_MONTH m)
                     = DAYS_IN_MONTH m
                       + (if (m =? 2) && leapyear then 1 else 0)).
      { destruct (Z.eqb_spec m 2) as [-> |]; destruct leapyear; cbn; lia. }
      rewrite Hdim. unfold MAXORDINAL, MAXYEAR. lia.
Qed.

(** ** The data-access layer *)

Lemma length_snoc {A : Type} (l : list A) (x : A) :
  length (l ++ [x]) = S (length l).
Proof. rewrite length_app. simpl. lia. Qed.

(** What the opening of an operation does, case by case. *)
Lemma reconnect_if_lost_cases (m : DatabaseManager) :
  reconnect_if_lost m =
  let n := length (log m) in
  match connection m with
  | None =>
      (Ok (net m n),
       mk_manager (if net m n then Some n else None) (store m) (net m)
         (log m ++ [EvConnect (net m n)]) (clock m) (server_clock m))
  | Some c =>
      if net m n then (Ok true, record (EvProbe true) m)
      else
        (Ok (net m (S n)),
         mk_manager (if net m (S n) then Some (S n) else Some c) (store m)
           (net m) ((log m ++ [EvProbe false]) ++ [EvConnect (net m (S n))])
           (clock m) (server_clock m))
  end.
Proof.
  unfold reconnect_if_lost, connection_lost, check_connection, connect, bind,
    ret, answered, record.
  destruct m as [c d nt lg ck sk]; simpl.
  destruct c as [c |]; simpl.
  - destruct (nt (length lg)) eqn:E; simpl; [reflexivity |].
    rewrite length_snoc. reflexivity.
  - destruct (nt (length lg)); reflexivity.
Qed.

(** The opening of an operation: the interactions it adds, and what it
    leaves alone. *)
Lemma reconnect_if_lost_frame (m : DatabaseManager) :
  exists (go : bool) (m' : DatabaseManager) (evs : list event),
    reconnect_if_lost m = (Ok go, m')
    /\ log m' = log m ++ evs
    /\ store m' = store m /\ net m' = net m
    /\ clock m' = clock m /\ server_clock m' = server_clock m
    /\ List.filter is_statement evs = []
    /\ connects evs = (if lost m then 1 else 0)%nat
    /\ (go = false <-> In (EvConnect false) evs)
    /\ (go = true -> connection m' <> None)
    /\ (reachable m -> go = true)
    /\ (unreachable m -> go = false).
Proof.
  rewrite reconnect_if_lost_cases. unfold lost, answered. cbv zeta.
  assert (Hr : reachable m -> net m (length (log m)) = true)
    by (intros R; apply R; lia).
  assert (Hu : unreachable m -> net m (length (log m)) = false
                                /\ net m (S (length (log m))) = false)
    by (intros U; split; apply U).
  destruct (connection m) as [c |] eqn:Ec;
    [destruct (net m (length (log m))) eqn:E;
     [| destruct (net m (S (length (log m)))) eqn:E'] |
     destruct (net m (length (log m))) eqn:E].
  - exists true, (record (EvProbe true) m), [EvProbe true].
    simpl. intuition (simpl in *; congruence).
  - eexists _, _, [EvProbe false; EvConnect true].
    rewrite <- app_assoc. simpl. intuition (simpl in *; congruence).
  - eexists _, _, [EvProbe false; EvConnect false].
    rewrite <- app_assoc. simpl. intuition (simpl in *; congruence).
  - eexists _, _, [EvConnect true]. simpl. intuition (simpl in *; congruence).
  - eexists _, _, [EvConnect false]. simpl. intuition (simpl in *; congruence).
Qed.

(** The [try] block of a write: one interaction, a commit of the statement's
    effect or a rollback. *)
Lemma write_frame (s : dml) (m : DatabaseManager) :
  exists (r : option Z) (m' : DatabaseManager) (e : event),
    write s m = (Ok r, m')
    /\ log m' = log m ++ [e] /\ net m' = net m /\ connection m' = connection m
    /\ clock m' = clock m /\ server_clock m' = server_clock m
    /\ ((exists d' k, answered m = true
                      /\ run_dml (store m) (server_clock m) s = Some (d', k)
                      /\ r = Some k /\ store m' = d' /\ e = EvCommit s)
        \/ ((answered m = false \/ run_dml (store m) (server_clock m) s = None)
            /\ r = None /\ store m' = store m /\ e = EvRollback s)).
Proof.
  unfold write.
  destruct (answered m) eqn:A;
    [destruct (run_dml (store m) (server_clock m) s) as [[d' k] |] eqn:R |].
  - eexists _, _, _. split; [reflexivity |]. simpl.
    repeat (split; [reflexivity |]). left. exists d', k. auto.
  - eexists _, _, _. split; [reflexivity |]. simpl.
    repeat (split; [reflexivity |]). right. auto.
  - eexists _, _, _. split; [reflexivity |]. simpl.
    repeat (split; [reflexivity |]). right. auto.
Qed.

Lemma connects_app (l l' : list event) :
  connects (l ++ l') = (connects l + connects l')%nat.
Proof. unfold connects. rewrite List.filter_app, length_app. reflexivity. Qed.

Lemma connects_snoc (l : list event) (e : event) :
  is_connect e = false -> connects (l ++ [e]) = connects l.
Proof.
  intros H. rewrite connects_app. unfold connects at 2. simpl. rewrite H.
  simpl. lia.
Qed.

(** A read leaves the tables, the clocks and the server as they are; it
    returns the rows of the statement, or no rows when it fails. *)
Lemma execute_query_frame (q : select) (m : DatabaseManager) :
  exists (rows : list row) (m' : DatabaseManager) (evs : list event),
    execute_query q m = (Ok rows, m')
    /\ log m' = log m ++ evs
    /\ store m' = store m /\ net m' = net m
    /\ clock m' = clock m /\ server_clock m' = server_clock m
    /\ List.filter is_write evs = []
    /\ (rows = [] \/ rows = run_select (store m) q)
    /\ (reachable m -> rows = run_select (store m) q /\ reachable m').
Proof.
  unfold execute_query, bind.
  destruct (reconnect_if_lost_frame m)
    as (go & m1 & evs & -> & Hl & Hs & Hn & Hc & Hk & Hst & _ & _ & _ & Hr & _).
  assert (Hw : List.filter is_write evs = []).
  { clear - Hst. induction evs as [| e evs IH]; [reflexivity |].
    destruct e; simpl in *; try discriminate; auto. }
  destruct go.
  - eexists _, _, (evs ++ [EvSelect q (answered m1)]).
    split; [reflexivity |]. unfold record; simpl.
    rewrite Hl, app_assoc, List.filter_app, Hw. simpl.
    repeat (split; [auto; fail |]).
    split; [rewrite Hs; destruct (answered m1); auto |].
    intros R. unfold answered. rewrite Hn, Hs.
    assert (Hlen : (length (log m) <= length (log m1))%nat)
      by (rewrite Hl, length_app; lia).
    rewrite (R _ Hlen). split; [reflexivity |].
    intros i Hi. simpl in *. rewrite !length_app in Hi.
    apply R. lia.
  - exists [], m1, evs. unfold ret.
    repeat (split; [auto; fail |]).
    intros R. specialize (Hr R). discriminate.
Qed.

(** A write goes through the opening, then through at most one commit or
    rollback. *)
Lemma execute_write_frame (s : dml) (post : option Z -> bool)
    (m : DatabaseManager) :
  exists (b : bool) (m' : DatabaseManager) (evs : list event),
    (go <- reconnect_if_lost ;;
     if go then r <- write s ;; ret (post r) else ret false) m = (Ok b, m')
    /\ log m' = log m ++ evs /\ net m' = net m
    /\ clock m' = clock m /\ server_clock m' = server_clock m
    /\ connects evs = (if lost m then 1 else 0)%nat
    /\ (In (EvConnect false) evs ->
        b = false /\ List.filter is_statement evs = [] /\ store m' = store m)
    /\ (unreachable m -> In (EvConnect false) evs)
    /\ ((b = false /\ store m' = store m /\ List.filter is_write evs = [])
        \/ (b = post None /\ store m' = store m
            /\ List.filter is_write evs = [EvRollback s])
        \/ (exists d' k,
              run_dml (store m) (server_clock m) s = Some (d', k)
              /\ b = post (Some k) /\ store m' = d'
              /\ List.filter is_write evs = [EvCommit s]))
    /\ (reachable m ->
        reachable m'
        /\ List.filter is_write evs <> []
        /\ match run_dml (store m) (server_clock m) s with
           | Some (d', k) => store m' = d' /\ b = post (Some k)
           | None => store m' = store m /\ b = post None
           end).
Proof.
  unfold bind.
  destruct (reconnect_if_lost_frame m)
    as (go & m1 & evs & -> & Hl & Hs & Hn & Hc & Hk & Hst & Hcn & Hgo & _ & Hr
        & Hu).
  assert (Hw : List.filter is_write evs = []).
  { clear - Hst. induction evs as [| e evs IH]; [reflexivity |].
    destruct e; simpl in *; try discriminate; auto. }
  destruct go.
  - destruct (write_frame s m1)
      as (r & m2 & e & -> & Hl2 & Hn2 & _ & Hc2 & Hk2 & Hcase).
    unfold ret. exists (post r), m2, (evs ++ [e]).
    assert (He : is_connect e = false /\ is_write e = true
                 /\ e <> EvConnect false)
      by (destruct Hcase as [(? & ? & _ & _ & _ & _ & ->) | (_ & _ & _ & ->)];
          repeat split; discriminate).
    destruct He as (He1 & He2 & He4).
    assert (Hno : ~ In (EvConnect false) (evs ++ [e])).
    { rewrite in_app_iff. simpl. intros [H | [H | []]]; [| congruence].
      apply Hgo in H. discriminate. }
    assert (Hwe : List.filter is_write (evs ++ [e]) = [e])
      by (rewrite List.filter_app, Hw; simpl; rewrite He2; reflexivity).
    split; [reflexivity |]. rewrite Hl2, Hl, app_assoc.
    rewrite (connects_snoc _ _ He1), Hwe.
    repeat (split; [first [reflexivity | congruence | lia] |]).
    split; [intros U; specialize (Hu U); discriminate |].
    rewrite <- Hs, <- Hk.
    split.
    + destruct Hcase as [(d' & k & _ & Hrun & -> & Hd & ->)
                        | (_ & -> & Hd & ->)].
      * right. right. exists d', k. auto.
      * right. left. auto.
    + intros R.
      assert (HA : answered m1 = true).
      { unfold answered. rewrite Hn. apply R. rewrite Hl, length_app. lia. }
      split; [| split; [discriminate |]].
      * intros i Hi. rewrite Hn2, Hn. apply R.
        rewrite Hl2, Hl, !length_app in Hi. lia.
      * destruct Hcase as [(d' & k & _ & Hrun & -> & Hd & _)
                          | ([HF | Hrun] & -> & Hd & _)].
        -- rewrite Hrun. auto.
        -- congruence.
        -- rewrite Hrun. auto.
  - unfold ret. exists false, m1, evs.
    split; [reflexivity |].
    repeat (split; [first [assumption | reflexivity] |]).
    split; [auto |].
    split; [intros _; apply Hgo; reflexivity |].
    split; [left; auto |].
    intros R. specialize (Hr R). discriminate.
Qed.


(** ** The upsert of a user *)

Lemma has_user_rows (uid : Z) (d : database) :
  has_user uid d = false <-> user_rows uid d = [].
Proof.
  unfold has_user, user_rows.
  induction (users d) as [| u us IH]; simpl; [tauto |].
  destruct (u_user_id u =? uid); simpl; [split; discriminate | exact IH].
Qed.

Lemma primary_key_rows (uid : Z) (d : database) :
  primary_key d -> (length (user_rows uid d) <= 1)%nat.
Proof.
  unfold primary_key, user_rows.
  induction (users d) as [| u us IH]; simpl; [lia |].
  intros H. inversion H as [| ? ? Hnot Hnd]; subst.
  specialize (IH Hnd).
  destruct (Z.eqb_spec (u_user_id u) uid) as [E | E]; [| exact IH].
  simpl.
  assert (Hnone : List.filter (fun u0 => u_user_id u0 =? uid) us = []).
  { clear - Hnot E. induction us as [| v vs IHv]; [reflexivity |].
    simpl in *. destruct (Z.eqb_spec (u_user_id v) uid) as [E' | E'].
    - exfalso. apply Hnot. left. congruence.
    - apply IHv. tauto. }
  rewrite Hnone. simpl. lia.
Qed.

Lemma update_user_rows (uid : Z) (name currency : string) (us : list user_row) :
  List.filter (fun u => u_user_id u =? uid)
    (map (fun u => if u_user_id u =? uid then mk_user uid name currency else u)
       us)
  = repeat (mk_user uid name currency)
      (length (List.filter (fun u => u_user_id u =? uid) us)).
Proof.
  induction us as [| u us IH]; [reflexivity |].
  simpl. destruct (Z.eqb_spec (u_user_id u) uid) as [E | E]; simpl.
  - rewrite Z.eqb_refl. simpl. f_equal. exact IH.
  - destruct (Z.eqb_spec (u_user_id u) uid); [contradiction | exact IH].
Qed.

(** Every statement the store accepts keeps the primary key of [users]. *)
Lemma run_dml_primary_key (d d' : database) (now : datetime) (s : dml) (k : Z) :
  primary_key d -> run_dml d now s = Some (d', k) -> primary_key d'.
Proof.
  unfold primary_key. intros PK H.
  destruct s as [n c uid | uid n c |]; simpl in H.
  - injection H as <- _. simpl. rewrite map_map.
    replace (map _ (users d)) with (map u_user_id (users d)); [exact PK |].
    apply map_ext. intros u.
    destruct (Z.eqb_spec (u_user_id u) uid) as [E | E]; simpl; congruence.
  - destruct (has_user uid d) eqn:Hu; [discriminate |].
    injection H as <- _. simpl. rewrite map_app. simpl.
    apply List.NoDup_app; [exact PK | repeat constructor; intros [] |].
    intros x Hx [<- | []].
    unfold has_user in Hu. apply in_map_iff in Hx.
    destruct Hx as (u & Eu & Hin).
    assert (Hex : existsb (fun u0 => u_user_id u0 =? u_user_id u) (users d)
                  = true).
    { apply existsb_exists. exists u. split; [exact Hin | apply Z.eqb_refl]. }
    rewrite Eu in Hex. congruence.
  - destruct (numeric_of_float amount); [| discriminate].
    destruct (has_user user_id d); [| discriminate].
    injection H as <- _. exact PK.
Qed.

(** What a successful upsert leaves under its key: the new row, once for
    each row the key had before, and once if it had none. *)
Lemma add_user_rows (uid : Z) (name currency : string)
    (m m' : DatabaseManager) :
  add_user uid name currency m = (Ok true, m') ->
  user_rows uid (store m')
  = repeat (mk_user uid name currency)
      (Nat.max 1 (length (user_rows uid (store m)))).
Proof.
  unfold add_user, execute_update, execute_insert. unfold bind at 1.
  destruct (execute_write_frame (UpdUser name currency uid) rows_affected m)
    as (b & m1 & evs & -> & _ & _ & _ & Hk & _ & _ & _ & Hcase & _).
  destruct b.
  - unfold ret. intros [= <-].
    destruct Hcase as [(? & _) | [(? & _) | (d' & k & Hrun & Hb & <- & _)]];
      try discriminate.
    simpl in Hrun. injection Hrun as <- <-.
    unfold user_rows at 1. simpl. rewrite update_user_rows.
    fold (user_rows uid (store m)).
    unfold rows_affected in Hb. symmetry in Hb. apply Z.ltb_lt in Hb.
    fold (user_rows uid (store m)) in Hb. f_equal. lia.
  - assert (Hrows : user_rows uid (store m1) = user_rows uid (store m)
                    /\ (user_rows uid (store m) = []
                        \/ store m1 = store m)).
    { destruct Hcase as [(_ & -> & _) | [(_ & -> & _)
                                        | (d' & k & Hrun & Hb & <- & _)]];
        [auto | auto |].
      simpl in Hrun. injection Hrun as <- <-.
      unfold rows_affected in Hb. symmetry in Hb. apply Z.ltb_ge in Hb.
      assert (E : user_rows uid (store m) = []).
      { unfold user_rows. destruct (List.filter _ _); [reflexivity |].
        simpl in Hb. lia. }
      unfold user_rows at 1. simpl. rewrite update_user_rows.
      fold (user_rows uid (store m)). rewrite E. auto. }
    destruct Hrows as [Hrows _].
    destruct (execute_write_frame (InsUser uid name currency) committed m1)
      as (b & m2 & evs' & -> & _ & _ & _ & _ & _ & _ & _ & Hcase' & _).
    intros [= -> <-].
    destruct Hcase' as [(? & _) | [(? & _) | (d' & k & Hrun & _ & <- & _)]];
      try discriminate.
    simpl in Hrun.
    destruct (has_user uid (store m1)) eqn:Hu; [discriminate |].
    injection Hrun as <- <-.
    apply has_user_rows in Hu. rewrite <- Hrows, Hu.
    unfold user_rows in *. simpl. rewrite List.filter_app, Hu. simpl.
    rewrite Z.eqb_refl. reflexivity.
Qed.

(** With the server answering, the upsert succeeds. *)
Lemma add_user_reachable (uid : Z) (name currency : string)
    (m : DatabaseManager) :
  reachable m ->
  exists m', add_user uid name currency m = (Ok true, m') /\ reachable m'.
Proof.
  intros R.
  unfold add_user, execute_update, execute_insert. unfold bind at 1.
  destruct (execute_write_frame (UpdUser name currency uid) rows_affected m)
    as (b & m1 & evs & -> & _ & _ & _ & Hk & _ & _ & _ & _ & Hr).
  destruct (Hr R) as (R1 & _ & Hrun). simpl in Hrun.
  destruct Hrun as [Hst Hb].
  destruct b; [exists m1; auto |].
  destruct (execute_write_frame (InsUser uid name currency) committed m1)
    as (b & m2 & evs' & -> & _ & _ & _ & _ & _ & _ & _ & _ & Hr').
  destruct (Hr' R1) as (R2 & _ & Hrun'). simpl in Hrun'.
  assert (Hu : has_user uid (store m1) = false).
  { apply has_user_rows. rewrite Hst. unfold user_rows. simpl.
    rewrite update_user_rows.
    unfold rows_affected in Hb. symmetry in Hb. apply Z.ltb_ge in Hb.
    destruct (List.filter _ (users (store m)));
      [reflexivity | simpl in Hb; lia]. }
  rewrite Hu in Hrun'. destruct Hrun' as [_ ->]. exists m2. auto.
Qed.

(** C5. On a [users] table that respects its primary key, two upserts of the
    same user id in sequence, with different names and currencies, leave
    exactly one row for that id, holding the name and the currency of the
    second upsert; and with the server answering, both upserts succeed. *)
Theorem upsert_twice_one_row (uid : Z)
    (name1 currency1 name2 currency2 : string) (m : DatabaseManager) :
  primary_key (store m) ->
  (forall m1 m2,
     add_user uid name1 currency1 m = (Ok true, m1) ->
     add_user uid name2 currency2 m1 = (Ok true, m2) ->
     user_rows uid (store m2) = [mk_user uid name2 currency2])
  /\ (reachable m ->
      exists m1 m2,
        add_user uid name1 currency1 m = (Ok true, m1)
        /\ add_user uid name2 currency2 m1 = (Ok true, m2)).
Proof.
  intros PK. split.
  - intros m1 m2 H1 H2.
    apply add_user_rows in H1. apply add_user_rows in H2.
    rewrite H2, H1, repeat_length.
    pose proof (primary_key_rows uid _ PK) as Hlen.
    replace (Nat.max 1 (Nat.max 1 (length (user_rows uid (store m)))))
      with 1%nat by lia.
    reflexivity.
  - intros R.
    destruct (add_user_reachable uid name1 currency1 m R) as (m1 & H1 & R1).
    destruct (add_user_reachable uid name2 currency2 m1 R1) as (m2 & H2 & _).
    exists m1, m2. auto.
Qed.

(** ** Strings *)

Lemma prefix_append (p s : string) :
  String.prefix p s = true -> exists r, s = (p ++ r)%string.
Proof.
  revert s. induction p as [| a p IH]; intros s H.
  - exists s. reflexivity.
  - destruct s as [| b s]; [discriminate |].
    cbn [String.prefix] in H.
    destruct (ascii_dec a b) as [-> | _]; [| discriminate].
    destruct (IH s H) as [r ->]. exists r. reflexivity.
Qed.

Lemma split_nonempty (sep : ascii) (s : string) : split sep s <> [].
Proof.
  destruct s as [| c s]; simpl; [discriminate |].
  destruct (Ascii.eqb c sep); [discriminate |].
  destruct (split sep s); discriminate.
Qed.

(** The field after the first underscore of [type_...]. *)
Lemma second_field_type (rest : string) :
  exists x, second_field ("type_" ++ rest) = Ok x.
Proof.
  unfold second_field. cbv [String.append]. simpl.
  destruct (split "_" rest) as [| x xs] eqn:E.
  - exfalso. exact (split_nonempty _ _ E).
  - exists x. reflexivity.
Qed.

(** The field after the first underscore of [cat_...]. *)
Lemma second_field_cat (rest : string) :
  exists x, second_field ("cat_" ++ rest) = Ok x
            /\ (split "_" rest = [rest] -> x = rest).
Proof.
  unfold second_field. cbv [String.append]. simpl.
  destruct (split "_" rest) as [| x xs] eqn:E.
  - exfalso. exact (split_nonempty _ _ E).
  - exists x. split; [reflexivity |]. intros [= -> _]. reflexivity.
Qed.

Lemma split_no_underscore (s : string) :
  no_underscore s = true -> split "_" s = [s].
Proof.
  induction s as [| c s IH]; simpl; [reflexivity |].
  intros H. apply andb_prop in H. destruct H as [Hc Hs].
  destruct (Ascii.eqb c "_"); [discriminate |].
  rewrite (IH Hs). reflexivity.
Qed.

Lemma string_of_uint_no_underscore (d : Decimal.uint) :
  no_underscore (NilEmpty.string_of_uint d) = true.
Proof. induction d; simpl; auto. Qed.

(** The decimal numeral of an integer has no underscore. *)
Lemma str_of_int_no_underscore (z : Z) : no_underscore (str_of_int z) = true.
Proof.
  unfold str_of_int, NilZero.string_of_int, NilZero.string_of_uint.
  destruct (Z.to_int z) as [d | d]; destruct d; simpl;
    try reflexivity; apply string_of_uint_no_underscore.
Qed.

(** [f"cat_{id}".split("_")[1]] is [str(id)]. *)
Lemma second_field_cat_id (z : Z) :
  second_field ("cat_" ++ str_of_int z) = Ok (str_of_int z).
Proof.
  destruct (second_field_cat (str_of_int z)) as (x & -> & Hx).
  f_equal. apply Hx, split_no_underscore, str_of_int_no_underscore.
Qed.

Lemma state_is_exclusive (info : state_info) :
  state_is info "waiting_description" = true ->
  state_is info "waiting_amount" = false.
Proof.
  unfold state_is. destruct (si_state info) as [x |]; [| discriminate].
  intros H. apply String.eqb_eq in H. subst x. reflexivity.
Qed.

(** ** The dialogue *)

Lemma get_categories_frame (uid : Z) (ty : option string)
    (m : DatabaseManager) :
  exists (rows : list row) (m' : DatabaseManager) (evs : list event),
    get_categories uid ty m = (Ok rows, m')
    /\ log m' = log m ++ evs /\ store m' = store m
    /\ List.filter is_write evs = [].
Proof.
  unfold get_categories.
  destruct ty as [[| c t] |];
    match goal with
    | |- context [execute_query ?q m] =>
        destruct (execute_query_frame q m)
          as (rows & m' & evs & E & Hl & Hs & _ & _ & _ & Hw & _ & _)
    end;
    exists rows, m', evs; auto.
Qed.

(** Asking for the category touches neither the sessions nor the tables. *)
Ltac same_backups :=
  unfold backups; simpl; rewrite ?List.filter_app; simpl;
  rewrite ?app_nil_r; reflexivity.

Lemma prompt_category_frame (msg : message) (info : state_info)
    (h : FinanceBotHandlers) :
  let h' := snd (prompt_category msg info h) in
  user_states h' = user_states h /\ durable h' = durable h
  /\ write_events h' = write_events h /\ backups h' = backups h.
Proof.
  unfold prompt_category, durable, write_events.
  destruct (db_manager h) as [m |] eqn:Em; simpl; [| rewrite Em; auto].
  destruct (get_categories_frame (msg_from_user msg) (si_type info) m)
    as (rows & m' & evs & -> & Hl & Hs & Hw).
  assert (Hw' : List.filter is_write (log m') = List.filter is_write (log m))
    by (rewrite Hl, List.filter_app, Hw, app_nil_r; reflexivity).
  destruct rows as [| r rows];
    [simpl; rewrite Hs, Hw'; repeat split; same_backups |].
  destruct (category_keyboard (firstn 5 (r :: rows)));
    cbn -[category_keyboard]; rewrite Hs, Hw'; repeat split; same_backups.
Qed.

(** C7. Whatever the session of a user, [/cancel] removes it and leaves the
    manager, hence the tables, untouched; a text the user sends next gets the
    guidance reply of a user without a session: no session is created, and
    nothing is read from or written to the store. *)
Theorem cancel_then_text_is_idle (h : FinanceBotHandlers)
    (uid chat chat' : Z) (text text' : string) :
  let cancelled := cancel_command (mk_message uid chat text) h in
  let after := handle_message (mk_message uid chat' text') (snd cancelled) in
  fst cancelled = Ok tt
  /\ user_states (snd cancelled) !! uid = None
  /\ (forall u, u <> uid ->
      user_states (snd cancelled) !! u = user_states h !! u)
  /\ db_manager (snd cancelled) = db_manager h
  /\ fst after = Ok tt
  /\ user_states (snd after) = user_states (snd cancelled)
  /\ db_manager (snd after) = db_manager h
  /\ effects (snd after)
     = effects (snd cancelled)
       ++ [SendMessage chat' "Используйте /help для просмотра доступных команд"
             None].
Proof.
  unfold handle_message, cancel_command, clear_user_state, set_states, emit.
  simpl. rewrite lookup_delete_eq. simpl.
  repeat split; try reflexivity.
  intros u Hu. apply lookup_delete_ne. congruence.
Qed.

(** C4, as the code has it.  For a user without a session, a callback whose
    data does not start with [type_] (a category selection, or anything
    else) leaves the sessions and the manager as they are; a kind selection
    ([type_...]) opens a session that waits for the amount. *)
Theorem callback_without_session (h : FinanceBotHandlers)
    (call : callback_query) :
  user_states h !! call_from_user call = None ->
  let h' := snd (handle_callback call h) in
  if startswith "type_" (call_data call) then
    exists ty,
      second_field (call_data call) = Ok ty
      /\ user_states h'
         = <[call_from_user call :=
               mk_state_info (Some "waiting_amount") (Some ty) None None None]>
             (user_states h)
  else user_states h' = user_states h /\ db_manager h' = db_manager h.
Proof.
  intros Hnone. unfold handle_callback.
  destruct (startswith "type_" (call_data call)) eqn:Et.
  - apply prefix_append in Et. destruct Et as [rest Et]. rewrite Et.
    destruct (second_field_type rest) as [ty Hty]. rewrite Hty.
    exists ty. split; reflexivity.
  - destruct (startswith "cat_" (call_data call)); [| split; reflexivity].
    destruct (second_field (call_data call)); [| split; reflexivity].
    rewrite Hnone. split; reflexivity.
Qed.


(** What the completing step does to the manager. *)
Lemma terminal_step (h : FinanceBotHandlers) (msg : message)
    (info : state_info) :
  user_states h !! msg_from_user msg = Some info ->
  state_is info "waiting_description" = true ->
  let h' := snd (handle_message msg h) in
  match db_manager h,
        session_insert (msg_from_user msg) info (msg_text msg) with
  | Some m, Some s =>
      exists m' evs,
        db_manager h' = Some m' /\ log m' = log m ++ evs
        /\ ((store m' = store m /\ List.filter is_write evs = [])
            \/ (store m' = store m /\ List.filter is_write evs = [EvRollback s])
            \/ (exists d' k,
                  run_dml (store m) (server_clock m) s = Some (d', k)
                  /\ store m' = d' /\ List.filter is_write evs = [EvCommit s]))
        /\ (reachable m ->
            match run_dml (store m) (server_clock m) s with
            | Some (d', _) =>
                store m' = d' /\ List.filter is_write evs = [EvCommit s]
            | None =>
                store m' = store m /\ List.filter is_write evs = [EvRollback s]
            end)
  | _, _ => db_manager h' = db_manager h
  end.
Proof.
  intros Hs Hst. unfold handle_message. rewrite Hs.
  rewrite (state_is_exclusive _ Hst), Hst.
  unfold save_transaction, session_insert. cbn [db_manager set_states].
  destruct (db_manager h) as [m |] eqn:Em; [| simpl; exact Em].
  cbn [si_type si_amount si_description si_category].
  destruct (si_type info) as [ty |]; [| simpl; exact Em].
  destruct (si_amount info) as [amount |]; [| simpl; exact Em].
  unfold add_transaction, execute_insert.
  match goal with
  | |- context [InsTransaction ?a ?b ?c ?d ?e] =>
      set (s := InsTransaction a b c d e)
  end.
  destruct (execute_write_frame s committed m)
    as (b & m' & evs & E & Hl & _ & _ & _ & _ & _ & _ & Hcase & Hr).
  rewrite E. exists m', evs.
  split; [destruct b; reflexivity |]. split; [exact Hl |]. split.
  - destruct Hcase as [(_ & ? & ?) | [(_ & ? & ?) | (d' & k & ? & _ & ? & ?)]];
      [left | right; left | right; right; exists d', k]; auto.
  - intros R. destruct (Hr R) as (_ & Hne & Hrun).
    destruct (run_dml (store m) (server_clock m) s) as [[d' k] |] eqn:Erun.
    + destruct Hrun as [Hd Hb']. split; [exact Hd |].
      destruct Hcase
        as [(_ & _ & ?) | [(Hb & _ & ?) | (? & ? & _ & _ & _ & ?)]];
        [contradiction | | assumption].
      simpl in *. congruence.
    + destruct Hrun as [Hd _]. split; [exact Hd |].
      destruct Hcase as [(_ & _ & ?) | [(_ & _ & ?) | (? & ? & ? & _)]];
        [contradiction | assumption | discriminate].
Qed.

(** C8. Of the steps of the dialogue ([/add], [/cancel], a text, a selection)
    only a text for a session that waits for the description sends a write
    to the store: every other step leaves the tables as they are, sends no
    INSERT or UPDATE and hands nothing to the spreadsheet mirror.  That
    completing step sends at most one write, the INSERT of the session's
    transaction; with a manager set, the type and the amount captured and
    the server answering, it sends exactly that INSERT. *)
Theorem writes_only_at_terminal (i : input) (h : FinanceBotHandlers) :
  let h' := snd (dispatch i h) in
  (if terminal i h then
     exists msg info,
       i = Text msg /\ user_states h !! msg_from_user msg = Some info
       /\ match db_manager h,
                session_insert (msg_from_user msg) info (msg_text msg) with
          | Some m, Some s =>
              (durable h' = durable h /\ write_events h' = write_events h)
              \/ (durable h' = durable h
                  /\ write_events h' = write_events h ++ [EvRollback s])
              \/ (exists d' k,
                    run_dml (store m) (server_clock m) s = Some (d', k)
                    /\ durable h' = Some d'
                    /\ write_events h' = write_events h ++ [EvCommit s])
          | _, _ => durable h' = durable h /\ write_events h' = write_events h
          end
   else durable h' = durable h /\ write_events h' = write_events h
        /\ backups h' = backups h)
  /\ (forall msg info m s,
        i = Text msg ->
        user_states h !! msg_from_user msg = Some info ->
        state_is info "waiting_description" = true ->
        db_manager h = Some m ->
        session_insert (msg_from_user msg) info (msg_text msg) = Some s ->
        reachable m ->
        exists e, write_events h' = write_events h ++ [e]
                  /\ (e = EvCommit s \/ e = EvRollback s)).
Proof.
  cbv zeta. split.
  - destruct i as [msg | msg | msg | call]; simpl.
    + unfold add_command, durable, write_events. simpl.
      repeat split; same_backups.
    + unfold cancel_command, durable, write_events. simpl.
      repeat split; same_backups.
    + destruct (user_states h !! msg_from_user msg) as [info |] eqn:Es.
      * destruct (state_is info "waiting_description") eqn:Ed.
        -- exists msg, info. split; [reflexivity |]. split; [exact Es |].
           pose proof (terminal_step h msg info Es Ed) as T. cbv zeta in T.
           unfold durable, write_events.
           destruct (db_manager h) as [m |] eqn:Em;
             [| rewrite T; auto].
           destruct (session_insert _ _ _) as [s |]; [| rewrite T; auto].
           destruct T as (m' & evs & -> & Hl & Hcase & _).
           simpl. rewrite Hl, List.filter_app.
           destruct Hcase
             as [(-> & ->) | [(-> & ->) | (d' & k & Hrun & -> & ->)]].
           ++ left. rewrite app_nil_r. auto.
           ++ right. left. auto.
           ++ right. right. exists d', k. auto.
        -- unfold handle_message. rewrite Es, Ed.
           destruct (state_is info "waiting_amount"); [| auto].
           destruct (py_float (msg_text msg)) as [amount |];
             [| unfold durable, write_events; simpl;
                repeat split; same_backups].
           match goal with
           | |- context [prompt_category msg ?i ?h0] =>
               pose proof (prompt_category_frame msg i h0)
                 as (_ & Hd & Hw & Hb);
               destruct (prompt_category msg i h0) as [[[] | e] h1]
           end; [| destruct e];
             (repeat split;
              [transitivity (durable h1); [reflexivity | exact Hd]
              | transitivity (write_events h1); [reflexivity | exact Hw]
              | transitivity (backups h1); [same_backups | exact Hb]]).
      * unfold handle_message. rewrite Es.
        unfold durable, write_events. simpl. repeat split; same_backups.
    + unfold handle_callback, durable, write_events.
      destruct (startswith "type_" (call_data call)).
      * destruct (second_field (call_data call)); simpl;
          repeat split; same_backups.
      * destruct (startswith "cat_" (call_data call));
          [| simpl; repeat split; same_backups].
        destruct (second_field (call_data call));
          [| simpl; repeat split; same_backups].
        destruct (user_states h !! call_from_user call); simpl;
          repeat split; same_backups.
  - intros msg info m s -> Es Ed Em Ei R. simpl.
    pose proof (terminal_step h msg info Es Ed) as T. cbv zeta in T.
    rewrite Em, Ei in T. destruct T as (m' & evs & Hm & Hl & _ & Hr).
    specialize (Hr R). unfold write_events. rewrite Hm, Em, Hl, List.filter_app.
    destruct (run_dml (store m) (server_clock m) s) as [[d' k] |];
      destruct Hr as [_ ->]; eexists; split; eauto.
Qed.

(** The buttons offered for categories carry the category's id, in decimal,
    after [cat_]; the name is the label only. *)
Lemma category_keyboard_data (cs : list category_row) :
  category_keyboard (map category_dict cs)
  = Ok (map (fun c => (VStr (c_name c), ("cat_" ++ str_of_int (c_id c))%string))
          cs).
Proof.
  induction cs as [| c cs IH]; [reflexivity |].
  cbn -[String.append str_of_int]. rewrite IH. reflexivity.
Qed.

(** A category selection stores the field after [cat_] of its data. *)
Lemma category_capture (h : FinanceBotHandlers) (call : callback_query)
    (info : state_info) :
  user_states h !! call_from_user call = Some info ->
  startswith "cat_" (call_data call) = true ->
  exists cid,
    second_field (call_data call) = Ok cid
    /\ user_states (snd (handle_callback call h)) !! call_from_user call
       = Some (mk_state_info (Some "waiting_description") (si_type info)
                 (si_amount info) (Some cid) (si_description info))
    /\ (forall z, call_data call = ("cat_" ++ str_of_int z)%string ->
                  cid = str_of_int z).
Proof.
  intros Hs Hc. unfold handle_callback.
  pose proof (prefix_append _ _ Hc) as [rest Hrest].
  assert (Ht : startswith "type_" (call_data call) = false)
    by (rewrite Hrest; reflexivity).
  rewrite Ht, Hc, Hs.
  destruct (second_field_cat rest) as (cid & Hcid & _).
  rewrite Hrest in *. rewrite Hcid. exists cid.
  split; [reflexivity |]. split.
  - simpl. apply lookup_insert_eq.
  - intros z Hz. rewrite Hz, second_field_cat_id in Hcid. congruence.
Qed.


(** ** Dates of the budget period *)

Lemma days_before_year_bounds (y : Z) :
  1 <= y ->
  0 <= days_before_year y
  /\ (y <= 9998 -> days_before_year y + 366 <= MAXORDINAL)
  /\ days_before_year 9999 + 365 = MAXORDINAL.
Proof.
  intros Hy. unfold days_before_year, MAXORDINAL. cbv zeta.
  split; [| split].
  - pose proof (Z.div_le_mono (y - 1) (4 * (y - 1)) 100 ltac:(lia) ltac:(lia)).
    assert ((y - 1) / 100 <= (y - 1) / 4).
    { apply Z.div_le_lower_bound; [lia |].
      pose proof (Z.mul_div_le (y - 1) 100 ltac:(lia)).
      pose proof (Z.div_pos (y - 1) 100 ltac:(lia) ltac:(lia)). lia. }
    pose proof (Z.div_pos (y - 1) 400 ltac:(lia) ltac:(lia)). lia.
  - intros Hy'.
    assert ((y - 1) / 4 <= 2499)
      by (apply Z.lt_succ_r; apply Z.div_lt_upper_bound; lia).
    assert ((y - 1) / 400 <= (y - 1) / 100).
    { apply Z.div_le_lower_bound; [lia |].
      pose proof (Z.mul_div_le (y - 1) 400 ltac:(lia)).
      pose proof (Z.div_pos (y - 1) 400 ltac:(lia) ltac:(lia)). lia. }
    lia.
  - reflexivity.
Qed.

Lemma day_of_year_bounds (y m d : Z) :
  1 <= m <= 12 -> 1 <= d <= days_in_month y m ->
  1 <= days_before_month y m + d <= 365 + (if is_leap y then 1 else 0).
Proof.
  intros Hm Hd. unfold days_before_month, days_in_month in *.
  assert (Hcases : m = 1 \/ m = 2 \/ m = 3 \/ m = 4 \/ m = 5 \/ m = 6 \/ m = 7
                   \/ m = 8 \/ m = 9 \/ m = 10 \/ m = 11 \/ m = 12) by lia.
  destruct (is_leap y);
    repeat (destruct Hcases as [-> | Hcases]; [simpl in *; lia |]);
    subst m; simpl in *; lia.
Qed.

(** A valid date has an ordinal between 1 and [MAXORDINAL]. *)
Lemma toordinal_bounds (t : datetime) :
  valid_datetime t = true -> 1 <= toordinal t <= MAXORDINAL.
Proof.
  unfold valid_datetime, check_date_fields, toordinal, ymd2ord, MINYEAR,
    MAXYEAR.
  intros H. apply andb_prop in H. destruct H as [H _].
  repeat (apply andb_prop in H; destruct H as [H ?]).
  repeat match goal with
         | X : (_ <=? _) = true |- _ => apply Z.leb_le in X
         end.
  pose proof (day_of_year_bounds (year t) (month t) (day t)
                ltac:(lia) ltac:(lia)) as Hd.
  destruct (days_before_year_bounds (year t) ltac:(lia)) as (B0 & B1 & B2).
  destruct (Z.eq_dec (year t) 9999) as [E | E].
  - rewrite E in *. change (is_leap 9999) with false in Hd. lia.
  - specialize (B1 ltac:(lia)). destruct (is_leap (year t)); lia.
Qed.

Lemma timedelta_days_neg (w : Z) :
  timedelta_neg (timedelta_new w 0 0 0) = mk_timedelta (- w) 0 0.
Proof.
  unfold timedelta_neg, timedelta_new. cbn. f_equal.
  Z.div_mod_to_equations. lia.
Qed.

(** [now - timedelta(days=now.weekday())]: the same time of day, on the
    Monday of the week of [now]. *)
Lemma monday_of_week (now : datetime) :
  valid_datetime now = true ->
  exists d,
    datetime_sub now (timedelta_new (weekday now) 0 0 0) = Some d
    /\ toordinal d = toordinal now - weekday now
    /\ weekday d = 0
    /\ check_date_fields (year d) (month d) (day d) = true.
Proof.
  intros V. pose proof (toordinal_bounds now V) as Hord.
  unfold datetime_sub. rewrite timedelta_days_neg. unfold datetime_add.
  cbn [td_days td_seconds td_microseconds].
  unfold valid_datetime, check_time_fields in V.
  apply andb_prop in V. destruct V as [_ V].
  repeat (apply andb_prop in V; destruct V as [V ?]).
  repeat match goal with
         | X : (_ <=? _) = true |- _ => apply Z.leb_le in X
         end.
  assert (Hus : (microsecond now + 0) / 1000000 = 0)
    by (apply Z.div_small; lia).
  rewrite Hus.
  assert (Hsec : (hour now * 3600 + minute now * 60 + second now + 0 + 0)
                 / 86400 = 0) by (apply Z.div_small; lia).
  rewrite Hsec.
  assert (Hw : 0 <= weekday now <= 6)
    by (unfold weekday; pose proof (Z.mod_pos_bound (toordinal now + 6) 7);
        lia).
  assert (Hge : 1 <= toordinal now - weekday now).
  { unfold weekday in *.
    pose proof (Z.div_mod (toordinal now + 6) 7 ltac:(lia)). lia. }
  set (n := toordinal now + - weekday now + 0).
  assert (Hn : n = toordinal now - weekday now) by (unfold n; lia).
  assert (Hrange : (0 <? n) && (n <=? MAXORDINAL) = true).
  { apply andb_true_intro. split; [apply Z.ltb_lt | apply Z.leb_le]; lia. }
  rewrite Hrange.
  pose proof (ord2ymd_ymd2ord n ltac:(lia)) as Hrt.
  destruct (ord2ymd n) as [[y mo] dd].
  destruct Hrt as (Hrt & Hmo & Hdd & Hy & Hmax).
  eexists. split; [reflexivity |].
  assert (Hd : toordinal (mk_datetime y mo dd 0 0 0 0)
               = toordinal now - weekday now) by (rewrite <- Hn; exact Hrt).
  split; [exact Hd |]. split.
  - change (((toordinal (mk_datetime y mo dd 0 0 0 0)) + 6) mod 7 = 0).
    rewrite Hd. unfold weekday.
    pose proof (Z.div_mod (toordinal now + 6) 7 ltac:(lia)) as Hdm.
    replace (toordinal now - (toordinal now + 6) mod 7 + 6)
      with (((toordinal now + 6) / 7) * 7) by lia.
    apply Z.mod_mul. lia.
  - unfold check_date_fields, MINYEAR, MAXYEAR. cbn [year month day].
    specialize (Hmax ltac:(lia)). unfold MAXYEAR in Hmax.
    repeat (apply andb_true_intro; split); apply Z.leb_le; lia.
Qed.

(** ** The budget check *)

Lemma spent_since_between (uid : Z) (cat : string) (start now : datetime)
    (d : database) :
  (forall t, In t (transactions d) -> dt_leb (t_date t) now = true) ->
  spent_since uid cat start d = spent_between uid cat start now d.
Proof.
  intros H. unfold spent_since, spent_between. do 2 f_equal.
  apply List.filter_ext_in. intros t Ht. rewrite (H t Ht), andb_true_r.
  reflexivity.
Qed.

(** Running a sequence whose first step returns. *)
Lemma bind_ok {A B : Type} (c : M A) (k : A -> M B) (m m' : DatabaseManager)
    (a : A) :
  c m = (Ok a, m') -> bind c k m = k a m'.
Proof. intros H. unfold bind. rewrite H. reflexivity. Qed.

Lemma execute_query_reachable (q : select) (m : DatabaseManager) :
  reachable m ->
  exists m',
    execute_query q m = (Ok (run_select (store m) q), m')
    /\ store m' = store m /\ clock m' = clock m /\ reachable m'.
Proof.
  intros R.
  destruct (execute_query_frame q m)
    as (rows & m' & evs & E & _ & Hs & _ & Hc & _ & _ & _ & Hr).
  destruct (Hr R) as [-> R']. exists m'. auto.
Qed.

(** The start of the period [check_budget_exceeded] computes. *)
Lemma period_start (period : string) (now : datetime) :
  valid_datetime now = true ->
  exists start,
    (if String.eqb period "month" then ret (replace_day1_midnight now)
     else
       d <- of_option OverflowError
              (datetime_sub now (timedelta_new (weekday now) 0 0 0)) ;;
       ret (replace_midnight d))
    = ret start
    /\ (if String.eqb period "month" then start = month_start now
        else most_recent_monday now start).
Proof.
  intros V. destruct (String.eqb period "month").
  - exists (month_start now). split; reflexivity.
  - destruct (monday_of_week now V) as (d & -> & Hord & Hwd & Hdate).
    exists (replace_midnight d). split; [reflexivity |].
    unfold most_recent_monday.
    assert (Hw : 0 <= weekday now <= 6)
      by (unfold weekday; pose proof (Z.mod_pos_bound (toordinal now + 6) 7);
          lia).
    change (toordinal (replace_midnight d)) with (toordinal d).
    change (weekday (replace_midnight d)) with (weekday d).
    repeat split; try reflexivity; try lia; try assumption.
    unfold valid_datetime. cbn [replace_midnight year month day hour minute
                                  second microsecond].
    rewrite Hdate. reflexivity.
Qed.


(** ** The monthly and the weekly summary *)

Lemma is_leap_leap_year (y : Z) : is_leap y = leap_year y.
Proof.
  unfold is_leap, leap_year.
  destruct (Z.eqb_spec (y mod 400) 0) as [H400 | H400];
    destruct (Z.eqb_spec (y mod 100) 0) as [H100 | H100];
    destruct (Z.eqb_spec (y mod 4) 0) as [H4 | H4];
    try reflexivity; exfalso; Z.div_mod_to_equations; lia.
Qed.

(** [calendar.monthrange] gives the calendar's length of the month. *)
Lemma monthrange_month_length (y m : Z) :
  1 <= m <= 12 ->
  exists wd, monthrange y m = Some (wd, month_length y m)
             /\ days_in_month y m = month_length y m.
Proof.
  intros Hm. unfold monthrange, days_in_month, month_length.
  rewrite is_leap_leap_year.
  assert (Hcases : m = 1 \/ m = 2 \/ m = 3 \/ m = 4 \/ m = 5 \/ m = 6 \/ m = 7
                   \/ m = 8 \/ m = 9 \/ m = 10 \/ m = 11 \/ m = 12) by lia.
  destruct (leap_year y);
    repeat (destruct Hcases as [-> | Hcases];
            [eexists; split; reflexivity |]);
    subst m; eexists; split; reflexivity.
Qed.

Lemma filter_filter {A : Type} (f g : A -> bool) (l : list A) :
  List.filter f (List.filter g l) = List.filter (fun x => g x && f x) l.
Proof.
  induction l as [| x l IH]; [reflexivity |].
  simpl. destruct (g x); simpl; [destruct (f x) |]; rewrite ?IH; reflexivity.
Qed.

Lemma distinct_In (x : string) (l : list string) :
  In x (distinct l) <-> In x l.
Proof.
  induction l as [| y l IH]; simpl; [tauto |].
  rewrite List.filter_In, IH.
  destruct (String.eqb_spec y x) as [-> | Hne]; simpl.
  - tauto.
  - intuition congruence.
Qed.

Lemma distinct_NoDup (l : list string) : List.NoDup (distinct l).
Proof.
  induction l as [| y l IH]; simpl; constructor.
  - rewrite List.filter_In. intros [_ H]. rewrite String.eqb_refl in H.
    discriminate.
  - apply List.NoDup_filter. exact IH.
Qed.

(** The loop over the groups: a total is replaced when its type has a group
    and kept otherwise; the loop does not raise. *)
Lemma summary_loop_groups (ts : list transaction_row) (keys : list string)
    (s0 : summary) :
  List.NoDup keys ->
  exists s,
    summary_loop (map (group_row ts) keys) s0 = Ok s
    /\ (In "income" keys ->
        income s
        = PyFloat (FFin (dec_sum (map t_amount
                                    (List.filter (type_is "income") ts)))))
    /\ (~ In "income" keys -> income s = income s0)
    /\ (In "expense" keys ->
        expense s
        = PyFloat (FFin (dec_sum (map t_amount
                                    (List.filter (type_is "expense") ts)))))
    /\ (~ In "expense" keys -> expense s = expense s0).
Proof.
  revert s0. induction keys as [| k keys IH]; intros s0 ND.
  - exists s0. simpl. tauto.
  - inversion ND as [| ? ? Hk ND']; subst.
    cbn [map summary_loop]. unfold summary_row, group_row, getitem.
    cbn [row_get String.eqb Ascii.eqb Bool.eqb rbind is_str float_of_value].
    destruct (String.eqb_spec k "income") as [-> | Hi].
    + cbn [rbind].
      match goal with
      | |- context [summary_loop _ ?s1] => destruct (IH s1 ND') as (s & E & Hs)
      end.
      exists s. split; [exact E |].
      destruct Hs as (_ & H2 & H3 & H4).
      cbn [income expense] in *.
      repeat split.
      * intros _. exact (H2 Hk).
      * intros H. exfalso. apply H. left. reflexivity.
      * intros [H | H]; [discriminate | auto].
      * intros H. apply H4. intros H'. apply H. right. exact H'.
    + cbn [rbind]. destruct (String.eqb_spec k "expense") as [-> | He].
      * cbn [rbind].
        match goal with
        | |- context [summary_loop _ ?s1] =>
            destruct (IH s1 ND') as (s & E & Hs)
        end.
        exists s. split; [exact E |].
        destruct Hs as (H1 & H2 & _ & H4).
        cbn [income expense] in *.
        repeat split.
        -- intros [H | H]; [discriminate | auto].
        -- intros H. apply H2. intros H'. apply H. right. exact H'.
        -- intros _. exact (H4 Hk).
        -- intros H. exfalso. apply H. left. reflexivity.
      * destruct (IH s0 ND') as (s & E & H1 & H2 & H3 & H4).
        exists s. split; [exact E |].
        repeat split.
        -- intros [H | H]; [congruence | auto].
        -- intros H. apply H2. intros H'. apply H. right. exact H'.
        -- intros [H | H]; [congruence | auto].
        -- intros H. apply H4. intros H'. apply H. right. exact H'.
Qed.

Lemma type_occurs (ty : string) (ts : list transaction_row) :
  In ty (map t_type ts) <-> List.filter (type_is ty) ts <> [].
Proof.
  induction ts as [| t ts IH]; simpl; [tauto |].
  unfold type_is at 1. destruct (String.eqb_spec (t_type t) ty) as [E | E].
  - split; [discriminate | auto].
  - rewrite <- IH. intuition congruence.
Qed.

(** The summary after the loop over the rows of GROUP BY type. *)
Lemma summary_of_groups (ts : list transaction_row) (s0 : summary) :
  exists s,
    summary_loop (group_by_type ts) s0 = Ok s
    /\ income s = match List.filter (type_is "income") ts with
                  | [] => income s0
                  | g => PyFloat (FFin (dec_sum (map t_amount g)))
                  end
    /\ expense s = match List.filter (type_is "expense") ts with
                   | [] => expense s0
                   | g => PyFloat (FFin (dec_sum (map t_amount g)))
                   end.
Proof.
  unfold group_by_type.
  destruct (summary_loop_groups ts (distinct (map t_type ts)) s0
              (distinct_NoDup _)) as (s & E & Hi & Hi' & He & He').
  exists s. split; [exact E |].
  rewrite !distinct_In, !type_occurs in *.
  split.
  - destruct (List.filter (type_is "income") ts) eqn:F.
    + apply Hi'. intros H. apply H. reflexivity.
    + apply Hi. discriminate.
  - destruct (List.filter (type_is "expense") ts) eqn:F.
    + apply He'. intros H. apply H. reflexivity.
    + apply He. discriminate.
Qed.

Lemma month_transactions_filter (uid y mo : Z) (ty : string) (d : database) :
  List.filter (type_is ty)
    (List.filter (between_filter uid (month_first y mo) (month_last y mo))
       (transactions d))
  = month_transactions uid y mo ty d.
Proof. rewrite filter_filter. reflexivity. Qed.

(** The two dates [get_monthly_summary] builds. *)
Lemma month_bounds (y mo : Z) :
  1 <= y <= 9999 -> 1 <= mo <= 12 ->
  datetime_new y mo 1 0 0 0 = Some (month_first y mo)
  /\ exists wd,
       monthrange y mo = Some (wd, month_length y mo)
       /\ datetime_new y mo (month_length y mo) 23 59 59
          = Some (month_last y mo).
Proof.
  intros Hy Hm.
  destruct (monthrange_month_length y mo Hm) as (wd & Hr & Hlen).
  assert (Hge : 28 <= month_length y mo <= 31).
  { unfold month_length.
    destruct (mo =? 2); [destruct (leap_year y); lia |].
    destruct (existsb _ _); lia. }
  assert (Hdate : forall d, 1 <= d <= month_length y mo ->
                            check_date_fields y mo d = true).
  { intros d Hd. unfold check_date_fields, MINYEAR, MAXYEAR. rewrite Hlen.
    repeat (apply andb_true_intro; split); apply Z.leb_le; lia. }
  split.
  - unfold datetime_new. rewrite Hdate by lia. reflexivity.
  - exists wd. split; [exact Hr |].
    unfold datetime_new. rewrite Hdate by lia. reflexivity.
Qed.


(** The weekly summary is the monthly summary of the month the week starts
    in, whenever the end of the week is a date at all. *)
Lemma weekly_is_monthly (uid : Z) (start : datetime) (m : DatabaseManager) :
  week_end start <> None ->
  get_weekly_summary uid start m
  = get_monthly_summary uid (year start) (month start) m.
Proof.
  unfold get_weekly_summary, week_end. intros H.
  destruct (datetime_add start (timedelta_new 6 23 59 59)); [| contradiction].
  reflexivity.
Qed.

(** C1, on the code.  For the week that starts on Monday 2024-01-01 the
    weekly summary of user 1 reports an income of 1000: it counts the income
    of the 20th, outside the week, whose own income is 100.  For the week
    that starts on Monday 2024-01-29 it reports 1000 again and misses the
    income of the 2nd of February, inside the week, whose own income is 50. *)
Theorem weekly_summary_uses_month_window :
  let m := online january_tables (noon 2024 2 10) in
  (income <$> fst_ok (get_weekly_summary 1 (mk_datetime 2024 1 1 0 0 0 0) m)
   = Some (PyFloat (FFin (dec_of_Z 1000)))
   /\ week_total 1 (mk_datetime 2024 1 1 0 0 0 0) "income" january_tables
      = Some (PyFloat (FFin (dec_of_Z 100))))
  /\ (income <$> fst_ok (get_weekly_summary 1 (mk_datetime 2024 1 29 0 0 0 0) m)
      = Some (PyFloat (FFin (dec_of_Z 1000)))
      /\ week_total 1 (mk_datetime 2024 1 29 0 0 0 0) "income" january_tables
         = Some (PyFloat (FFin (dec_of_Z 50)))).
Proof. vm_compute. repeat split. Qed.

(** ** The statements at concrete inputs *)


Lemma online_reachable (d : database) (now : datetime) :
  reachable (online d now).
Proof. intros i _. reflexivity. Qed.




(** A kind selection from a user without a session opens one. *)
Lemma kind_selection_opens_session :
  let h' := snd (handle_callback (mk_call 1 7 7 "type_income") idle) in
  user_states idle !! 7 = None
  /\ user_states h' !! 7
     = Some (mk_state_info (Some "waiting_amount") (Some "income") None None
               None)
  /\ user_states h' <> user_states idle.
Proof.
  cbv zeta. split; [reflexivity |]. split; [reflexivity |].
  intros H.
  assert (E : user_states
                (snd (handle_callback (mk_call 1 7 7 "type_income") idle)) !! 7
              = user_states idle !! 7) by (rewrite H; reflexivity).
  discriminate E.
Qed.

Lemma callback_without_session_witness :
  user_states idle !! 7 = None
  /\ user_states (snd (handle_callback (mk_call 1 7 7 "cat_42") idle))
     = user_states idle
  /\ db_manager (snd (handle_callback (mk_call 1 7 7 "cat_42") idle))
     = db_manager idle.
Proof.
  split; [reflexivity |].
  exact (callback_without_session idle (mk_call 1 7 7 "cat_42") eq_refl).
Defined.

Lemma upsert_twice_one_row_witness :
  let m := online (mk_database [] [] [] [] 1) (noon 2024 2 10) in
  primary_key (store m)
  /\ user_rows 7
       (store (snd (add_user 7 "bob" "USD" (snd (add_user 7 "ann" "RUB" m)))))
     = [mk_user 7 "bob" "USD"].
Proof.
  cbv zeta. split; [constructor |].
  apply (proj1 (upsert_twice_one_row 7 "ann" "RUB" "bob" "USD"
                  (online (mk_database [] [] [] [] 1) (noon 2024 2 10))
                  (List.NoDup_nil _))
           (snd (add_user 7 "ann" "RUB"
                   (online (mk_database [] [] [] [] 1) (noon 2024 2 10)))));
    reflexivity.
Defined.



(** A whole dialogue: [/add], the kind, the amount, the category with id 3
    (named Food), the description.  One transaction is stored, with the
    category ["3"], and the session is gone. *)
Example dialogue_run :
  let tables :=
    mk_database [mk_user 7 "bob" "RUB"] []
      [mk_category 3 "Food" "expense" (Some 7)] [] 1 in
  let h0 := mk_handlers (Some (online tables (noon 2024 2 10))) ∅ [] in
  let run h i := snd (dispatch i h) in
  let h5 :=
    fold_left run
      [Add (mk_message 7 7 "/add");
       Callback (mk_call 1 7 7 "type_expense");
       Text (mk_message 7 7 "250");
       Callback (mk_call 2 7 7 "cat_3");
       Text (mk_message 7 7 "lunch")] h0 in
  (transactions <$> durable h5)
  = Some [mk_transaction 1 7 "expense" (dec_of_Z 250) "3" "lunch"
            (noon 2024 2 10)]
  /\ user_states h5 !! 7 = None.
Proof. vm_compute. split; reflexivity. Qed.

(** * Further properties *)

(** ** The dialogue, step by step *)

Lemma order_by_name_In (c : category_row) (l : list category_row) :
  In c (order_by_name l) <-> In c l.
Proof.
  assert (Hins : forall x l', In c (insert_by_name x l') <-> c = x \/ In c l').
  { intros x l'. induction l' as [| d l' IH]; simpl; [intuition |].
    destruct (String.leb (c_name x) (c_name d)); simpl; [intuition |].
    rewrite IH. intuition. }
  induction l as [| x l IH]; simpl; [tauto |].
  rewrite Hins, IH. intuition.
Qed.

Lemma order_by_name_nil (l : list category_row) :
  order_by_name l = [] -> l = [].
Proof.
  destruct l as [| x l]; [reflexivity |]. intros H.
  assert (Hin : In x (order_by_name (x :: l)))
    by (apply order_by_name_In; left; reflexivity).
  rewrite H in Hin. destruct Hin.
Qed.

(** What [get_categories] returns: the user's own categories, or nothing when
    the read fails. *)
Lemma get_categories_rows (uid : Z) (ty : option string) (m : DatabaseManager) :
  exists (cs : list category_row) (m' : DatabaseManager) (evs : list event),
    get_categories uid ty m = (Ok (map category_dict cs), m')
    /\ log m' = log m ++ evs /\ store m' = store m
    /\ server_clock m' = server_clock m
    /\ List.filter is_write evs = []
    /\ (cs = [] \/ cs = own_categories uid ty (store m))
    /\ (reachable m -> cs = own_categories uid ty (store m) /\ reachable m').
Proof.
  assert (Hq : exists q,
             get_categories uid ty m = execute_query q m
             /\ run_select (store m) q
                = map category_dict (own_categories uid ty (store m))).
  { unfold get_categories, own_categories, type_filter.
    destruct ty as [[| c t] |]; eexists; split; reflexivity. }
  destruct Hq as (q & -> & Hrun).
  destruct (execute_query_frame q m)
    as (rows & m' & evs & E & Hl & Hs & _ & _ & Hk & Hw & Hrows & Hr).
  rewrite Hrun in Hrows, Hr. rewrite E.
  destruct Hrows as [-> | ->].
  - exists [], m', evs.
    split; [reflexivity |]. split; [exact Hl |]. split; [exact Hs |].
    split; [exact Hk |]. split; [exact Hw |]. split; [left; reflexivity |].
    intros R. destruct (Hr R) as [Hnil R']. split; [| exact R'].
    symmetry in Hnil. apply map_eq_nil in Hnil. symmetry. exact Hnil.
  - eexists _, m', evs.
    split; [reflexivity |]. split; [exact Hl |]. split; [exact Hs |].
    split; [exact Hk |]. split; [exact Hw |]. split; [right; reflexivity |].
    intros R. split; [reflexivity | apply Hr, R].
Qed.

Lemma category_keyboard_firstn (cs : list category_row) :
  category_keyboard (firstn 5 (map category_dict cs))
  = Ok (map category_button (firstn 5 cs)).
Proof. rewrite List.firstn_map. apply category_keyboard_data. Qed.

Lemma prompt_category_cases (msg : message) (info : state_info)
    (h : FinanceBotHandlers) (m : DatabaseManager) :
  db_manager h = Some m ->
  exists (cs : list category_row) (m' : DatabaseManager),
    prompt_category msg info h
    = (Ok tt, emit (category_prompt (msg_chat msg) cs) (set_manager m' h))
    /\ store m' = store m /\ server_clock m' = server_clock m
    /\ (cs = [] \/ cs = own_categories (msg_from_user msg) (si_type info) (store m))
    /\ (reachable m ->
        cs = own_categories (msg_from_user msg) (si_type info) (store m)
        /\ reachable m').
Proof.
  intros Em. unfold prompt_category. rewrite Em.
  destruct (get_categories_rows (msg_from_user msg) (si_type info) m)
    as (cs & m' & evs & -> & _ & Hs & Hk & _ & Hcs & Hr).
  exists cs, m'. split; [| auto].
  destruct cs as [| c cs]; [reflexivity |].
  change (map category_dict (c :: cs))
    with (category_dict c :: map category_dict cs) at 1.
  cbv beta iota.
  change (category_dict c :: map category_dict cs)
    with (map category_dict (c :: cs)).
  rewrite category_keyboard_firstn. reflexivity.
Qed.

Lemma amount_step_result (h : FinanceBotHandlers) (msg : message)
    (info : state_info) (m : DatabaseManager) (amount : pyfloat) :
  user_states h !! msg_from_user msg = Some info ->
  state_is info "waiting_amount" = true ->
  py_float (msg_text msg) = Some amount ->
  db_manager h = Some m ->
  exists (cs : list category_row) (m' : DatabaseManager),
    handle_message msg h
    = (Ok tt,
       emit (category_prompt (msg_chat msg) cs)
         (set_manager m'
            (set_states (<[msg_from_user msg := with_amount info amount]>
                           (user_states h)) h)))
    /\ store m' = store m /\ server_clock m' = server_clock m
    /\ (cs = []
        \/ cs = own_categories (msg_from_user msg) (si_type info) (store m))
    /\ (reachable m ->
        cs = own_categories (msg_from_user msg) (si_type info) (store m)
        /\ reachable m').
Proof.
  intros Hs Hst Hf Em. unfold handle_message. rewrite Hs, Hst, Hf.
  fold (with_amount info amount).
  destruct (prompt_category_cases msg (with_amount info amount)
              (set_states (<[msg_from_user msg := with_amount info amount]>
                             (user_states h)) h) m Em)
    as (cs & m' & -> & Hrest).
  exists cs, m'. split; [reflexivity | exact Hrest].
Qed.





(** What an accepted INSERT into [transactions] does to the tables. *)
Lemma insert_transaction_rows (d d' : database) (now : datetime) (uid : Z)
    (ty : string) (amount : pyfloat) (cat desc : string) (k : Z) :
  run_dml d now (InsTransaction uid ty amount cat desc) = Some (d', k) ->
  exists a,
    amount = FFin a /\ has_user uid d = true
    /\ d' = mk_database (users d)
              (transactions d
               ++ [mk_transaction (transactions_id_seq d) uid ty a cat desc
                     now])
              (categories d) (budgets d) (transactions_id_seq d + 1).
Proof.
  unfold run_dml. destruct amount as [a | |]; simpl; try discriminate.
  destruct (has_user uid d); [| discriminate].
  intros E. injection E as <- _. exists a. repeat split.
Qed.

Lemma add_transaction_cases (uid : Z) (ty : string) (amount : pyfloat)
    (cat desc : string) (m : DatabaseManager) :
  exists (b : bool) (m' : DatabaseManager),
    add_transaction uid ty amount cat desc m = (Ok b, m')
    /\ ((b = false /\ store m' = store m)
        \/ (b = true
            /\ exists k,
                 run_dml (store m) (server_clock m)
                   (InsTransaction uid ty amount cat desc)
                 = Some (store m', k)))
    /\ (reachable m ->
        reachable m'
        /\ match run_dml (store m) (server_clock m)
                   (InsTransaction uid ty amount cat desc) with
           | Some (d', _) => b = true /\ store m' = d'
           | None => b = false /\ store m' = store m
           end).
Proof.
  destruct (execute_write_frame (InsTransaction uid ty amount cat desc)
              committed m)
    as (b & m' & evs & E & _ & _ & _ & _ & _ & _ & _ & Hc & Hr).
  exists b, m'. split; [exact E |]. split.
  - destruct Hc as [(-> & Hs & _) | [(-> & Hs & _) | (d' & k & Hd & -> & Hs & _)]].
    + left. split; [reflexivity | exact Hs].
    + left. split; [reflexivity | exact Hs].
    + right. split; [reflexivity |]. exists k. rewrite Hs. exact Hd.
  - intros R. destruct (Hr R) as (R' & _ & Hm). split; [exact R' |].
    destruct (run_dml _ _ _) as [[d' k] |]; destruct Hm as [Hs ->];
      split; try reflexivity; exact Hs.
Qed.

Lemma description_step_cases (h : FinanceBotHandlers) (msg : message)
    (info : state_info) (m : DatabaseManager) (ty : string)
    (amount : pyfloat) :
  user_states h !! msg_from_user msg = Some info ->
  state_is info "waiting_description" = true ->
  si_type info = Some ty -> si_amount info = Some amount ->
  db_manager h = Some m ->
  let uid := msg_from_user msg in
  let cat := default "Other" (si_category info) in
  let s := InsTransaction uid ty amount cat (msg_text msg) in
  exists (b : bool) (m' : DatabaseManager),
    handle_message msg h
    = (Ok tt,
       mk_handlers (Some m') (delete uid (user_states h))
         (effects h
          ++ (if b then saved_effects uid (msg_chat msg) ty amount cat
                          (msg_text msg)
              else not_saved_effects uid (msg_chat msg)
                     (with_description info (msg_text msg)))))
    /\ ((b = false /\ store m' = store m)
        \/ (b = true
            /\ exists k,
                 run_dml (store m) (server_clock m) s = Some (store m', k)))
    /\ (reachable m ->
        reachable m'
        /\ match run_dml (store m) (server_clock m) s with
           | Some (d', _) => b = true /\ store m' = d'
           | None => b = false /\ store m' = store m
           end).
Proof.
  intros Hs Hst Ety Eam Em uid cat s. subst uid cat s.
  destruct (add_transaction_cases (msg_from_user msg) ty amount
              (default "Other" (si_category info)) (msg_text msg) m)
    as (b & m' & E & Hrest).
  exists b, m'. split; [| exact Hrest].
  unfold handle_message. rewrite Hs.
  rewrite (state_is_exclusive info Hst), Hst.
  unfold save_transaction. cbn [db_manager set_states si_type si_amount
                                  si_description si_category msg_from_user].
  rewrite Em, Ety, Eam, E.
  unfold clear_user_state, emit, set_manager, set_states.
  cbn [db_manager user_states effects].
  rewrite delete_insert_eq.
  destruct b; unfold saved_effects, not_saved_effects, with_description;
    rewrite ?Ety, ?Eam, <- app_assoc; reflexivity.
Qed.





Lemma handle_callback_cases (call : callback_query) (h : FinanceBotHandlers) :
  exists (st : gmap Z state_info) (sent : list effect),
    handle_callback call h
    = (Ok tt,
       mk_handlers (db_manager h) st
         (effects h ++ sent ++ [AnswerCallbackQuery (call_id call)]))
    /\ (st = user_states h /\ sent = []
        \/ exists info' text,
             st = <[call_from_user call := info']> (user_states h)
             /\ sent = [SendMessage (call_chat call) text None]
             /\ ((forall info,
                    user_states h !! call_from_user call = Some info ->
                    well_formed info = true) ->
                 well_formed info' = true)).
Proof.
  unfold handle_callback.
  destruct (startswith "type_" (call_data call)) eqn:Ht.
  - destruct (prefix_append _ _ Ht) as [rest Hrest].
    destruct (second_field_type rest) as [x Hx].
    rewrite Hrest, Hx. eexists. eexists. split.
    + unfold emit, set_states. cbn [db_manager user_states effects].
      rewrite <- app_assoc. reflexivity.
    + right. eexists. eexists. split; [reflexivity |].
      split; [reflexivity |]. intros _. reflexivity.
  - destruct (startswith "cat_" (call_data call)) eqn:Hc.
    + destruct (prefix_append _ _ Hc) as [rest Hrest].
      destruct (second_field_cat rest) as (x & Hx & _).
      rewrite Hrest, Hx.
      destruct (user_states h !! call_from_user call) as [info |] eqn:Hs.
      * eexists. eexists. split.
        -- unfold emit, set_states. cbn [db_manager user_states effects].
           rewrite <- app_assoc. reflexivity.
        -- right. eexists. eexists. split; [reflexivity |].
           split; [reflexivity |]. intros _. reflexivity.
      * exists (user_states h), []. split; [reflexivity |]. left. tauto.
    + exists (user_states h), []. split; [reflexivity |]. left. tauto.
Qed.


Lemma incomplete_step (h : FinanceBotHandlers) (msg : message)
    (info : state_info) (m : DatabaseManager) :
  user_states h !! msg_from_user msg = Some info ->
  state_is info "waiting_description" = true ->
  si_type info = None \/ si_amount info = None ->
  db_manager h = Some m ->
  handle_message msg h
  = (Raise KeyError,
     set_states (<[msg_from_user msg := with_description info (msg_text msg)]>
                   (user_states h)) h).
Proof.
  intros Hs Hst Hno Em. unfold handle_message. rewrite Hs.
  rewrite (state_is_exclusive info Hst), Hst.
  unfold save_transaction.
  cbn [db_manager set_states si_type si_amount si_description].
  rewrite Em. fold (with_description info (msg_text msg)).
  destruct Hno as [-> | ->]; [reflexivity |].
  destruct (si_type info); reflexivity.
Qed.

(** X6. A category button pressed right after [/add], before the kind was
    chosen, moves the session to the description step without a type.  From
    there every text of the user raises [KeyError]: no reply is sent, nothing
    is stored, and the session stays as it is (with the text as description),
    so the next text raises again, until [/cancel] or a new [/add]. *)
Theorem category_before_kind_is_stuck (h : FinanceBotHandlers) (msg : message)
    (call : callback_query) (m : DatabaseManager) :
  db_manager h = Some m ->
  call_from_user call = msg_from_user msg ->
  startswith "cat_" (call_data call) = true ->
  let uid := msg_from_user msg in
  let h2 := snd (handle_callback call (snd (add_command msg h))) in
  forall chat texts,
    let h3 := after_texts uid chat texts h2 in
    effects h3 = effects h2
    /\ db_manager h3 = Some m
    /\ (exists info,
          user_states h3 !! uid = Some info
          /\ state_is info "waiting_description" = true
          /\ si_type info = None /\ si_amount info = None)
    /\ forall chat' text,
         fst (handle_message (mk_message uid chat' text) h3) = Raise KeyError.
Proof.
  intros Em Eu Hc uid h2 chat texts h3.
  assert (Hinv : effects h3 = effects h2 /\ db_manager h3 = Some m
                 /\ exists info,
                      user_states h3 !! uid = Some info
                      /\ state_is info "waiting_description" = true
                      /\ si_type info = None /\ si_amount info = None).
  { subst h3. revert h2. intros h2.
    assert (H2 : db_manager h2 = Some m
                 /\ exists info,
                      user_states h2 !! uid = Some info
                      /\ state_is info "waiting_description" = true
                      /\ si_type info = None /\ si_amount info = None).
    { subst h2. split.
      - destruct (handle_callback_cases call (snd (add_command msg h)))
          as (st & sent & -> & _). exact Em.
      - assert (Hs : user_states (snd (add_command msg h)) !! call_from_user call
                     = Some (mk_state_info (Some "waiting_type") None None None
                               None)).
        { rewrite Eu. cbn. apply lookup_insert_eq. }
        destruct (category_capture _ call _ Hs Hc) as (cid & _ & Hl & _).
        rewrite Eu in Hl. eexists. split; [exact Hl |]. repeat split. }
    clearbody h2. destruct H2 as [Em2 Hinfo].
    assert (Hgen : forall h0,
               db_manager h0 = Some m ->
               (exists info,
                  user_states h0 !! uid = Some info
                  /\ state_is info "waiting_description" = true
                  /\ si_type info = None /\ si_amount info = None) ->
               effects (after_texts uid chat texts h0) = effects h0
               /\ db_manager (after_texts uid chat texts h0) = Some m
               /\ exists info,
                    user_states (after_texts uid chat texts h0) !! uid
                    = Some info
                    /\ state_is info "waiting_description" = true
                    /\ si_type info = None /\ si_amount info = None).
    { induction texts as [| t texts IH]; intros h0 Em0 Hi0.
      - split; [reflexivity |]. split; [exact Em0 | exact Hi0].
      - destruct Hi0 as (info & Hl & Hst & Hty & Ham).
        unfold after_texts in *. cbn [fold_left].
        rewrite (incomplete_step h0 (mk_message uid chat t) info m Hl Hst
                   (or_introl Hty) Em0).
        cbn [snd msg_from_user msg_text].
        match goal with
        | |- context [fold_left _ texts ?hx] => specialize (IH hx)
        end.
        apply IH; [exact Em0 |].
        eexists. split; [cbn; apply lookup_insert_eq |].
        split; [exact Hst |]. split; [exact Hty | exact Ham]. }
    apply Hgen; [exact Em2 | exact Hinfo]. }
  destruct Hinv as (He & Em3 & info & Hl & Hst & Hty & Ham).
  split; [exact He |]. split; [exact Em3 |].
  split; [exists info; repeat split; assumption |].
  intros chat' text.
  rewrite (incomplete_step h3 (mk_message uid chat' text) info m Hl Hst
             (or_introl Hty) Em3).
  reflexivity.
Qed.

Lemma category_before_kind_is_stuck_witness :
  let h2 :=
    snd (handle_callback (mk_call 1 7 7 "cat_3")
           (snd (add_command (mk_message 7 7 "/add") idle))) in
  fst (handle_message (mk_message 7 7 "lunch")
         (after_texts 7 7 ["lunch"; "lunch"] h2)) = Raise KeyError.
Proof.
  intros h2.
  exact (proj2 (proj2 (proj2
           (category_before_kind_is_stuck idle (mk_message 7 7 "/add")
              (mk_call 1 7 7 "cat_3")
              (online (mk_database [mk_user 7 "bob" "RUB"] [] [] [] 1)
                 (noon 2024 2 10))
              eq_refl eq_refl eq_refl 7 ["lunch"; "lunch"]))) 7 "lunch").
Defined.

(** ** Sessions across users and steps *)

Lemma well_formed_description (info : state_info) (text : string) :
  well_formed info = true -> well_formed (with_description info text) = true.
Proof. intros H. exact H. Qed.

Lemma handle_message_sessions (msg : message) (h : FinanceBotHandlers) :
  let st := user_states h in
  let st' := user_states (snd (handle_message msg h)) in
  st' = st \/ st' = delete (msg_from_user msg) st
  \/ exists info',
       st' = <[msg_from_user msg := info']> st
       /\ ((forall info, st !! msg_from_user msg = Some info ->
                         well_formed info = true) ->
           well_formed info' = true).
Proof.
  cbv zeta. unfold handle_message.
  destruct (user_states h !! msg_from_user msg) as [info |] eqn:Hs;
    [| left; reflexivity].
  destruct (state_is info "waiting_amount") eqn:Ha.
  - destruct (py_float (msg_text msg)) as [amount |]; [| left; reflexivity].
    right. right. eexists. split.
    + match goal with
      | |- context [prompt_category ?a ?b ?c] =>
          pose proof (prompt_category_frame a b c) as [Hf _];
          destruct (prompt_category a b c) as [[[] | e] h'] eqn:Ep
      end; cbn [snd] in Hf |- *; [exact Hf |].
      destruct e; cbn [snd user_states emit]; exact Hf.
    + intros Hwf. specialize (Hwf info eq_refl).
      unfold well_formed, state_is in *. cbn [si_state si_type si_amount].
      destruct (si_state info) as [s |]; [| discriminate].
      apply String.eqb_eq in Ha. subst s. cbn in Hwf.
      cbn. rewrite Hwf. reflexivity.
  - destruct (state_is info "waiting_description") eqn:Hd;
      [| left; reflexivity].
    unfold save_transaction. cbn [db_manager set_states].
    destruct (db_manager h) as [m |].
    + cbn [si_type si_amount si_description].
      assert (Hkeep : forall ty amount,
                 si_type info = ty -> si_amount info = amount ->
                 (forall info0, Some info = Some info0 ->
                                well_formed info0 = true) ->
                 well_formed
                   (mk_state_info (si_state info) ty amount (si_category info)
                      (Some (msg_text msg))) = true).
      { intros ty amount <- <- Hwf. exact (Hwf info eq_refl). }
      destruct (si_type info) as [ty |] eqn:Ety,
               (si_amount info) as [amount |] eqn:Eam;
        try (right; right; eexists; split; [reflexivity |];
             apply Hkeep; reflexivity).
      destruct (add_transaction _ _ _ _ _ m) as [[[|] | e] m'];
        cbn [snd user_states clear_user_state emit set_manager set_states].
      * right. left. apply delete_insert_eq.
      * right. left. apply delete_insert_eq.
      * right. right. eexists. split; [reflexivity |].
        apply Hkeep; reflexivity.
    + right. left. cbn. apply delete_insert_eq.
Qed.

Lemma perform_sessions (c : command) (h : FinanceBotHandlers) :
  let st := user_states h in
  let st' := user_states (snd (perform c h)) in
  st' = st \/ st' = delete (sender c) st
  \/ exists info',
       st' = <[sender c := info']> st
       /\ ((forall info, st !! sender c = Some info ->
                         well_formed info = true) ->
           well_formed info' = true).
Proof.
  destruct c as [[msg | msg | msg | call] | msg p | msg];
    cbn [perform dispatch sender].
  - right. right. eexists. split; [reflexivity |]. intros _. reflexivity.
  - right. left. reflexivity.
  - apply handle_message_sessions.
  - cbv zeta.
    destruct (handle_callback_cases call h) as (st & sent & -> & Hst).
    cbn [snd user_states].
    destruct Hst as [[-> _] | (info' & text & -> & _ & Hwf)];
      [left; reflexivity |].
    right. right. exists info'. split; [reflexivity | exact Hwf].
  - right. left. unfold start_command.
    cbn [db_manager clear_user_state set_states].
    destruct (db_manager h) as [m |]; [| reflexivity].
    destruct (add_user _ _ _ m) as [[[|] | e] m']; reflexivity.
  - right. left. reflexivity.
Qed.

(** X7. Sessions are per user: a command, a text or a callback of one user
    never changes, creates or deletes the session of another user, whatever it
    returns or raises. *)
Theorem sessions_are_per_user (c : command) (h : FinanceBotHandlers) (u : Z) :
  u <> sender c ->
  user_states (snd (perform c h)) !! u = user_states h !! u.
Proof.
  intros Hu.
  destruct (perform_sessions c h) as [-> | [-> | (info' & -> & _)]].
  - reflexivity.
  - apply lookup_delete_ne. congruence.
  - apply lookup_insert_ne. congruence.
Qed.

Lemma sessions_are_per_user_witness :
  user_states (snd (perform (Dialogue (Cancel (mk_message 8 8 "/cancel")))
                      asked_amount)) !! 7
  = user_states asked_amount !! 7.
Proof.
  apply (sessions_are_per_user (Dialogue (Cancel (mk_message 8 8 "/cancel")))
           asked_amount 7).
  discriminate.
Defined.

Lemma perform_well_formed (c : command) (h : FinanceBotHandlers) :
  (forall u info, user_states h !! u = Some info -> well_formed info = true) ->
  forall u info,
    user_states (snd (perform c h)) !! u = Some info ->
    well_formed info = true.
Proof.
  intros Hwf u info.
  destruct (perform_sessions c h) as [-> | [-> | (info' & -> & Hi)]].
  - apply Hwf.
  - intros Hl. apply lookup_delete_Some in Hl. destruct Hl as [_ Hl].
    exact (Hwf u info Hl).
  - intros Hl. apply lookup_insert_Some in Hl.
    destruct Hl as [[_ <-] | [_ Hl]]; [| exact (Hwf u info Hl)].
    apply Hi. intros info0. apply Hwf.
Qed.

(** X8. Starting without sessions, after any sequence of commands, texts and
    callbacks of any users, every session has one of the four states the
    handlers write and holds what that state needs: a type when waiting for
    the amount, a type and an amount when waiting for the category, a category
    when waiting for the description.  So the ['Other'] default of the
    completing step is never taken for a session built by the handlers. *)
Theorem sessions_well_formed (cs : list command) (h0 : FinanceBotHandlers)
    (u : Z) (info : state_info) :
  user_states h0 = ∅ ->
  user_states (run cs h0) !! u = Some info ->
  well_formed info = true
  /\ (state_is info "waiting_description" = true ->
      exists cat, si_category info = Some cat).
Proof.
  intros H0 Hl.
  assert (Hwf : well_formed info = true).
  { revert u info Hl.
    assert (Hall : forall h,
               (forall u info, user_states h !! u = Some info ->
                               well_formed info = true) ->
               forall u info, user_states (run cs h) !! u = Some info ->
                              well_formed info = true).
    { induction cs as [| c cs IH]; intros h Hh; [exact Hh |].
      unfold run in *. cbn [fold_left]. apply IH.
      apply perform_well_formed. exact Hh. }
    apply Hall. intros u info. rewrite H0, lookup_empty. discriminate. }
  split; [exact Hwf |]. intros Hd.
  unfold well_formed in Hwf. unfold state_is in *.
  destruct (si_state info) as [s |]; [| discriminate].
  apply String.eqb_eq in Hd. subst s. cbn in Hwf.
  destruct (si_category info) as [cat |]; [| discriminate].
  exists cat. reflexivity.
Qed.

Lemma sessions_well_formed_witness :
  well_formed
    (mk_state_info (Some "waiting_amount") (Some "income") None None None)
  = true.
Proof.
  apply (sessions_well_formed
           [Dialogue (Add (mk_message 7 7 "/add"));
            Dialogue (Callback (mk_call 1 7 7 "type_income"))]
           (mk_handlers None ∅ []) 7
           (mk_state_info (Some "waiting_amount") (Some "income") None None
              None));
    reflexivity.
Defined.

(** ** Registration *)

Lemma only_user_changed_refl (uid : Z) (d : database) :
  only_user_changed uid d d.
Proof. repeat split. Qed.

Lemma only_user_changed_trans (uid : Z) (d1 d2 d3 : database) :
  only_user_changed uid d1 d2 -> only_user_changed uid d2 d3 ->
  only_user_changed uid d1 d3.
Proof.
  intros (Ht & Hc & Hb & Hq & Hu) (Ht' & Hc' & Hb' & Hq' & Hu').
  repeat split; try congruence.
  intros u Hne. rewrite (Hu' u Hne). exact (Hu u Hne).
Qed.

Lemma update_no_rows (uid : Z) (x : user_row) (us : list user_row) :
  List.filter (fun u => u_user_id u =? uid) us = [] ->
  map (fun u => if u_user_id u =? uid then x else u) us = us.
Proof.
  induction us as [| u us IH]; [reflexivity |]. simpl.
  destruct (u_user_id u =? uid); [discriminate |].
  intros H. rewrite (IH H). reflexivity.
Qed.

Lemma update_user_frame (d d' : database) (now : datetime) (uid : Z)
    (name currency : string) (k : Z) :
  run_dml d now (UpdUser name currency uid) = Some (d', k) ->
  only_user_changed uid d d' /\ (rows_affected (Some k) = false -> d' = d).
Proof.
  simpl. intros [= <- <-]. split.
  - repeat split. intros u Hne. unfold user_rows. simpl.
    induction (users d) as [| x us IH]; [reflexivity |]. simpl.
    destruct (Z.eqb_spec (u_user_id x) uid) as [E | E]; simpl.
    + destruct (Z.eqb_spec uid u) as [E' | E']; [congruence |].
      destruct (Z.eqb_spec (u_user_id x) u) as [E2 | E2]; [congruence |].
      exact IH.
    + destruct (u_user_id x =? u); [f_equal |]; exact IH.
  - unfold rows_affected. intros Hk. apply Z.ltb_ge in Hk.
    rewrite update_no_rows.
    + destruct d; reflexivity.
    + destruct (List.filter _ (users d)); [reflexivity | simpl in Hk; lia].
Qed.

Lemma insert_user_frame (d d' : database) (now : datetime) (uid : Z)
    (name currency : string) (k : Z) :
  run_dml d now (InsUser uid name currency) = Some (d', k) ->
  only_user_changed uid d d'.
Proof.
  simpl. destruct (has_user uid d); [discriminate |]. intros [= <- _].
  repeat split. intros u Hne. unfold user_rows. simpl.
  rewrite List.filter_app. simpl.
  destruct (Z.eqb_spec uid u) as [E | E]; [congruence |]. apply app_nil_r.
Qed.

Lemma add_user_cases (uid : Z) (name currency : string)
    (m : DatabaseManager) :
  exists (b : bool) (m' : DatabaseManager),
    add_user uid name currency m = (Ok b, m')
    /\ only_user_changed uid (store m) (store m')
    /\ (b = false -> store m' = store m)
    /\ (primary_key (store m) -> primary_key (store m'))
    /\ (unreachable m -> b = false).
Proof.
  unfold add_user, execute_update, execute_insert. unfold bind at 1.
  destruct (execute_write_frame (UpdUser name currency uid) rows_affected m)
    as (b & m1 & evs & -> & _ & Hnet & _ & Hsc & _ & Hf & Hun & Hcase & _).
  assert (H1 : only_user_changed uid (store m) (store m1)
               /\ (b = false -> store m1 = store m)
               /\ (primary_key (store m) -> primary_key (store m1))).
  { destruct Hcase as [(_ & -> & _) | [(_ & -> & _)
                                      | (d' & k & Hrun & Hb & <- & _)]].
    - split; [apply only_user_changed_refl | tauto].
    - split; [apply only_user_changed_refl | tauto].
    - destruct (update_user_frame _ _ _ _ _ _ _ Hrun) as [Ho Hz].
      split; [exact Ho |]. split.
      + intros ->. apply Hz. symmetry. exact Hb.
      + intros PK. exact (run_dml_primary_key _ _ _ _ _ PK Hrun). }
  destruct H1 as (Ho1 & Hb1 & PK1).
  destruct b.
  - exists true, m1. split; [reflexivity |]. split; [exact Ho1 |].
    split; [discriminate |]. split; [exact PK1 |].
    intros U. destruct (Hf (Hun U)) as [? _]. discriminate.
  - specialize (Hb1 eq_refl).
    destruct (execute_write_frame (InsUser uid name currency) committed m1)
      as (b & m2 & evs' & -> & _ & _ & _ & _ & _ & Hf' & Hun' & Hcase' & _).
    exists b, m2. split; [reflexivity |].
    assert (H2 : only_user_changed uid (store m1) (store m2)
                 /\ (b = false -> store m2 = store m1)
                 /\ (primary_key (store m1) -> primary_key (store m2))).
    { destruct Hcase' as [(_ & -> & _) | [(_ & -> & _)
                                         | (d' & k & Hrun & Hb & <- & _)]].
      - split; [apply only_user_changed_refl | tauto].
      - split; [apply only_user_changed_refl | tauto].
      - split; [exact (insert_user_frame _ _ _ _ _ _ _ Hrun) |].
        split; [intros ->; discriminate |].
        intros PK. exact (run_dml_primary_key _ _ _ _ _ PK Hrun). }
    destruct H2 as (Ho2 & Hb2 & PK2).
    split; [exact (only_user_changed_trans _ _ _ _ Ho1 Ho2) |].
    split; [intros Hb; rewrite (Hb2 Hb); exact Hb1 |].
    split; [tauto |].
    intros U. apply Hf', Hun'. intros i. rewrite Hnet. apply U.
Qed.


Lemma display_name_nonempty (p : profile) : display_name p <> "".
Proof.
  unfold display_name, str_or.
  destruct (p_username p) as [[| c s] |]; try discriminate;
    destruct (p_first_name p) as [[| c' s'] |]; discriminate.
Qed.



(** ** The manager across operations and failures *)

Lemma reachable_lost (m : DatabaseManager) :
  reachable m ->
  lost m = match connection m with None => true | Some _ => false end.
Proof.
  intros R. unfold lost, answered. rewrite (R _ (le_n _)). reflexivity.
Qed.

Lemma run_op_reachable (op : dal_op) (m : DatabaseManager) :
  reachable m ->
  exists (r : dal_result) (m' : DatabaseManager) (evs : list event),
    run_op op m = (Ok r, m')
    /\ log m' = log m ++ evs
    /\ connects evs = (if lost m then 1 else 0)%nat
    /\ ~ In (EvConnect false) evs
    /\ reachable m' /\ lost m' = false.
Proof.
  intros R.
  assert (Hkeep : forall m1 m2 evs e,
             log m1 = log m ++ evs -> net m1 = net m ->
             log m2 = log m1 ++ [e] -> net m2 = net m1 ->
             connection m2 = connection m1 -> connection m1 <> None ->
             reachable m2 /\ lost m2 = false).
  { intros m1 m2 evs e Hl Hn Hl2 Hn2 Hc2 Hc.
    assert (R2 : reachable m2).
    { intros i Hi. rewrite Hn2, Hn. apply R.
      rewrite Hl2, Hl, !length_app in Hi. lia. }
    split; [exact R2 |]. rewrite (reachable_lost m2 R2), Hc2.
    destruct (connection m1); [reflexivity | congruence]. }
  assert (Hwrite : forall s post,
             exists (b : bool) (m' : DatabaseManager) (evs : list event),
               (go <- reconnect_if_lost ;;
                if go then r <- write s ;; ret (post r) else ret false) m
               = (Ok b, m')
               /\ log m' = log m ++ evs
               /\ connects evs = (if lost m then 1 else 0)%nat
               /\ ~ In (EvConnect false) evs
               /\ reachable m' /\ lost m' = false).
  { intros s post. unfold bind.
    destruct (reconnect_if_lost_frame m)
      as (go & m1 & evs & -> & Hl & _ & Hn & _ & _ & _ & Hcn & Hgo & Hc & Hr
          & _).
    rewrite (Hr R) in *. specialize (Hc eq_refl).
    destruct (write_frame s m1)
      as (r & m2 & e & -> & Hl2 & Hn2 & Hc2 & _ & _ & Hcase).
    assert (He : is_connect e = false /\ e <> EvConnect false)
      by (destruct Hcase as [(? & ? & _ & _ & _ & _ & ->) | (_ & _ & _ & ->)];
          (split; [reflexivity | discriminate])).
    destruct He as [He1 He2].
    exists (post r), m2, (evs ++ [e]). split; [reflexivity |].
    split; [rewrite Hl2, Hl, app_assoc; reflexivity |].
    split; [rewrite (connects_snoc _ _ He1); exact Hcn |].
    split.
    - rewrite in_app_iff. simpl. intros [H | [H | []]]; [| congruence].
      apply Hgo in H. discriminate.
    - exact (Hkeep m1 m2 evs e Hl Hn Hl2 Hn2 Hc2 Hc). }
  destruct op as [q | s | s]; cbn [run_op].
  - unfold execute_query, bind.
    destruct (reconnect_if_lost_frame m)
      as (go & m1 & evs & -> & Hl & _ & Hn & _ & _ & _ & Hcn & Hgo & Hc & Hr
          & _).
    rewrite (Hr R) in *. specialize (Hc eq_refl).
    eexists _, _, (evs ++ [EvSelect q (answered m1)]).
    split; [reflexivity |]. unfold record. cbn [log].
    split; [rewrite Hl, app_assoc; reflexivity |].
    split; [rewrite connects_snoc by reflexivity; exact Hcn |].
    split.
    + rewrite in_app_iff. simpl. intros [H | [H | []]]; [| discriminate].
      apply Hgo in H. discriminate.
    + apply (Hkeep m1 _ evs (EvSelect q (answered m1)) Hl Hn);
        [reflexivity | reflexivity | reflexivity | exact Hc].
  - unfold bind at 1, execute_insert.
    destruct (Hwrite s committed) as (b & m' & evs & -> & H).
    exists (Flag b), m', evs. split; [reflexivity | exact H].
  - unfold bind at 1, execute_update.
    destruct (Hwrite s rows_affected) as (b & m' & evs & -> & H).
    exists (Flag b), m', evs. split; [reflexivity | exact H].
Qed.

(** X11. With a server that answers, a sequence of reads and writes connects
    at most once: the first operation connects when the manager has no
    connection yet, no connect attempt fails, and every later operation reuses
    the connection (its probe succeeds). *)
Theorem healthy_server_connects_once (ops : list dal_op)
    (m : DatabaseManager) :
  reachable m ->
  exists evs,
    log (run_ops ops m) = log m ++ evs
    /\ ~ In (EvConnect false) evs
    /\ connects evs
       = match ops, connection m with
         | _ :: _, None => 1%nat
         | _, _ => 0%nat
         end.
Proof.
  intros R.
  assert (Hrest : forall ops m,
             reachable m -> lost m = false ->
             exists evs,
               log (run_ops ops m) = log m ++ evs
               /\ ~ In (EvConnect false) evs /\ connects evs = 0%nat).
  { clear. induction ops as [| op ops IH]; intros m R L.
    - exists []. split; [symmetry; apply app_nil_r |]. split; [tauto |].
      reflexivity.
    - destruct (run_op_reachable op m R)
        as (r & m' & evs & E & Hl & Hcn & Hno & R' & L').
      destruct (IH m' R' L') as (evs' & Hl' & Hno' & Hcn').
      exists (evs ++ evs'). unfold run_ops in *. cbn [fold_left].
      rewrite E. cbn [snd]. rewrite Hl', Hl, app_assoc.
      split; [reflexivity |]. split.
      + rewrite in_app_iff. tauto.
      + rewrite connects_app, Hcn, Hcn', L. reflexivity. }
  destruct ops as [| op ops].
  - exists []. split; [symmetry; apply app_nil_r |]. split; [tauto |].
    reflexivity.
  - destruct (run_op_reachable op m R)
      as (r & m' & evs & E & Hl & Hcn & Hno & R' & L').
    destruct (Hrest ops m' R' L') as (evs' & Hl' & Hno' & Hcn').
    exists (evs ++ evs'). unfold run_ops in *. cbn [fold_left].
    rewrite E. cbn [snd]. rewrite Hl', Hl, app_assoc.
    split; [reflexivity |]. split.
    + rewrite in_app_iff. tauto.
    + rewrite connects_app, Hcn, Hcn', (reachable_lost m R).
      destruct (connection m); reflexivity.
Qed.

Lemma healthy_server_connects_once_witness :
  exists evs,
    log (run_ops [OpQuery (SelCategories 1 None);
                  OpInsert (InsUser 2 "eve" "RUB")]
           (online january_tables (noon 2024 2 10)))
    = evs
    /\ connects evs = 1%nat.
Proof.
  destruct (healthy_server_connects_once
              [OpQuery (SelCategories 1 None);
               OpInsert (InsUser 2 "eve" "RUB")]
              (online january_tables (noon 2024 2 10))
              (online_reachable _ _)) as (evs & Hl & _ & Hc).
  exists evs. split; [exact Hl | exact Hc].
Defined.

Lemma execute_query_unreachable (q : select) (m : DatabaseManager) :
  unreachable m ->
  exists m',
    execute_query q m = (Ok [], m')
    /\ store m' = store m /\ clock m' = clock m /\ unreachable m'.
Proof.
  intros U. unfold execute_query, bind.
  destruct (reconnect_if_lost_frame m)
    as (go & m1 & evs & -> & _ & Hs & Hn & Hc & _ & _ & _ & _ & _ & _ & Hu).
  rewrite (Hu U). exists m1. split; [reflexivity |].
  split; [exact Hs |]. split; [exact Hc |]. intros i. rewrite Hn. apply U.
Qed.

Lemma get_monthly_summary_cases (uid y mo : Z) (m : DatabaseManager) :
  1 <= y <= 9999 -> 1 <= mo <= 12 ->
  exists s m',
    get_monthly_summary uid y mo m = (Ok s, m')
    /\ store m' = store m
    /\ balance s = py_sub (income s) (expense s)
    /\ (s = empty_summary
        \/ (income s = month_total uid y mo "income" (store m)
            /\ expense s = month_total uid y mo "expense" (store m)))
    /\ (reachable m ->
        income s = month_total uid y mo "income" (store m)
        /\ expense s = month_total uid y mo "expense" (store m)
        /\ reachable m')
    /\ (unreachable m -> s = empty_summary).
Proof.
  intros Hy Hm.
  destruct (month_bounds y mo Hy Hm) as (Hfirst & wd & Hrange & Hlast).
  unfold get_monthly_summary.
  rewrite Hfirst. erewrite bind_ok; [| reflexivity].
  rewrite Hrange. erewrite bind_ok; [| reflexivity].
  cbn [snd]. rewrite Hlast. erewrite bind_ok; [| reflexivity].
  set (q := SelMonthly uid (month_first y mo) (month_last y mo)).
  destruct (execute_query_frame q m)
    as (rows & m' & evs & E & _ & Hs & _ & _ & _ & _ & Hrows & Hr).
  erewrite bind_ok; [| exact E].
  set (ts := List.filter
               (between_filter uid (month_first y mo) (month_last y mo))
               (transactions (store m))).
  destruct (summary_of_groups ts empty_summary) as (s & El & Hi & He).
  unfold ts in Hi, He. rewrite month_transactions_filter in Hi, He.
  fold (month_total uid y mo "income" (store m)) in Hi.
  fold (month_total uid y mo "expense" (store m)) in He.
  assert (Hrun : run_select (store m) q = group_by_type ts) by reflexivity.
  assert (Hfull : rows = run_select (store m) q ->
                  exists s',
                    (s <- lift (summary_loop rows empty_summary) ;;
                     ret (mk_summary (income s) (expense s) (income_count s)
                            (expense_count s) (py_sub (income s) (expense s))))
                      m'
                    = (Ok s', m')
                    /\ income s' = month_total uid y mo "income" (store m)
                    /\ expense s' = month_total uid y mo "expense" (store m)
                    /\ balance s' = py_sub (income s') (expense s')).
  { intros ->. rewrite Hrun. eexists.
    erewrite bind_ok; [| unfold lift; rewrite El; reflexivity].
    split; [reflexivity |]. split; [exact Hi |]. split; [exact He |].
    reflexivity. }
  fold empty_summary.
  destruct Hrows as [-> | Hrows].
  - exists empty_summary, m'. split; [reflexivity |]. split; [exact Hs |].
    split; [reflexivity |]. split; [left; reflexivity |]. split.
    + intros R. destruct (Hr R) as [Hnil R'].
      destruct (Hfull Hnil) as (s' & Es' & Hi' & He' & _).
      injection Es' as <-. split; [exact Hi' |]. split; [exact He' | exact R'].
    + reflexivity.
  - destruct (Hfull Hrows) as (s' & Es' & Hi' & He' & Hb').
    exists s', m'. split; [exact Es' |]. split; [exact Hs |].
    split; [exact Hb' |]. split; [right; split; assumption |]. split.
    + intros R. destruct (Hr R) as [_ R']. tauto.
    + intros U. destruct (execute_query_unreachable q m U) as (m2 & E2 & _).
      rewrite E in E2. injection E2 as -> _.
      cbn in Es'. injection Es' as <-. reflexivity.
Qed.

Lemma check_budget_cases (uid : Z) (cat period : string)
    (m : DatabaseManager) :
  valid_datetime (clock m) = true ->
  exists r m',
    check_budget_exceeded uid cat period m = (Ok r, m')
    /\ store m' = store m
    /\ (r = (false, VInt 0, VInt 0)
        \/ exists limit rest start,
             budget_limits uid cat period (store m) = limit :: rest
             /\ budget_period_start period (clock m) start
             /\ (r = (dec_ltb limit (spent_since uid cat start (store m)),
                      VNum (spent_since uid cat start (store m)), VNum limit)
                 \/ r = (dec_ltb limit (dec_of_Z 0), VInt 0, VNum limit)))
    /\ (unreachable m -> r = (false, VInt 0, VInt 0)).
Proof.
  intros V. unfold check_budget_exceeded. unfold bind at 1.
  destruct (execute_query_frame (SelBudgetLimit uid cat period) m)
    as (rows & m1 & evs & E1 & _ & Hs1 & Hn1 & Hc1 & _ & _ & Hrows & _).
  rewrite E1.
  assert (Hdead : unreachable m -> rows = []).
  { intros U.
    destruct (execute_query_unreachable (SelBudgetLimit uid cat period) m U)
      as (m2 & E2 & _). congruence. }
  destruct Hrows as [-> | Hrows].
  - exists (false, VInt 0, VInt 0), m1. split; [reflexivity |].
    split; [exact Hs1 |]. split; [left; reflexivity | reflexivity].
  - cbn [run_select] in Hrows.
    pose proof (eq_refl (budget_limits uid cat period (store m))) as Hlim.
    unfold budget_limits at 1 in Hlim.
    destruct (List.filter _ (budgets (store m))) as [| b bs].
    + subst rows. exists (false, VInt 0, VInt 0), m1.
      split; [reflexivity |]. split; [exact Hs1 |].
      split; [left; reflexivity | reflexivity].
    + subst rows. cbn [map] in *.
      destruct (period_start period (clock m) V) as (start & Hstart & Hspec).
      erewrite bind_ok; [| reflexivity].
      erewrite bind_ok; [| reflexivity].
      rewrite Hc1, Hstart.
      erewrite bind_ok; [| reflexivity].
      destruct (execute_query_frame (SelSpent uid cat start) m1)
        as (rows2 & m2 & evs2 & E2 & _ & Hs2 & _ & _ & _ & _ & Hrows2 & _).
      erewrite bind_ok; [| exact E2].
      destruct Hrows2 as [-> | ->]; cbn [run_select].
      * erewrite bind_ok; [| reflexivity].
        erewrite bind_ok; [| reflexivity].
        eexists. exists m2.
        split; [reflexivity |]. split; [congruence |]. split.
        -- right. exists (b_limit_amount b), (map b_limit_amount bs), start.
           split; [symmetry; exact Hlim |]. split; [exact Hspec |].
           right. reflexivity.
        -- intros U. specialize (Hdead U). discriminate.
      * erewrite bind_ok; [| reflexivity].
        erewrite bind_ok; [| reflexivity].
        eexists. exists m2.
        split; [reflexivity |]. split; [congruence |]. split.
        -- right. exists (b_limit_amount b), (map b_limit_amount bs), start.
           split; [symmetry; exact Hlim |]. split; [exact Hspec |].
           left. rewrite Hs1. reflexivity.
        -- intros U. specialize (Hdead U). discriminate.
Qed.






(** ** A stored transaction and the monthly summary *)

Lemma days_before_year_step (y : Z) :
  days_before_year (y + 1)
  = days_before_year y + 365 + (if is_leap y then 1 else 0).
Proof.
  unfold days_before_year, is_leap. cbv zeta.
  replace (y + 1 - 1) with y by lia.
  destruct (Z.eqb_spec (y mod 4) 0) as [E4 | E4];
    destruct (Z.eqb_spec (y mod 100) 0) as [E100 | E100];
    destruct (Z.eqb_spec (y mod 400) 0) as [E400 | E400];
    cbn [andb orb negb]; Z.div_mod_to_equations; lia.
Qed.

Lemma days_before_year_far (y y' : Z) :
  y + 2 <= y' -> days_before_year y + 366 < days_before_year y'.
Proof.
  unfold days_before_year. cbv zeta. intros H.
  Z.div_mod_to_equations. lia.
Qed.

Lemma months_in_year_ordered (y m1 m2 : Z) :
  1 <= m1 -> m1 < m2 -> m2 <= 12 ->
  days_before_month y m1 + days_in_month y m1 <= days_before_month y m2.
Proof.
  intros H1 H12 H2. unfold days_before_month, days_in_month.
  assert (Hm1 : m1 = 1 \/ m1 = 2 \/ m1 = 3 \/ m1 = 4 \/ m1 = 5 \/ m1 = 6
                \/ m1 = 7 \/ m1 = 8 \/ m1 = 9 \/ m1 = 10 \/ m1 = 11) by lia.
  assert (Hm2 : m2 = 2 \/ m2 = 3 \/ m2 = 4 \/ m2 = 5 \/ m2 = 6
                \/ m2 = 7 \/ m2 = 8 \/ m2 = 9 \/ m2 = 10 \/ m2 = 11
                \/ m2 = 12) by lia.
  destruct (is_leap y);
    repeat (destruct Hm1 as [-> | Hm1]); try subst m1;
    repeat (destruct Hm2 as [-> | Hm2]); try subst m2;
    cbn; lia.
Qed.

Lemma days_before_month_nonneg (y m : Z) :
  1 <= m <= 12 -> 0 <= days_before_month y m.
Proof.
  intros H. unfold days_before_month.
  assert (Hm : m = 1 \/ m = 2 \/ m = 3 \/ m = 4 \/ m = 5 \/ m = 6
               \/ m = 7 \/ m = 8 \/ m = 9 \/ m = 10 \/ m = 11 \/ m = 12)
    by lia.
  destruct (is_leap y);
    repeat (destruct Hm as [-> | Hm]); try subst m; cbn; lia.
Qed.

Lemma days_in_month_pos (y m : Z) : 1 <= m <= 12 -> 28 <= days_in_month y m.
Proof.
  intros H. unfold days_in_month.
  assert (Hm : m = 1 \/ m = 2 \/ m = 3 \/ m = 4 \/ m = 5 \/ m = 6
               \/ m = 7 \/ m = 8 \/ m = 9 \/ m = 10 \/ m = 11 \/ m = 12)
    by lia.
  destruct (is_leap y);
    repeat (destruct Hm as [-> | Hm]); try subst m; cbn; lia.
Qed.

(** The last day of a month comes before the first day of every later
    month. *)
Lemma months_ordered (y1 m1 y2 m2 : Z) :
  1 <= m1 <= 12 -> 1 <= m2 <= 12 ->
  y1 < y2 \/ (y1 = y2 /\ m1 < m2) ->
  ymd2ord y1 m1 (days_in_month y1 m1) < ymd2ord y2 m2 1.
Proof.
  intros H1 H2 Hlt. unfold ymd2ord.
  pose proof (days_before_month_nonneg y2 m2 H2) as Hnn.
  destruct Hlt as [Hy | [-> Hm]].
  - pose proof (days_in_month_pos y1 m1 H1) as Hpos.
    pose proof (day_of_year_bounds y1 m1 (days_in_month y1 m1) H1
                  ltac:(lia)) as Hdoy.
    pose proof (days_before_year_step y1) as Hstep.
    destruct (Z.eq_dec y2 (y1 + 1)) as [-> | Hne]; [lia |].
    pose proof (days_before_year_far y1 y2 ltac:(lia)) as Hfar.
    destruct (is_leap y1); lia.
  - pose proof (months_in_year_ordered y2 m1 m2 ltac:(lia) Hm ltac:(lia)).
    lia.
Qed.

Lemma add_transaction_reachable (uid : Z) (ty : string) (a : decimal)
    (cat desc : string) (m : DatabaseManager) :
  reachable m -> has_user uid (store m) = true ->
  exists m1,
    add_transaction uid ty (FFin a) cat desc m = (Ok true, m1)
    /\ reachable m1
    /\ transactions (store m1)
       = transactions (store m) ++ [new_transaction m uid ty a cat desc].
Proof.
  intros R Hu.
  destruct (add_transaction_cases uid ty (FFin a) cat desc m)
    as (b & m1 & E & _ & Hr).
  destruct (Hr R) as [R1 Hm]. cbn [run_dml numeric_of_float] in Hm.
  rewrite Hu in Hm. destruct Hm as [-> Hs].
  exists m1. split; [exact E |]. split; [exact R1 |]. rewrite Hs. reflexivity.
Qed.

Lemma month_transactions_app (uid y mo : Z) (ty : string) (d d' : database)
    (t : transaction_row) :
  transactions d' = transactions d ++ [t] ->
  month_transactions uid y mo ty d'
  = month_transactions uid y mo ty d
    ++ (if between_filter uid (month_first y mo) (month_last y mo) t
           && String.eqb (t_type t) ty
        then [t] else []).
Proof.
  intros E. unfold month_transactions, between_filter. rewrite E.
  rewrite List.filter_app. reflexivity.
Qed.

Lemma first_of_month_before (t : datetime) :
  valid_datetime t = true ->
  dt_leb (month_first (year t) (month t)) t = true.
Proof.
  unfold valid_datetime, check_date_fields, check_time_fields. intros V.
  repeat (apply andb_prop in V; destruct V as [V ?]).
  unfold dt_leb, dt_key, toordinal, ymd2ord, month_first. cbn.
  apply Z.leb_le. lia.
Qed.

(** A valid instant after the last instant its month's summary counts lies
    in the last second of the month. *)
Lemma after_month_last (t : datetime) :
  valid_datetime t = true ->
  dt_leb t (month_last (year t) (month t)) = false ->
  day t = days_in_month (year t) (month t)
  /\ hour t = 23 /\ minute t = 59 /\ second t = 59 /\ 0 < microsecond t.
Proof.
  unfold valid_datetime, check_date_fields, check_time_fields. intros V.
  repeat (apply andb_prop in V; destruct V as [V ?]).
  assert (Hm : 1 <= month t <= 12) by lia.
  destruct (monthrange_month_length (year t) (month t) Hm) as (wd & _ & Hlen).
  unfold dt_leb, dt_key, toordinal, ymd2ord, month_last. cbn.
  rewrite <- Hlen. intros Hk. apply Z.leb_gt in Hk. lia.
Qed.

(** X15. A transaction stored by [add_transaction] is counted by the monthly
    summary of its month: with the server answering, for a registered user and
    a server time not after the last instant the summary counts (23:59:59 of
    the last day), the summary of the month of the server time adds up, for
    the transaction's type, the amounts it added up before and the new
    amount; for every other type the transactions counted are the same. *)
Theorem saved_transaction_is_counted (uid : Z) (ty : string) (a : decimal)
    (cat desc : string) (m : DatabaseManager) :
  reachable m -> has_user uid (store m) = true ->
  valid_datetime (server_clock m) = true ->
  let y := year (server_clock m) in
  let mo := month (server_clock m) in
  dt_leb (server_clock m) (month_last y mo) = true ->
  exists m1 s m2,
    add_transaction uid ty (FFin a) cat desc m = (Ok true, m1)
    /\ get_monthly_summary uid y mo m1 = (Ok s, m2)
    /\ month_amounts uid y mo ty (store m1)
       = month_amounts uid y mo ty (store m) ++ [a]
    /\ (forall ty', ty' <> ty ->
          month_transactions uid y mo ty' (store m1)
          = month_transactions uid y mo ty' (store m))
    /\ (ty = "income" ->
        income s
        = PyFloat (FFin (dec_sum (month_amounts uid y mo ty (store m) ++ [a]))))
    /\ (ty = "expense" ->
        expense s
        = PyFloat (FFin (dec_sum (month_amounts uid y mo ty (store m) ++ [a])))).
Proof.
  intros R Hu V y mo Hlast.
  destruct (add_transaction_reachable uid ty a cat desc m R Hu)
    as (m1 & E1 & R1 & Ht).
  assert (Hy : 1 <= y <= 9999 /\ 1 <= mo <= 12).
  { subst y mo. revert V.
    unfold valid_datetime, check_date_fields, MINYEAR, MAXYEAR. intros V.
    repeat (apply andb_prop in V; destruct V as [V ?]). lia. }
  destruct Hy as [Hy Hmo].
  destruct (get_monthly_summary_cases uid y mo m1 Hy Hmo)
    as (s & m2 & E2 & _ & _ & _ & Hr & _).
  destruct (Hr R1) as (Hi & He & _).
  exists m1, s, m2. split; [exact E1 |]. split; [exact E2 |].
  assert (Hin : between_filter uid (month_first y mo) (month_last y mo)
                  (new_transaction m uid ty a cat desc) = true).
  { unfold between_filter, new_transaction. cbn [t_user_id t_date].
    rewrite Z.eqb_refl, Hlast. subst y mo.
    rewrite (first_of_month_before _ V). reflexivity. }
  assert (Happ : forall ty',
             month_transactions uid y mo ty' (store m1)
             = month_transactions uid y mo ty' (store m)
               ++ (if String.eqb ty ty'
                   then [new_transaction m uid ty a cat desc] else [])).
  { intros ty'. rewrite (month_transactions_app uid y mo ty' _ _ _ Ht), Hin.
    reflexivity. }
  assert (Hsum : month_amounts uid y mo ty (store m1)
                 = month_amounts uid y mo ty (store m) ++ [a]).
  { unfold month_amounts. rewrite Happ, String.eqb_refl, map_app.
    reflexivity. }
  split; [exact Hsum |]. split.
  - intros ty' Hne. rewrite Happ.
    destruct (String.eqb_spec ty ty') as [-> | _]; [congruence |].
    apply app_nil_r.
  - assert (Htot : month_total uid y mo ty (store m1)
                   = PyFloat (FFin (dec_sum (month_amounts uid y mo ty
                                               (store m) ++ [a])))).
    { rewrite <- Hsum. unfold month_total, month_amounts.
      destruct (month_transactions uid y mo ty (store m1)) eqn:En;
        [| reflexivity].
      exfalso. unfold month_amounts in Hsum. rewrite En in Hsum.
      destruct (map t_amount (month_transactions uid y mo ty (store m)));
        discriminate. }
    split; intros ->; [rewrite Hi | rewrite He]; exact Htot.
Qed.

Lemma saved_transaction_is_counted_witness :
  exists m1 s m2,
    add_transaction 1 "income" (FFin (dec_of_Z 25)) "Gift" ""
      (online january_tables (noon 2024 1 25)) = (Ok true, m1)
    /\ get_monthly_summary 1 2024 1 m1 = (Ok s, m2)
    /\ income s = PyFloat (FFin (dec_of_Z 1025)).
Proof.
  destruct (saved_transaction_is_counted 1 "income" (dec_of_Z 25) "Gift" ""
              (online january_tables (noon 2024 1 25))
              (online_reachable _ _) eq_refl eq_refl eq_refl)
    as (m1 & s & m2 & E1 & E2 & _ & _ & Hi & _).
  exists m1, s, m2. split; [exact E1 |]. split; [exact E2 |].
  rewrite (Hi eq_refl). reflexivity.
Defined.

(** X16. A transaction stored during the last second of a month, after
    23:59:59.000000, is counted by no monthly summary: the row is in the
    table, but for every year and month the transactions the summary selects
    are those it selected before, since the window of a month ends at
    23:59:59 of its last day and the next one starts at 00:00:00. *)
Theorem last_second_is_in_no_month (uid : Z) (ty : string) (a : decimal)
    (cat desc : string) (m : DatabaseManager) :
  reachable m -> has_user uid (store m) = true ->
  valid_datetime (server_clock m) = true ->
  dt_leb (server_clock m)
    (month_last (year (server_clock m)) (month (server_clock m))) = false ->
  exists m1,
    add_transaction uid ty (FFin a) cat desc m = (Ok true, m1)
    /\ In (new_transaction m uid ty a cat desc) (transactions (store m1))
    /\ forall y' mo' ty',
         1 <= y' <= 9999 -> 1 <= mo' <= 12 ->
         month_transactions uid y' mo' ty' (store m1)
         = month_transactions uid y' mo' ty' (store m)
         /\ month_total uid y' mo' ty' (store m1)
            = month_total uid y' mo' ty' (store m).
Proof.
  intros R Hu V Hafter.
  destruct (add_transaction_reachable uid ty a cat desc m R Hu)
    as (m1 & E1 & _ & Ht).
  exists m1. split; [exact E1 |].
  split; [rewrite Ht; apply in_or_app; right; left; reflexivity |].
  intros y' mo' ty' Hy' Hmo'.
  assert (Hout : between_filter uid (month_first y' mo') (month_last y' mo')
                   (new_transaction m uid ty a cat desc) = false).
  { destruct (after_month_last _ V Hafter) as (Hd & Hh & Hmi & Hs & Hus).
    revert V. unfold valid_datetime, check_date_fields, check_time_fields,
                MINYEAR, MAXYEAR. intros V.
    repeat (apply andb_prop in V; destruct V as [V ?]).
    set (t := server_clock m) in *.
    assert (Hm : 1 <= month t <= 12) by lia.
    destruct (monthrange_month_length y' mo' Hmo') as (wd & _ & Hlen').
    unfold between_filter, new_transaction. cbn [t_user_id t_date].
    fold t. rewrite Z.eqb_refl. cbn [andb].
    apply andb_false_iff.
    destruct (Z.lt_trichotomy y' (year t)) as [Hlt | [Heq | Hgt]].
    - right. pose proof (months_ordered y' mo' (year t) (month t) Hmo' Hm
                           (or_introl Hlt)) as Ho.
      unfold dt_leb, dt_key, toordinal, ymd2ord, month_last in *. cbn.
      rewrite <- Hlen'. apply Z.leb_gt. lia.
    - destruct (Z.lt_trichotomy mo' (month t)) as [Hlt | [Heq' | Hgt]].
      + right. pose proof (months_ordered y' mo' (year t) (month t) Hmo' Hm
                             (or_intror (conj Heq Hlt))) as Ho.
        unfold dt_leb, dt_key, toordinal, ymd2ord, month_last in *. cbn.
        rewrite <- Hlen'. apply Z.leb_gt. lia.
      + right. subst y' mo'. exact Hafter.
      + left. pose proof (months_ordered (year t) (month t) y' mo' Hm Hmo'
                            (or_intror (conj (eq_sym Heq) Hgt))) as Ho.
        unfold dt_leb, dt_key, toordinal, ymd2ord, month_first in *. cbn.
        apply Z.leb_gt. rewrite Hd. lia.
    - left. pose proof (months_ordered (year t) (month t) y' mo' Hm Hmo'
                          (or_introl Hgt)) as Ho.
      unfold dt_leb, dt_key, toordinal, ymd2ord, month_first in *. cbn.
      apply Z.leb_gt. rewrite Hd. lia. }
  assert (Hsame : month_transactions uid y' mo' ty' (store m1)
                  = month_transactions uid y' mo' ty' (store m)).
  { rewrite (month_transactions_app uid y' mo' ty' _ _ _ Ht), Hout.
    apply app_nil_r. }
  split; [exact Hsame |]. unfold month_total. rewrite Hsame. reflexivity.
Qed.

Lemma last_second_is_in_no_month_witness :
  let m :=
    mk_manager None january_tables (fun _ => true) [] (noon 2024 1 31)
      (mk_datetime 2024 1 31 23 59 59 500000) in
  exists m1,
    add_transaction 1 "income" (FFin (dec_of_Z 25)) "Gift" "" m = (Ok true, m1)
    /\ month_total 1 2024 1 "income" (store m1)
       = PyFloat (FFin (dec_of_Z 1000))
    /\ month_total 1 2024 2 "income" (store m1)
       = PyFloat (FFin (dec_of_Z 50)).
Proof.
  intros m.
  destruct (last_second_is_in_no_month 1 "income" (dec_of_Z 25) "Gift" "" m
              (fun _ _ => eq_refl) eq_refl eq_refl eq_refl)
    as (m1 & E & _ & H).
  exists m1. split; [exact E |].
  split.
  - rewrite (proj2 (H 2024 1 "income" ltac:(lia) ltac:(lia))). reflexivity.
  - rewrite (proj2 (H 2024 2 "income" ltac:(lia) ltac:(lia))). reflexivity.
Defined.

(** ** The commands that report *)

Lemma append_assoc (a b c : string) :
  ((a ++ b) ++ c)%string = (a ++ (b ++ c))%string.
Proof.
  induction a as [| x a IH]; [reflexivity |].
  change (String x ((a ++ b) ++ c)%string = String x (a ++ (b ++ c))%string).
  rewrite IH. reflexivity.
Qed.

Lemma append_empty (a : string) : (a ++ "")%string = a.
Proof.
  induction a as [| x a IH]; [reflexivity |].
  change (String x (a ++ "")%string = String x a). rewrite IH. reflexivity.
Qed.

Lemma categories_text_lines (str_decimal : decimal -> string)
    (str_datetime : datetime -> string) (cs : list category_row)
    (text : string) :
  categories_text str_decimal str_datetime (map category_dict cs) text
  = Ok (text ++ fold_right String.append "" (map category_line cs))%string.
Proof.
  revert text. induction cs as [| c cs IH]; intros text.
  - cbn [map categories_text fold_right]. rewrite append_empty. reflexivity.
  - cbn [map categories_text fold_right].
    replace (getitem (category_dict c) "name") with (Ok (VStr (c_name c)))
      by reflexivity.
    replace (getitem (category_dict c) "type") with (Ok (VStr (c_type c)))
      by reflexivity.
    cbn [rbind str_value].
    rewrite IH. f_equal. rewrite append_assoc. reflexivity.
Qed.





(** ** The configuration *)

(** X19. [validate] and [get_missing_fields] agree: the configuration is valid
    exactly when no field is reported missing.  A field is reported exactly
    when it is empty, the fields are reported in the order BOT_TOKEN, DB_NAME,
    DB_USER, DB_PASSWORD, each at most once. *)
Theorem validate_iff_nothing_missing (cls : Config) :
  (validate cls = true <-> get_missing_fields cls = [])
  /\ (In "BOT_TOKEN" (get_missing_fields cls) <-> BOT_TOKEN cls = "")
  /\ (In "DB_NAME" (get_missing_fields cls) <-> DB_NAME cls = "")
  /\ (In "DB_USER" (get_missing_fields cls) <-> DB_USER cls = "")
  /\ (In "DB_PASSWORD" (get_missing_fields cls) <-> DB_PASSWORD cls = "")
  /\ get_missing_fields cls
     = List.filter (fun name => existsb (String.eqb name)
                                  (get_missing_fields cls))
         ["BOT_TOKEN"; "DB_NAME"; "DB_USER"; "DB_PASSWORD"].
Proof.
  unfold validate, get_missing_fields.
  destruct (BOT_TOKEN cls) as [| c1 s1], (DB_NAME cls) as [| c2 s2],
           (DB_USER cls) as [| c3 s3], (DB_PASSWORD cls) as [| c4 s4];
    cbn; repeat split; intros; try reflexivity; try discriminate;
    try tauto; repeat (match goal with
                       | H : _ \/ _ |- _ => destruct H
                       end; try discriminate; try tauto).
Qed.

(** ** A whole dialogue *)

Lemma startswith_append (p r : string) : startswith p (p ++ r) = true.
Proof.
  unfold startswith. induction p as [| a p IH].
  { change (String.prefix "" r = true). destruct r; reflexivity. }
  change (String.prefix (String a p) (String a (p ++ r)) = true).
  cbn [String.prefix]. destruct (ascii_dec a a); [exact IH | congruence].
Qed.

Lemma kind_step (kind : string) (id uid chat : Z) (h : FinanceBotHandlers) :
  kind = "income" \/ kind = "expense" ->
  handle_callback (mk_call id uid chat ("type_" ++ kind)) h
  = (Ok tt,
     mk_handlers (db_manager h)
       (<[uid := mk_state_info (Some "waiting_amount") (Some kind) None None
                   None]> (user_states h))
       (effects h ++ [SendMessage chat "Введите сумму:" None;
                      AnswerCallbackQuery id])).
Proof.
  intros [-> | ->]; unfold handle_callback; cbn [call_data];
    rewrite startswith_append;
    match goal with
    | |- context [second_field ?d] =>
        match d with
        | ("type_" ++ ?k)%string =>
            replace (second_field d) with (Ok k : result string)
              by reflexivity
        end
    end;
    unfold emit, set_states;
    cbn [db_manager user_states effects call_from_user call_chat call_id];
    rewrite <- app_assoc; reflexivity.
Qed.

Lemma category_step (c : category_row) (id uid chat : Z)
    (h : FinanceBotHandlers) (info : state_info) :
  user_states h !! uid = Some info ->
  handle_callback (mk_call id uid chat (snd (category_button c))) h
  = (Ok tt,
     mk_handlers (db_manager h)
       (<[uid := mk_state_info (Some "waiting_description") (si_type info)
                   (si_amount info) (Some (str_of_int (c_id c)))
                   (si_description info)]> (user_states h))
       (effects h ++ [SendMessage chat "Введите описание (или /cancel):" None;
                      AnswerCallbackQuery id])).
Proof.
  intros Hl. unfold handle_callback, category_button.
  cbn [call_data call_from_user call_chat call_id snd].
  replace (startswith "type_" ("cat_" ++ str_of_int (c_id c))) with false
    by reflexivity.
  rewrite startswith_append, second_field_cat_id, Hl.
  unfold emit, set_states. cbn [db_manager user_states effects].
  rewrite <- app_assoc. reflexivity.
Qed.



(** ** The weekly summary, for every week *)

Lemma week_end_exists (start : datetime) :
  valid_datetime start = true -> year start <= 9998 ->
  week_end start <> None.
Proof.
  intros V Hy.
  pose proof (toordinal_bounds start V) as [Hlo _].
  assert (Hhi : toordinal start + 7 <= MAXORDINAL).
  { revert V. unfold valid_datetime, check_date_fields, MINYEAR, MAXYEAR.
    intros V. apply andb_prop in V. destruct V as [V _].
    repeat (apply andb_prop in V; destruct V as [V ?]).
    pose proof (day_of_year_bounds (year start) (month start) (day start)
                  ltac:(lia) ltac:(lia)) as Hd.
    assert (Hmono : days_before_year (year start) <= days_before_year 9998).
    { destruct (Z.eq_dec (year start) 9998) as [-> | H98]; [lia |].
      destruct (Z.eq_dec (year start) 9997) as [-> | H97];
        [vm_compute; discriminate |].
      pose proof (days_before_year_far (year start) 9998 ltac:(lia)). lia. }
    change (days_before_year 9998) with 3651329 in Hmono.
    unfold toordinal, ymd2ord, MAXORDINAL.
    destruct (is_leap (year start)); lia. }
  revert V. unfold valid_datetime, check_time_fields. intros V.
  apply andb_prop in V. destruct V as [_ V].
  repeat (apply andb_prop in V; destruct V as [V ?]).
  unfold week_end, datetime_add, timedelta_new.
  cbn [td_days td_seconds td_microseconds].
  match goal with
  | |- (if ?c then _ else None) <> None =>
      assert (Hc : c = true); [| rewrite Hc]
  end.
  { apply andb_true_intro. split; [apply Z.ltb_lt | apply Z.leb_le];
      unfold MAXORDINAL in *; Z.div_mod_to_equations; lia. }
  destruct (ord2ymd _) as [[y mo] d]. discriminate.
Qed.



(** ** The spreadsheet mirror *)

Lemma find_user_row_split (user_id : Z) (rows : list (list cell)) (k : nat) :
  match find_user_row user_id rows k with
  | Some row =>
      exists pre r post,
        rows = pre ++ r :: post /\ rows_of user_id pre = []
        /\ cell_is (first_cell r) user_id = true
        /\ row = (k + length pre)%nat
  | None => rows_of user_id rows = []
  end.
Proof.
  revert k. induction rows as [| r rows IH]; intros k; [reflexivity |].
  cbn [find_user_row]. destruct (cell_is (first_cell r) user_id) eqn:Er.
  - exists [], r, rows. cbn. rewrite Nat.add_0_r. auto.
  - specialize (IH (S k)).
    destruct (find_user_row user_id rows (S k)) as [row |].
    + destruct IH as (pre & r' & post & -> & Hpre & Hr & ->).
      exists (r :: pre), r', post. cbn. rewrite Er.
      split; [reflexivity |]. split; [exact Hpre |]. split; [exact Hr | lia].
    + unfold rows_of in *. cbn. rewrite Er. exact IH.
Qed.

Lemma rows_of_others_none (user_id : Z) (rows : list (list cell)) :
  rows_of user_id rows = [] -> rows_of_others user_id rows = rows.
Proof.
  unfold rows_of, rows_of_others.
  induction rows as [| r rows IH]; [reflexivity |]. cbn.
  destruct (cell_is (first_cell r) user_id); [discriminate |].
  intros H. cbn. rewrite (IH H). reflexivity.
Qed.

(** What the search and the write of [backup_user] do to the rows below the
    header. *)
Lemma upsert_rows (user_id : Z) (name currency : string) (now : datetime)
    (hdr : list cell) (rows : list (list cell)) :
  exists rows',
    match find_user_row user_id rows 2 with
    | Some row =>
        alter (fun r => user_cells user_id name currency now ++ drop 4 r)
          (row - 1)%nat (hdr :: rows)
    | None => (hdr :: rows) ++ [user_cells user_id name currency now]
    end = hdr :: rows'
    /\ rows_of_others user_id rows' = rows_of_others user_id rows
    /\ length rows' = Nat.max (length rows)
                        (length rows + 1 - length (rows_of user_id rows))
    /\ length (rows_of user_id rows')
       = Nat.max 1 (length (rows_of user_id rows))
    /\ exists rest later,
         rows_of user_id rows'
         = (user_cells user_id name currency now ++ rest) :: later
         /\ later = tl (rows_of user_id rows).
Proof.
  pose proof (find_user_row_split user_id rows 2) as H.
  assert (Hnew : forall rest,
             cell_is (first_cell (user_cells user_id name currency now ++ rest))
               user_id = true)
    by (intros rest; cbn; apply Z.eqb_refl).
  destruct (find_user_row user_id rows 2) as [row |].
  - destruct H as (pre & r & post & -> & Hpre & Hr & ->).
    exists (pre ++ (user_cells user_id name currency now ++ drop 4 r) :: post).
    split.
    { replace (2 + length pre - 1)%nat with (S (length pre + 0)) by lia.
      cbn [alter list_alter]. f_equal.
      change (list_alter ?f ?i ?l) with (alter f i l).
      rewrite alter_app_r. reflexivity. }
    unfold rows_of_others, rows_of in *.
    rewrite !List.filter_app. cbn [List.filter].
    rewrite Hr, (Hnew (drop 4 r)), Hpre. cbn [negb app].
    split; [reflexivity |]. split; [rewrite !length_app; cbn; lia |].
    split; [cbn; lia |].
    exists (drop 4 r), (List.filter (fun r0 => cell_is (first_cell r0) user_id)
                          post).
    split; reflexivity.
  - exists (rows ++ [user_cells user_id name currency now]).
    split; [reflexivity |].
    unfold rows_of_others, rows_of in *.
    rewrite !List.filter_app. cbn [List.filter].
    rewrite (Hnew []) at 1.
    replace (cell_is (first_cell (user_cells user_id name currency now))
               user_id) with true by (symmetry; apply (Hnew [])).
    rewrite H. cbn [negb app length].
    split; [apply app_nil_r |]. split; [rewrite length_app; cbn; lia |].
    split; [reflexivity |].
    exists [], []. split; reflexivity.
Qed.

(** Through which files [backup_user] goes: on success it saved the rows it
    built from the workbook that was there, or from a fresh one; on failure
    the files are as before, or hold the fresh workbook. *)
Lemma backup_user_files (user_id : Z) (name currency : string)
    (now : datetime) (fs : filesystem) :
  let path := USERS_BACKUP_FILE in
  let '(ok, fs') := backup_user user_id name currency now fs in
  exists wb,
    match files fs !! path with
    | Some wb0 => wb = wb0
    | None => wb = fresh_workbook USER_COLUMNS
    end
    /\ io fs' = io fs
    /\ if ok then
         files fs'
         = <[path :=
               mk_workbook
                 match find_user_row user_id (tl (sheet wb)) 2 with
                 | Some row =>
                     alter (fun r => user_cells user_id name currency now
                                     ++ drop 4 r) (row - 1)%nat (sheet wb)
                 | None => sheet wb ++ [user_cells user_id name currency now]
                 end (column_widths wb)]> (files fs)
       else files fs' = files fs \/ files fs' = <[path := wb]> (files fs).
Proof.
  cbv zeta. unfold backup_user, path_exists.
  destruct (files fs !! USERS_BACKUP_FILE) as [wb0 |] eqn:E0.
  - unfold load_workbook, save. cbn [io io_count files].
    destruct (io fs (io_count fs)).
    + rewrite E0. destruct (io fs (S (io_count fs))).
      * exists wb0. split; [reflexivity |]. split; reflexivity.
      * exists wb0. split; [reflexivity |]. split; [reflexivity |].
        left. reflexivity.
    + exists wb0. split; [reflexivity |]. split; [reflexivity |].
      left. reflexivity.
  - unfold _setup_workbook, load_workbook, save. cbn [io io_count files].
    fold (fresh_workbook USER_COLUMNS).
    destruct (io fs (io_count fs)).
    + destruct (io fs (S (io_count fs))).
      * rewrite lookup_insert_eq. cbn [io io_count files].
        destruct (io fs (S (S (io_count fs)))).
        -- exists (fresh_workbook USER_COLUMNS).
           split; [reflexivity |]. split; [reflexivity |].
           rewrite insert_insert_eq. reflexivity.
        -- exists (fresh_workbook USER_COLUMNS).
           split; [reflexivity |]. split; [reflexivity |].
           right. reflexivity.
      * exists (fresh_workbook USER_COLUMNS).
        split; [reflexivity |]. split; [reflexivity |]. right. reflexivity.
    + exists (fresh_workbook USER_COLUMNS).
      split; [reflexivity |]. split; [reflexivity |]. left. reflexivity.
Qed.



Lemma backup_transaction_files (user_id : Z) (ty : string) (amount : pyfloat)
    (category description : string) (now : datetime) (fs : filesystem) :
  let path := TRANSACTIONS_BACKUP_FILE in
  let '(ok, fs') :=
    backup_transaction user_id ty amount category description now fs in
  exists wb,
    match files fs !! path with
    | Some wb0 => wb = wb0
    | None => wb = fresh_workbook TRANSACTION_COLUMNS
    end
    /\ if ok then
         files fs'
         = <[path :=
               mk_workbook
                 (sheet wb
                  ++ [transaction_cells user_id ty amount category description
                        now])
                 (column_widths wb)]> (files fs)
       else files fs' = files fs \/ files fs' = <[path := wb]> (files fs).
Proof.
  cbv zeta. unfold backup_transaction, path_exists.
  destruct (files fs !! TRANSACTIONS_BACKUP_FILE) as [wb0 |] eqn:E0.
  - unfold load_workbook, save. cbn [io io_count files].
    destruct (io fs (io_count fs)).
    + rewrite E0. destruct (io fs (S (io_count fs))).
      * exists wb0. split; reflexivity.
      * exists wb0. split; [reflexivity |]. left. reflexivity.
    + exists wb0. split; [reflexivity |]. left. reflexivity.
  - unfold _setup_workbook, load_workbook, save. cbn [io io_count files].
    fold (fresh_workbook TRANSACTION_COLUMNS).
    destruct (io fs (io_count fs)).
    + destruct (io fs (S (io_count fs))).
      * rewrite lookup_insert_eq. cbn [io io_count files].
        destruct (io fs (S (S (io_count fs)))).
        -- exists (fresh_workbook TRANSACTION_COLUMNS).
           split; [reflexivity |]. rewrite insert_insert_eq. reflexivity.
        -- exists (fresh_workbook TRANSACTION_COLUMNS).
           split; [reflexivity |]. right. reflexivity.
      * exists (fresh_workbook TRANSACTION_COLUMNS).
        split; [reflexivity |]. right. reflexivity.
    + exists (fresh_workbook TRANSACTION_COLUMNS).
      split; [reflexivity |]. left. reflexivity.
Qed.



(** ** The mirror and the table of transactions *)

Lemma write_trace (s : dml) (post : option Z -> bool) (m : DatabaseManager) :
  exists (b : bool) (m' : DatabaseManager) (wr : list event),
    (go <- reconnect_if_lost ;;
     if go then r <- write s ;; ret (post r) else ret false) m = (Ok b, m')
    /\ List.filter is_write (log m') = List.filter is_write (log m) ++ wr
    /\ ((wr = [] /\ b = false) \/ (wr = [EvRollback s] /\ b = post None)
        \/ (wr = [EvCommit s] /\ exists k, b = post (Some k))).
Proof.
  destruct (execute_write_frame s post m)
    as (b & m' & evs & E & Hl & _ & _ & _ & _ & _ & _ & Hc & _).
  exists b, m', (List.filter is_write evs). split; [exact E |].
  split; [rewrite Hl, List.filter_app; reflexivity |].
  destruct Hc as [(-> & _ & ->) | [(-> & _ & ->) | (d' & k & _ & -> & _ & ->)]].
  - left. split; reflexivity.
  - right. left. split; reflexivity.
  - right. right. split; [reflexivity |]. exists k. reflexivity.
Qed.

Lemma add_transaction_trace (uid : Z) (ty : string) (amount : pyfloat)
    (cat desc : string) (m : DatabaseManager) :
  exists (b : bool) (m' : DatabaseManager),
    add_transaction uid ty amount cat desc m = (Ok b, m')
    /\ omap committed_insert (List.filter is_write (log m'))
       = omap committed_insert (List.filter is_write (log m))
         ++ (if b then [InsTransaction uid ty amount cat desc] else []).
Proof.
  destruct (write_trace (InsTransaction uid ty amount cat desc) committed m)
    as (b & m' & wr & E & Hw & Hc).
  exists b, m'. split; [exact E |]. rewrite Hw, omap_app. f_equal.
  destruct Hc as [[-> ->] | [[-> ->] | [-> (k & ->)]]]; reflexivity.
Qed.

Lemma add_user_trace (uid : Z) (name currency : string)
    (m : DatabaseManager) :
  exists (b : bool) (m' : DatabaseManager),
    add_user uid name currency m = (Ok b, m')
    /\ omap committed_insert (List.filter is_write (log m'))
       = omap committed_insert (List.filter is_write (log m)).
Proof.
  unfold add_user, execute_update, execute_insert. unfold bind at 1.
  destruct (write_trace (UpdUser name currency uid) rows_affected m)
    as (b & m1 & wr & -> & Hw & Hc).
  assert (H1 : omap committed_insert (List.filter is_write (log m1))
               = omap committed_insert (List.filter is_write (log m))).
  { rewrite Hw, omap_app.
    destruct Hc as [[-> _] | [[-> _] | [-> _]]]; apply app_nil_r. }
  destruct b; [exists true, m1; split; [reflexivity | exact H1] |].
  destruct (write_trace (InsUser uid name currency) committed m1)
    as (b & m2 & wr' & -> & Hw' & Hc').
  exists b, m2. split; [reflexivity |]. rewrite Hw', omap_app, H1.
  destruct Hc' as [[-> _] | [[-> _] | [-> _]]]; apply app_nil_r.
Qed.

Lemma handle_message_mirror (msg : message) (h : FinanceBotHandlers) :
  let h' := snd (handle_message msg h) in
  exists new,
    committed_transactions h' = committed_transactions h ++ new
    /\ mirrored_transactions h' = mirrored_transactions h ++ new.
Proof.
  cbv zeta.
  assert (Hsame : forall h1 : FinanceBotHandlers,
             write_events h1 = write_events h -> backups h1 = backups h ->
             exists new,
               committed_transactions h1 = committed_transactions h ++ new
               /\ mirrored_transactions h1 = mirrored_transactions h ++ new).
  { intros h1 Hw Hb. exists [].
    unfold committed_transactions, mirrored_transactions.
    rewrite Hw, Hb, !app_nil_r. split; reflexivity. }
  assert (Hsend : forall chat text kb (h1 : FinanceBotHandlers),
             backups (emit (SendMessage chat text kb) h1) = backups h1).
  { intros chat text kb h1. unfold backups, emit. cbn [effects].
    rewrite List.filter_app. cbn. apply app_nil_r. }
  unfold handle_message.
  destruct (user_states h !! msg_from_user msg) as [info |] eqn:Hs.
  2: { apply Hsame; [reflexivity | apply Hsend]. }
  destruct (state_is info "waiting_amount") eqn:Ha.
  - destruct (py_float (msg_text msg)) as [amount |].
    2: { apply Hsame; [reflexivity | apply Hsend]. }
    match goal with
    | |- context [prompt_category ?a ?b ?c] =>
        pose proof (prompt_category_frame a b c) as (_ & _ & Hw & Hb);
        destruct (prompt_category a b c) as [[[] | e] h'] eqn:Ep
    end; cbn [snd] in *.
    + apply Hsame; assumption.
    + destruct e; cbn [snd]; apply Hsame;
        first [assumption | rewrite Hsend; assumption].
  - destruct (state_is info "waiting_description") eqn:Hd.
    2: { apply Hsame; reflexivity. }
    unfold save_transaction. cbn [db_manager set_states].
    destruct (db_manager h) as [m |] eqn:Em.
    2: { cbn [snd]. apply Hsame.
         - unfold write_events. cbn. rewrite Em. reflexivity.
         - unfold backups. cbn. rewrite List.filter_app. cbn.
           apply app_nil_r. }
    cbn [si_type si_amount si_description si_category].
    destruct (si_type info) as [ty |]; [| apply Hsame; reflexivity].
    destruct (si_amount info) as [amount |]; [| apply Hsame; reflexivity].
    destruct (add_transaction_trace (msg_from_user msg) ty amount
                (default "Other" (si_category info)) (msg_text msg) m)
      as (b & m' & E & Ht).
    rewrite E.
    exists (if b
            then [InsTransaction (msg_from_user msg) ty amount
                    (default "Other" (si_category info)) (msg_text msg)]
            else []).
    unfold committed_transactions, mirrored_transactions, write_events,
      backups.
    rewrite Em.
    destruct b; cbn [snd db_manager effects clear_user_state emit set_manager
                       set_states]; rewrite Ht, !List.filter_app, !omap_app;
      cbn; rewrite ?app_nil_r; split; reflexivity.
Qed.

Lemma perform_mirror (c : command) (h : FinanceBotHandlers) :
  let h' := snd (perform c h) in
  exists new,
    committed_transactions h' = committed_transactions h ++ new
    /\ mirrored_transactions h' = mirrored_transactions h ++ new.
Proof.
  cbv zeta.
  assert (Hsame : forall h1 : FinanceBotHandlers,
             write_events h1 = write_events h -> backups h1 = backups h ->
             exists new,
               committed_transactions h1 = committed_transactions h ++ new
               /\ mirrored_transactions h1 = mirrored_transactions h ++ new).
  { intros h1 Hw Hb. exists [].
    unfold committed_transactions, mirrored_transactions.
    rewrite Hw, Hb, !app_nil_r. split; reflexivity. }
  destruct c as [[msg | msg | msg | call] | msg p | msg];
    cbn [perform dispatch].
  - apply Hsame; [reflexivity |].
    unfold backups. cbn. rewrite List.filter_app. cbn. apply app_nil_r.
  - apply Hsame; [reflexivity |].
    unfold backups. cbn. rewrite List.filter_app. cbn. apply app_nil_r.
  - apply handle_message_mirror.
  - destruct (handle_callback_cases call h) as (st & sent & -> & Hst).
    apply Hsame; [reflexivity |].
    unfold backups. cbn [snd effects]. rewrite !List.filter_app.
    destruct Hst as [[_ ->] | (info' & text & _ & -> & _)]; cbn;
      apply app_nil_r.
  - unfold start_command. cbn [db_manager clear_user_state set_states].
    destruct (db_manager h) as [m |] eqn:Em.
    + destruct (add_user_trace (msg_from_user msg) (display_name p) "RUB" m)
        as (b & m' & E & Ht).
      rewrite E. exists [].
      unfold committed_transactions, mirrored_transactions, write_events,
        backups.
      rewrite Em.
      destruct b; cbn [fst snd db_manager effects emit set_manager];
        rewrite Ht, List.filter_app; cbn; rewrite ?app_nil_r;
        split; reflexivity.
    + cbn [fst snd]. apply Hsame.
      * unfold write_events. cbn. rewrite Em. reflexivity.
      * unfold backups. cbn. rewrite List.filter_app. cbn. apply app_nil_r.
  - apply Hsame; [reflexivity |].
    unfold backups. cbn. rewrite List.filter_app. cbn. apply app_nil_r.
Qed.

(** X24. The spreadsheet mirror follows the table of transactions: over any
    sequence of [/start], [/help], [/add], [/cancel], texts and callbacks of
    any users, in every environment, the transactions handed to
    [backup_transaction] are exactly those whose INSERT was committed, with
    the same fields and in the same order.  Nothing is mirrored that was not
    stored, and nothing stored is left out. *)
Theorem mirror_matches_commits (cs : list command) (h0 : FinanceBotHandlers) :
  exists new,
    committed_transactions (run cs h0) = committed_transactions h0 ++ new
    /\ mirrored_transactions (run cs h0) = mirrored_transactions h0 ++ new.
Proof.
  revert h0. induction cs as [| c cs IH]; intros h0.
  - exists []. rewrite !app_nil_r. split; reflexivity.
  - destruct (perform_mirror c h0) as (new1 & Hc1 & Hm1).
    destruct (IH (snd (perform c h0))) as (new2 & Hc2 & Hm2).
    exists (new1 ++ new2). unfold run in *. cbn [fold_left].
    rewrite Hc2, Hm2, Hc1, Hm1, <- !app_assoc. split; reflexivity.
Qed.
